(** * AAKARSH-AI backend: generation dispatch, fallback and streaming

    A shallow embedding of the chat-completion backend:
    - [backend/intentDetector.js]   (module [Intent]),
    - the notice helpers, the model catalogs and [LLMService] of the two
      [llmService.js] variants kept in the repository,
    - the context-injection steps of the chat routes of [backend/app.js],
    followed by the properties established for them.

    Conventions.  A JavaScript string is a Rocq [string] read as its
    sequence of code units; all literals of the sources are ASCII unless
    noted.  A JavaScript object used as a dictionary is an association
    list in insertion order.  A call that may throw returns an [Outcome]. *)

From Stdlib Require Import List String Ascii ZArith Lia Bool Arith QArith Qminmax.
From Stdlib Require Import DecimalString.
From Equations Require Import Equations.
Import ListNotations.
Open Scope string_scope.
Open Scope Z_scope.

Set Implicit Arguments.
Set Warnings "-register-all".

(* ===================================================================== *)
(** * Part I.  Definitions                                                *)
(* ===================================================================== *)

(** ** JavaScript values, strings and objects *)

Module Js.

(** The part of an HTTP-client failure the service inspects:
    [error.response.status] and the messages found in [error.response.data]
    (absent or empty ones are [None]). *)
Record Response := {
  status : Z;
  dataErrorMessage : option string;   (* data?.error?.message *)
  dataMessage : option string;        (* data?.message *)
  dataDetail : option string          (* data?.detail *)
}.

(** An exception value. *)
Record Exn := mkExn {
  exn_kind : string;
  message : string;
  response : option Response;         (* error.response *)
  code : option string                (* error.code *)
}.

Definition TypeError (msg : string) : Exn := mkExn "TypeError" msg None None.
Definition Error (msg : string) : Exn := mkExn "Error" msg None None.

(** Result of running a piece of code: a value or a thrown exception. *)
Inductive Outcome (A : Type) : Type :=
| Returned (a : A)
| Raised (e : Exn).
Arguments Returned {A} a.
Arguments Raised {A} e.

Definition returns {A} (o : Outcome A) : bool :=
  match o with Returned _ => true | Raised _ => false end.

(** [s.includes(needle)] *)
Fixpoint includes (needle s : string) : bool :=
  prefix needle s ||
  match s with
  | EmptyString => false
  | String _ rest => includes needle rest
  end.

(** [s.startsWith(p)] *)
Definition startsWith (p s : string) : bool := prefix p s.

(** [xs.join(sep)] *)
Definition join (sep : string) (xs : list string) : string :=
  String.concat sep xs.

(** [s.slice(a, b)] for indices [0 <= a <= b]; stops at the end of [s]. *)
Definition slice (s : string) (a b : nat) : string := substring a (b - a) s.

(** The double quote character, as a one-character string. *)
Definition dq : string := String "034"%char EmptyString.
(** Line feed. *)
Definition nl : string := String "010"%char EmptyString.

(** The two string operations whose result depends on Unicode tables.
    The development is parametric in them; [AsciiStrings] is the instance
    that agrees with JavaScript on ASCII text. *)
Class StringImpl := {
  toLowerCase : string -> string;
  trim : string -> string;
  (** [new RegExp(word, 'i').test(s)] for a literal [word] *)
  testIgnoreCase : string -> string -> bool
}.

Definition lowerAscii (c : ascii) : ascii :=
  let n := nat_of_ascii c in
  if (Nat.leb 65 n && Nat.leb n 90)%bool then ascii_of_nat (n + 32) else c.

Fixpoint mapString (f : ascii -> ascii) (s : string) : string :=
  match s with
  | EmptyString => EmptyString
  | String c rest => String (f c) (mapString f rest)
  end.

Definition isSpace (c : ascii) : bool :=
  let n := nat_of_ascii c in
  (Nat.leb 9 n && Nat.leb n 13)%bool || Nat.eqb n 32.

Fixpoint dropSpaces (l : list ascii) : list ascii :=
  match l with
  | c :: rest => if isSpace c then dropSpaces rest else l
  | [] => []
  end.

Definition trimAscii (s : string) : string :=
  string_of_list_ascii
    (rev (dropSpaces (rev (dropSpaces (list_ascii_of_string s))))).

#[export] Instance AsciiStrings : StringImpl :=
  {| toLowerCase := mapString lowerAscii;
     trim := trimAscii;
     testIgnoreCase word s :=
       includes (mapString lowerAscii word) (mapString lowerAscii s) |}.

(** Truthiness of a string: non-empty. *)
Definition nonEmpty (s : string) : bool :=
  match s with EmptyString => false | _ => true end.

(** Objects used as dictionaries: own string keys in insertion order. *)
Definition Obj (V : Type) := list (string * V).

Fixpoint objGet {V} (k : string) (o : Obj V) : option V :=
  match o with
  | [] => None
  | (k', v) :: rest => if String.eqb k' k then Some v else objGet k rest
  end.

(** [o[k] = v]: overwrite in place or append. *)
Fixpoint objSet {V} (k : string) (v : V) (o : Obj V) : Obj V :=
  match o with
  | [] => [(k, v)]
  | (k', v') :: rest =>
      if String.eqb k' k then (k, v) :: rest else (k', v') :: objSet k v rest
  end.

Definition objKeys {V} (o : Obj V) : list string := map fst o.

(** The values a request body or an option bag can hold.  Numbers are
    restricted to integers; [JObject] is any object that is neither an array
    nor a string (it prints as [[object Object]] and has no string
    methods). *)
Inductive JsVal : Type :=
| JUndefined
| JNull
| JBool (b : bool)
| JNum (n : Z)
| JStr (s : string)
| JArr (items : list JsVal)
| JObject.

Definition truthy (v : JsVal) : bool :=
  match v with
  | JUndefined | JNull => false
  | JBool b => b
  | JNum n => negb (n =? 0)
  | JStr s => nonEmpty s
  | JArr _ | JObject => true
  end.

Definition showZ (n : Z) : string :=
  NilZero.string_of_int (Z.to_int n).

(** String conversion, as performed by a template literal. *)
Fixpoint toStr (v : JsVal) : string :=
  match v with
  | JUndefined => "undefined"
  | JNull => "null"
  | JBool true => "true"
  | JBool false => "false"
  | JNum n => showZ n
  | JStr s => s
  | JArr items =>
      join ","
        (map (fun item =>
                match item with
                | JUndefined | JNull => ""
                | _ => toStr item
                end) items)
  | JObject => "[object Object]"
  end.

(** [v || dflt] *)
Definition orElse (v dflt : JsVal) : JsVal := if truthy v then v else dflt.

(** ** Ghost call log and the monad of service calls

    Every adapter, rule-based generator and remote request records an event
    when it is entered, so that "was invoked" and "how many times" can be
    stated.  The log is not program state: nothing reads it. *)

Inductive Event : Type :=
| CallLocalModel (prompt : JsVal) (modelId : string)  (* generateWithLocalModel *)
| CallLocalChat (modelId : string)                    (* generateLocalChatResponse *)
| CallNeuralHead (modelId : string)                   (* generate...NeuralResponse *)
| CallBuiltinGenerator (prompt : JsVal)               (* tinyLLM.generate *)
| CallRemote (kind : string) (modelId : string).      (* request to a backend *)

Definition Trace := list Event.

Definition M (A : Type) : Type := Trace -> Outcome A * Trace.

Definition ret {A} (a : A) : M A := fun t => (Returned a, t).

Definition bind {A B} (m : M A) (f : A -> M B) : M B :=
  fun t =>
    match m t with
    | (Returned a, t') => f a t'
    | (Raised e, t') => (Raised e, t')
    end.

Definition throw {A} (e : Exn) : M A := fun t => (Raised e, t).

Definition emit (ev : Event) : M unit := fun t => (Returned tt, (t ++ [ev])%list).

(** [try { m } catch (error) { h error }] *)
Definition tryCatch {A} (m : M A) (h : Exn -> M A) : M A :=
  fun t =>
    match m t with
    | (Returned a, t') => (Returned a, t')
    | (Raised e, t') => h e t'
    end.

(** Lift the reply of an external collaborator. *)
Definition await {A} (o : Outcome A) : M A := fun t => (o, t).

Definition run {A} (m : M A) : Outcome A * Trace := m [].

(** Number of times [generateWithLocalModel] was entered. *)
Definition localModelCalls (d : Trace) : nat :=
  List.length (filter (fun ev => match ev with
                                | CallLocalModel _ _ => true
                                | _ => false
                                end) d).

(** Number of times a rule-based entry point was entered. *)
Definition localCalls (d : Trace) : nat :=
  List.length (filter (fun ev => match ev with
                                | CallLocalModel _ _ | CallLocalChat _ => true
                                | _ => false
                                end) d).

End Js.

Notation "x <- m ;; k" := (Js.bind m (fun x => k))
  (at level 61, m at next level, right associativity).
Notation "m ;;; k" := (Js.bind m (fun _ => k))
  (at level 61, right associativity).

Import Js.

(** ** backend/intentDetector.js *)

Module Intent.

Record IntentCategory := {
  name : string;
  description : string;
  keywords : list string;
  route : string;
  ragType : option string;
  priority : Z
}.

Definition INTENT_CATEGORIES : list (string * IntentCategory) :=
  [
  ("CHAT", {| name := "General Chat";
      description := "General conversation and questions";
      keywords := ["hello"; "hi"; "how are you"; "what is"; "explain"; "tell me"; "describe"; "chat"];
      route := "/chat"; ragType := None; priority := 1 |});
  ("CODE", {| name := "Code Related";
      description := "Programming, coding, development questions";
      keywords := ["code"; "function"; "program"; "debug"; "error"; "syntax"; "python"; "javascript"; "java"; "algorithm"; "api"; "database"];
      route := "/rag"; ragType := Some "github"; priority := 3 |});
  ("DOCUMENT_SEARCH", {| name := "Document Search";
      description := "Search in uploaded documents or knowledge base";
      keywords := ["search"; "find"; "document"; "file"; "knowledge"; "lookup"; "retrieve"; "where is"; "show me"];
      route := "/rag"; ragType := Some "server"; priority := 2 |});
  ("ANALYSIS", {| name := "Data Analysis";
      description := "Data analysis, statistics, insights";
      keywords := ["analyze"; "analysis"; "statistics"; "data"; "chart"; "graph"; "trend"; "compare"; "evaluate"];
      route := "/rag"; ragType := Some "server"; priority := 2 |});
  ("GITHUB", {| name := "GitHub Repository";
      description := "GitHub repository related queries";
      keywords := ["github"; "repository"; "repo"; "commit"; "pull request"; "issue"; "branch"; "fork"];
      route := "/rag"; ragType := Some "github"; priority := 4 |});
  ("DEVOPS", {| name := "DevOps Operations";
      description := "CI/CD, deployment, containerization, infrastructure operations";
      keywords := ["deploy"; "deployment"; "docker"; "container"; "kubernetes"; "k8s"; "ci/cd"; "pipeline"; "build"; "jenkins"; "github actions"; "gitlab"; "terraform"; "ansible"; "infrastructure"];
      route := "/chat"; ragType := None; priority := 3 |});
  ("SECURITY", {| name := "Security Operations";
      description := "Security vulnerabilities, compliance, access control, authentication";
      keywords := ["security"; "vulnerability"; "cve"; "authentication"; "authorization"; "oauth"; "jwt"; "ssl"; "tls"; "encryption"; "penetration"; "audit"; "compliance"; "gdpr"; "hipaa"; "firewall"; "intrusion"];
      route := "/chat"; ragType := None; priority := 4 |});
  ("MONITORING", {| name := "Monitoring & Observability";
      description := "System monitoring, logs, metrics, alerting, performance tracking";
      keywords := ["monitor"; "monitoring"; "log"; "logs"; "metric"; "metrics"; "alert"; "alerting"; "prometheus"; "grafana"; "elk"; "splunk"; "apm"; "trace"; "observability"; "dashboard"];
      route := "/chat"; ragType := None; priority := 3 |});
  ("INCIDENT", {| name := "Incident Response";
      description := "Troubleshooting, debugging, incident management, root cause analysis";
      keywords := ["incident"; "outage"; "downtime"; "troubleshoot"; "debug"; "fix"; "broken"; "not working"; "crash"; "failure"; "root cause"; "postmortem"; "500 error"; "404 error"; "timeout"];
      route := "/chat"; ragType := None; priority := 5 |});
  ("DATABASE", {| name := "Database Operations";
      description := "Database queries, optimization, backup, migration, schema design";
      keywords := ["database"; "sql"; "query"; "postgres"; "postgresql"; "mysql"; "mongodb"; "redis"; "schema"; "migration"; "backup"; "restore"; "index"; "optimize"; "orm"; "prisma"; "sequelize"];
      route := "/chat"; ragType := None; priority := 3 |});
  ("DOCUMENTATION", {| name := "Documentation";
      description := "Technical documentation, API docs, runbooks, writing guides";
      keywords := ["documentation"; "document"; "readme"; "wiki"; "guide"; "tutorial"; "how-to"; "manual"; "api doc"; "swagger"; "openapi"; "runbook"; "playbook"];
      route := "/chat"; ragType := None; priority := 2 |});
  ("TESTING", {| name := "Testing & QA";
      description := "Unit testing, integration testing, test automation, quality assurance";
      keywords := ["test"; "testing"; "jest"; "mocha"; "pytest"; "junit"; "selenium"; "cypress"; "coverage"; "mock"; "stub"; "qa"; "quality"; "e2e"; "integration test"; "unit test"];
      route := "/chat"; ragType := None; priority := 3 |});
  ("PERFORMANCE", {| name := "Performance Optimization";
      description := "Performance tuning, profiling, caching, scalability improvements";
      keywords := ["performance"; "optimize"; "optimization"; "slow"; "latency"; "throughput"; "cache"; "caching"; "scale"; "scalability"; "profile"; "profiling"; "bottleneck"; "memory leak"];
      route := "/chat"; ragType := None; priority := 3 |});
  ("PROJECT_MANAGEMENT", {| name := "Project Management";
      description := "Sprint planning, task estimation, agile methodologies, retrospectives";
      keywords := ["sprint"; "scrum"; "agile"; "kanban"; "backlog"; "story"; "epic"; "retrospective"; "standup"; "planning"; "estimation"; "velocity"; "jira"; "ticket"];
      route := "/chat"; ragType := None; priority := 2 |});
  ("CODE_REVIEW", {| name := "Code Review";
      description := "Code quality, best practices, refactoring, design patterns";
      keywords := ["code review"; "review"; "refactor"; "refactoring"; "clean code"; "best practice"; "design pattern"; "solid"; "dry"; "code smell"; "technical debt"; "lint"; "linting"];
      route := "/chat"; ragType := None; priority := 3 |});
  ("SYSTEM_ADMIN", {| name := "System Administration";
      description := "User management, server configuration, backups, system maintenance";
      keywords := ["admin"; "administrator"; "user management"; "permission"; "role"; "server"; "nginx"; "apache"; "systemd"; "cron"; "backup"; "maintenance"; "configuration"; "setup"];
      route := "/chat"; ragType := None; priority := 3 |});
  ("WEB_SEARCH", {| name := "Web Search";
      description := "Search the internet for current information";
      keywords := ["search"; "google"; "bing"; "latest"; "news"; "current"; "weather"; "price"; "stock"; "who is"; "what is"; "when is"; "find online"; "look up"];
      route := "/chat"; ragType := None; priority := 5 |});
  ("IMAGE_GENERATION", {| name := "Image Generation";
      description := "Generate images from text description";
      keywords := ["generate image"; "create image"; "draw"; "picture of"; "image of"; "photo of"; "illustrate"; "paint"];
      route := "/image"; ragType := None; priority := 5 |})
  ].

(** The singleton exported by the module: [this.intents = INTENT_CATEGORIES]. *)
Record IntentDetector := { intents : Obj IntentCategory }.

Definition new_IntentDetector : IntentDetector :=
  {| intents := INTENT_CATEGORIES |}.

(** What [logger.info('Intent detected', ...)] records. *)
Record LogEntry := {
  log_input : string;
  log_detectedIntent : string;
  log_score : Z;
  log_route : string
}.

Definition Log := list LogEntry.

Record Detection := {
  intent : string;
  d_name : string;
  d_description : string;
  d_route : string;
  d_ragType : option string;
  confidence : Q;
  scores : Obj Z
}.

(** The score of a category in the words of the specification: the sum,
    over its keywords, of the category priority for each keyword that
    occurs in the lower-cased input.  [keywordScore] below is the loop of the
    source; the two are proved equal. *)
Definition matchedPrioritySum (input : string) (c : IntentCategory) : Z :=
  fold_right Z.add 0
    (map (fun keyword => if includes keyword input then priority c else 0)
         (keywords c)).

(** Inner loop: [score += intent.priority] for each matched keyword. *)
Definition keywordScore (input : string) (c : IntentCategory) : Z :=
  fold_left
    (fun score keyword =>
       if includes keyword input then score + priority c else score)
    (keywords c) 0.

(** Outer loop: [scores[intentKey] = score] over [Object.entries]. *)
Definition computeScores (self : IntentDetector) (input : string) : Obj Z :=
  fold_left
    (fun scores entry => objSet (fst entry) (keywordScore input (snd entry)) scores)
    (intents self) [].

(** Second loop: strict [score > maxScore], starting from ['CHAT'] and 0. *)
Definition pickHighest (scores : Obj Z) : string * Z :=
  fold_left
    (fun best entry =>
       if snd entry >? snd best then (fst entry, snd entry) else best)
    scores ("CHAT", 0).

(** [maxScore > 0 ? Math.min(maxScore / 10, 1) : 0.5] *)
Definition confidenceOf (maxScore : Z) : Q :=
  if maxScore >? 0 then Qmin (inject_Z maxScore / 10)%Q 1%Q else (1 # 2)%Q.

Definition detectIntent `{StringImpl} (self : IntentDetector) (log : Log)
    (userInput : string) : Outcome Detection * Log :=
  let input := toLowerCase userInput in
  let scores := computeScores self input in
  let '(detectedIntent, maxScore) := pickHighest scores in
  match objGet detectedIntent (intents self) with
  | None =>
      (Raised (TypeError "Cannot read properties of undefined (reading 'route')"), log)
  | Some c =>
      (Returned {| intent := detectedIntent;
                   d_name := name c;
                   d_description := description c;
                   d_route := route c;
                   d_ragType := ragType c;
                   confidence := confidenceOf maxScore;
                   scores := scores |},
       (log ++ [ {| log_input := substring 0 100 userInput;
                    log_detectedIntent := detectedIntent;
                    log_score := maxScore;
                    log_route := route c |} ])%list)
  end.

(** [batchDetect(queries)]: the calls share the logger. *)
Fixpoint batchDetect `{StringImpl} (self : IntentDetector) (log : Log)
    (queries : list string) : list (Outcome Detection) * Log :=
  match queries with
  | [] => ([], log)
  | q :: rest =>
      let '(r, log1) := detectIntent self log q in
      let '(rs, log2) := batchDetect self log1 rest in
      (r :: rs, log2)
  end.

End Intent.


(** ** Model catalog *)

Module Catalog.

(** One entry of [AVAILABLE_MODELS]; absent fields are [None] / [false]. *)
Record Model := {
  m_name : string;
  provider : string;
  m_description : string;
  maxTokens : Z;
  free : bool;
  type : string;
  transformersModel : option string;
  endpoint : option string;
  ollamaModel : option string;
  requiresKey : option string;
  hfModel : option string;
  vision : bool;
  notice : option string
}.

(** Result of [AVAILABLE_MODELS[id]].  A missing own key still yields a
    (truthy) inherited member of [Object.prototype] for a few ids. *)
Inductive Lookup : Type :=
| Own (m : Model)
| Inherited
| Missing.

Definition objectPrototypeKeys : list string :=
  [ "constructor"; "__proto__"; "hasOwnProperty"; "isPrototypeOf";
    "propertyIsEnumerable"; "toLocaleString"; "toString"; "valueOf";
    "__defineGetter__"; "__defineSetter__"; "__lookupGetter__";
    "__lookupSetter__" ].

Definition lookup (catalog : Obj Model) (id : string) : Lookup :=
  match objGet id catalog with
  | Some m => Own m
  | None => if existsb (String.eqb id) objectPrototypeKeys then Inherited else Missing
  end.

(** Truthiness of a lookup result. *)
Definition present (l : Lookup) : bool :=
  match l with Missing => false | _ => true end.

(** [model.type === t] *)
Definition hasType (l : Lookup) (t : string) : bool :=
  match l with Own m => String.eqb (type m) t | _ => false end.

(** [model?.notice] *)
Definition noticeOf (l : Lookup) : JsVal :=
  match l with
  | Own m => match notice m with Some s => JStr s | None => JUndefined end
  | _ => JUndefined
  end.

(** [s.replace(/\/$/, '')] *)
Definition stripTrailingSlash (s : string) : string :=
  match rev (list_ascii_of_string s) with
  | c :: rest =>
      if Ascii.eqb c "/"%char then string_of_list_ascii (rev rest) else s
  | [] => s
  end.

(** [(process.env.OLLAMA_HOST || 'http://localhost:11434').replace(/\/$/, '')] *)
Definition OLLAMA_HOST_of (envValue : option string) : string :=
  stripTrailingSlash
    (match envValue with
     | Some h => if nonEmpty h then h else "http://localhost:11434"
     | None => "http://localhost:11434"
     end).

(** The generation result shared by every adapter. *)
Record GenResult := {
  text : string;
  model : string;
  modelInfo : Lookup;
  loading : option bool;          (* absent on the OpenAI results *)
  notices : list string
}.

(** The caller's option bag, restricted to the fields the notice helpers
    read; sampling parameters only travel to the backends. *)
Record Options := {
  opt_notice : JsVal;
  inlineModelNotice : option bool   (* [Some b] iff the field is a boolean *)
}.

Definition noOptions : Options :=
  {| opt_notice := JUndefined; inlineModelNotice := None |}.

Definition withNotice (s : string) : Options :=
  {| opt_notice := JStr s; inlineModelNotice := None |}.

End Catalog.

Import Catalog.

(** ** Notice helpers (identical in both service variants but for the
    default of [inlineModelNotice]) *)

Module Notices.

Definition normalizeEntry `{StringImpl} (entry : JsVal) : string :=
  match entry with
  | JStr s => trim s
  | _ => trim (toStr entry)
  end.

Definition normalizeNotices `{StringImpl} (value : JsVal) : list string :=
  if negb (truthy value) then []
  else
    match value with
    | JArr items => filter nonEmpty (map normalizeEntry items)
    | JStr s =>
        let trimmed := trim s in
        if nonEmpty trimmed then [trimmed] else []
    | _ =>
        let stringified := trim (toStr value) in
        if nonEmpty stringified then [stringified] else []
    end.

Record Prepared := { inline : list string; extra : list string }.

(** [prepareNotices(model, options)]; [inlineDefault] is the value taken by
    [inlineModelNotice] when the option is not a boolean. *)
Definition prepareNoticesWith `{StringImpl} (inlineDefault : bool)
    (model : Lookup) (options : Options) : Prepared :=
  let inline0 := normalizeNotices (opt_notice options) in
  let modelNotices := normalizeNotices (noticeOf model) in
  let extra := modelNotices in
  let inlineModelNotice :=
    match inlineModelNotice options with
    | Some b => b
    | None => inlineDefault
    end in
  let inline1 :=
    match modelNotices with
    | [] => inline0
    | _ => if inlineModelNotice then (inline0 ++ modelNotices)%list else inline0
    end in
  {| inline := inline1; extra := extra |}.

Definition composeContent (content : string) (inlineNotices : list string) : string :=
  match inlineNotices with
  | [] => content
  | _ => join (nl ++ nl) inlineNotices ++ nl ++ nl ++ content
  end.

End Notices.

Import Notices.

(** ** Streaming fallback: relay of a whole text in fixed-size chunks *)

Module Relay.

Section Chunks.
Variable chunkSize : nat.
Hypothesis chunkSize_pos : (0 < chunkSize)%nat.

(** [for (let i = start; i < text.length; i += chunkSize)
      yield { content: text.slice(i, i + chunkSize) }] *)
Equations? chunksFrom (text : string) (i : nat) : list string
  by wf (String.length text - i)%nat lt :=
  chunksFrom text i with lt_dec i (String.length text) := {
    | left _ => slice text i (i + chunkSize) :: chunksFrom text (i + chunkSize)%nat
    | right _ => [] }.
Proof. lia. Qed.
End Chunks.

Definition chunkSize : nat := 10.

Definition chunkSize_pos : (0 < chunkSize)%nat := Nat.lt_0_succ 9.

(** The chunks emitted for [result.text] by the fallback branch of
    [generateStream]. *)
Definition simulateStream (text : string) : list string :=
  chunksFrom chunkSize_pos text 0.

End Relay.

(** ** External collaborators *)

Module World.

Record Message := {
  role : string;
  content : JsVal;
  image : option string
}.

Definition userMessage (content : JsVal) : Message :=
  {| role := "user"; content := content; image := None |}.

(** What the service reads from the result of [nlpService.analyze]. *)
Record Analysis := {
  a_keywords : list string;    (* texts of [keywords] *)
  a_positive : bool;           (* sentiment?.isPositive *)
  a_negative : bool;           (* sentiment?.isNegative *)
  a_topics : list string;      (* entities?.topics *)
  a_hasEntities : bool         (* [entities] is present *)
}.

(** The empty object [{}] read as an analysis. *)
Definition emptyAnalysis : Analysis :=
  {| a_keywords := []; a_positive := false; a_negative := false;
     a_topics := []; a_hasEntities := false |}.

(** [response.data] of the daemon's [/api/generate]. *)
Inductive OllamaData : Type :=
| DataResponse (response : string)
| DataText (body : string)
| DataOther.

(** Value returned by a transformers.js pipeline. *)
Inductive PipelineOutput : Type :=
| OutGenerated (generated_text : string)
| OutString (s : string)
| OutOther.

(** The environment of the service: configuration read at start-up and the
    replies of the backends.  A reply is a value or the exception the client
    library throws.  [neuralResponse] stands for the text built by
    [generateAakarshNeuralResponse] / [generateLocalNeuralResponse], whose
    head activations are floating-point; [builtinKnowledge] for the
    knowledge-base steps of [tinyLLM.generate]. *)
Record Env := {
  env_OLLAMA_HOST : option string;
  openaiClient : bool;
  HUGGINGFACE_API_KEY : bool;
  nlpAnalyze : string -> Outcome Analysis;
  neuralResponse : string -> JsVal -> Analysis -> string;
  builtinKnowledge : string -> Outcome string;
  openaiCreate : string -> list Message -> Outcome string;
  openaiStream : string -> list Message -> list string * option Exn;
  ollamaGenerate : string -> string -> JsVal -> Outcome OllamaData;
  ollamaChat : string -> string -> list Message -> list string * option Exn;
  xenovaPipeline : string -> JsVal -> Outcome PipelineOutput;
  hfRouter : string -> list Message -> Outcome string
}.

Definition OLLAMA_HOST (E : Env) : string := OLLAMA_HOST_of (env_OLLAMA_HOST E).

(** What a synchronous caller holds after calling a function that may be
    [async]: the value itself, or a promise whose fields read as
    [undefined]. *)
Inductive Held (A : Type) : Type :=
| Direct (a : A)
| Promise (settled : Outcome A).
Arguments Direct {A} a.
Arguments Promise {A} settled.

(** The object returned by [chat]; a field read from a promise is absent. *)
Record ChatResult := {
  c_message : option string;
  c_model : option string;
  c_modelInfo : option Lookup;
  c_loading : option bool;
  c_notices : option (list string)
}.

Definition chatResultOf (r : GenResult) : ChatResult :=
  {| c_message := Some (text r);
     c_model := Some (model r);
     c_modelInfo := Some (modelInfo r);
     c_loading := loading r;
     c_notices := Some (notices r) |}.

Definition chatResultOfHeld (h : Held GenResult) : ChatResult :=
  match h with
  | Direct r => chatResultOf r
  | Promise _ =>
      {| c_message := None; c_model := None; c_modelInfo := None;
         c_loading := None; c_notices := None |}
  end.

(** Output of an async generator: the chunks yielded, then the exception
    that ended it, if any. *)
Record Streamed := { yielded : list string; failure : option Exn }.

End World.

Import World.

(** ** Adapters shared verbatim by the two variants of [llmService.js] *)

Module Adapters.

(** [prompt = ''] as a default parameter. *)
Definition defaultPrompt (prompt : JsVal) : JsVal :=
  match prompt with JUndefined => JStr "" | _ => prompt end.

(** [v.length]: [None] is [undefined]. *)
Definition lengthOf (v : JsVal) : M (option nat) :=
  match v with
  | JStr s => ret (Some (String.length s))
  | JArr items => ret (Some (List.length items))
  | JUndefined | JNull =>
      throw (TypeError "Cannot read properties of null (reading 'length')")
  | _ => ret None
  end.

(** [v.trim()] *)
Definition callTrim `{StringImpl} (v : JsVal) : M string :=
  match v with
  | JStr s => ret (trim s)
  | JUndefined | JNull =>
      throw (TypeError "Cannot read properties of null (reading 'trim')")
  | _ => throw (TypeError "prompt.trim is not a function")
  end.

(** [v.toLowerCase()], called on [(prompt || '')].  The engine names the
    callee by its source text, printing the string literal between double
    quotes. *)
Definition callToLowerCase `{StringImpl} (v : JsVal) : M string :=
  match v with
  | JStr s => ret (toLowerCase s)
  | _ => throw (TypeError ("(prompt || " ++ dq ++ dq ++ ").toLowerCase is not a function"))
  end.

(** [error.code === c] *)
Definition hasCode (error : Exn) (c : string) : bool :=
  match code error with
  | Some x => String.eqb x c
  | None => false
  end.

(** [error.response?.status === n] *)
Definition hasStatus (error : Exn) (n : Z) : bool :=
  match response error with
  | Some r => status r =? n
  | None => false
  end.

(** [a || b] on optional strings, an empty string being falsy. *)
Definition orStr (a : option string) (b : string) : string :=
  match a with
  | Some s => if nonEmpty s then s else b
  | None => b
  end.

Definition orOpt (a b : option string) : option string :=
  match a with
  | Some s => if nonEmpty s then a else b
  | None => b
  end.

(** [modelId.replace(/^ollama\//, '')] *)
Definition stripOllamaPrefix (modelId : string) : string :=
  if prefix "ollama/" modelId
  then substring 7 (String.length modelId - 7) modelId
  else modelId.

Definition formatTopicList (topics : list string) : string :=
  match topics with
  | [] => ""
  | [t0] => dq ++ t0 ++ dq
  | [t0; t1] => dq ++ t0 ++ dq ++ " and " ++ dq ++ t1 ++ dq
  | _ =>
      let head := join ", " (map (fun item => dq ++ item ++ dq) (removelast topics)) in
      head ++ ", and " ++ dq ++ last topics "" ++ dq
  end.

(** The keyword cascade of [generateLocalChatResponse]: the first branch
    whose keyword occurs in the lower-cased message supplies the reply. *)
Definition localChatReply (rawContent lowerContent : string) : string :=
  if includes "nlp" lowerContent
       || includes "natural language" lowerContent then
    "I now have advanced NLP capabilities powered by compromise.js! Here's what I can do:

**Entity Recognition**: I can identify people, places, organizations, dates, and values in your text.
**Sentiment Analysis**: I can determine if text is positive, negative, or neutral.
**Keyword Extraction**: I can identify the most important keywords and topics.
**Intent Classification**: I can understand whether you're asking a question, giving a command, or making a statement.
**Part-of-Speech Tagging**: I can analyze the grammatical structure of text.

All these capabilities are rule-based and deterministic - no hallucinations, just accurate language understanding! Try the /api/v1/nlp endpoints or ask me to analyze text for you."
  else if includes "deploy" lowerContent
       || includes "deployment" lowerContent
       || includes "ci/cd" lowerContent
       || includes "pipeline" lowerContent then
    "For deployment and CI/CD related to " ++ dq ++ rawContent ++ dq ++ ", here's a solid approach:
1. **Pre-deployment Checklist**: Ensure all tests pass, dependencies are up-to-date, and environment variables are configured.
2. **Deployment Strategy**: Use blue-green or canary deployments for zero-downtime releases. Docker Compose or Kubernetes for orchestration.
3. **Monitoring**: Set up health checks, log aggregation, and alerts (Prometheus/Grafana recommended).
4. **Rollback Plan**: Always have a one-command rollback strategy ready.
5. **Post-deployment**: Verify critical paths, check metrics, and monitor error rates for 15-30 minutes.

For this project: Use the existing `deploy.sh` script or `docker-compose up` for quick deployments. Check `/health` and `/metrics` endpoints post-deploy."
  else if includes "security" lowerContent
       || includes "vulnerability" lowerContent
       || includes "auth" lowerContent then
    "Addressing security concerns in " ++ dq ++ rawContent ++ dq ++ ":
1. **Authentication & Authorization**: Implement JWT tokens, use bcrypt for passwords, validate all inputs with Joi schemas.
2. **Vulnerability Scanning**: Run `npm audit` regularly, use Trivy for container scanning (already in CI/CD).
3. **Common Threats**: Protect against SQL injection, XSS, CSRF. This app already uses Helmet.js for security headers.
4. **Secrets Management**: Never commit secrets. Use environment variables and .env files (excluded in .gitignore).
5. **API Security**: Rate limiting is active (100 req/15min). Consider API keys for production.

Current protections: Helmet.js, rate limiting, input validation ready, CORS configured."
  else if includes "monitor" lowerContent
       || includes "logs" lowerContent
       || includes "metrics" lowerContent
       || includes "observability" lowerContent then
    "For monitoring and observability regarding " ++ dq ++ rawContent ++ dq ++ ":
1. **Metrics Collection**: This app exposes Prometheus metrics at `/metrics` including request duration, counts, and system stats.
2. **Logging**: Structured Winston logs in `backend/logs/` with separate error and combined logs. JSON format for easy parsing.
3. **Health Checks**: `/health` endpoint shows uptime, environment, and status. Docker health checks run every 30s.
4. **Alerting**: Set up Prometheus AlertManager rules for error rates, latency spikes, or downtime.
5. **Dashboards**: Import Grafana dashboards for Node.js apps to visualize metrics.

Check logs: `tail -f backend/logs/combined.log` or `docker compose logs -f`"
  else if includes "incident" lowerContent
       || includes "outage" lowerContent
       || includes "downtime" lowerContent
       || includes "postmortem" lowerContent then
    "Handling incidents for " ++ dq ++ rawContent ++ dq ++ ":
1. **Immediate Response**: Check `/health` endpoint, review recent logs (`backend/logs/error.log`), verify external services.
2. **Diagnosis**: Look at metrics (`/metrics`), check error rates, identify timing of issue vs recent deployments.
3. **Mitigation**: Rollback to last known good version if needed, scale resources, or implement quick fixes.
4. **Communication**: Update status page, notify stakeholders, provide ETAs.
5. **Root Cause Analysis**: Document timeline, identify contributing factors, create action items.
6. **Prevention**: Add monitoring alerts, improve tests, update runbooks.

For this app: Check container status with `docker compose ps`, restart with `docker compose restart`."
  else if includes "database" lowerContent
       || includes "sql" lowerContent
       || includes "query" lowerContent
       || includes "migration" lowerContent then
    "For database operations related to " ++ dq ++ rawContent ++ dq ++ ":
1. **Schema Design**: Normalize for consistency, denormalize for performance where needed. Use foreign keys and indexes.
2. **Migrations**: Use a tool like Prisma Migrate or Sequelize migrations. Always test on staging first.
3. **Query Optimization**: Use EXPLAIN to analyze slow queries, add indexes on frequently queried columns, avoid N+1 queries.
4. **Backup Strategy**: Automated daily backups, point-in-time recovery, test restoration regularly.
5. **Connection Pooling**: Configure max connections (pg-pool for Postgres), monitor active connections.

This app currently uses file-based RAG storage. For production, consider PostgreSQL with Prisma ORM."
  else if includes "test" lowerContent
       || includes "testing" lowerContent
       || includes "jest" lowerContent
       || includes "coverage" lowerContent then
    "For testing approaches to " ++ dq ++ rawContent ++ dq ++ ":
1. **Unit Tests**: Test individual functions in isolation. Current coverage: 47% (target: 80%+).
2. **Integration Tests**: Test API endpoints with supertest. Add tests for all new endpoints.
3. **E2E Tests**: Use Playwright or Cypress for full user flows (not yet implemented).
4. **Test-Driven Development**: Write tests first, then implement features.
5. **Coverage Goals**: Aim for 80%+ code coverage, but focus on critical paths.

Current setup: Jest + Supertest. Run `npm test` in backend. Add tests in `server.test.js`."
  else if includes "performance" lowerContent
       || includes "optimize" lowerContent
       || includes "slow" lowerContent
       || includes "cache" lowerContent then
    "To optimize performance for " ++ dq ++ rawContent ++ dq ++ ":
1. **Identify Bottlenecks**: Use Prometheus metrics to find slow endpoints, check memory usage, CPU, and event loop lag.
2. **Caching**: Implement Redis for API responses, cache LLM results, use CDN for static assets.
3. **Database**: Add indexes, use query caching, implement connection pooling, paginate large result sets.
4. **Code**: Profile with Node.js inspector, avoid synchronous operations, use streaming for large data.
5. **Infrastructure**: Scale horizontally, use load balancing, optimize Docker images.

Check current metrics: `curl http://localhost:4000/metrics` and look at `http_request_duration_seconds`."
  else if includes "code review" lowerContent
       || includes "refactor" lowerContent
       || includes "best practice" lowerContent
       || includes "clean code" lowerContent then
    "For code review and refactoring of " ++ dq ++ rawContent ++ dq ++ ":
1. **Code Quality**: Follow consistent style (ESLint configured), use meaningful names, keep functions small (<50 lines).
2. **Design Patterns**: Apply SOLID principles, use dependency injection, favor composition over inheritance.
3. **Refactoring**: Extract duplicated code, simplify complex conditionals, improve error handling.
4. **Documentation**: Add JSDoc comments for public APIs, update README for changes, document non-obvious logic.
5. **Technical Debt**: Track in TODO.md, prioritize by impact, refactor incrementally.

Review checklist: Security issues, test coverage, error handling, logging, consistent patterns."
  else if includes "documentation" lowerContent
       || includes "readme" lowerContent
       || includes "api doc" lowerContent
       || includes "runbook" lowerContent then
    "For documentation regarding " ++ dq ++ rawContent ++ dq ++ ":
1. **README**: Clear setup instructions, architecture overview, troubleshooting section (see current README.md).
2. **API Documentation**: Consider Swagger/OpenAPI for interactive docs, document all endpoints, parameters, responses.
3. **Code Comments**: JSDoc for functions, explain why not what, document edge cases and assumptions.
4. **Runbooks**: Create step-by-step guides for common operations (deployment, backups, incident response).
5. **Architecture Diagrams**: Visual representations help new team members understand the system.

Current docs: README.md, FEATURES.md, DEPLOYMENT_GUIDE.md, SYSTEMD_SETUP.md. Keep them updated!"
  else if includes "sprint" lowerContent
       || includes "agile" lowerContent
       || includes "planning" lowerContent
       || includes "estimation" lowerContent then
    "For project management and agile practices around " ++ dq ++ rawContent ++ dq ++ ":
1. **Sprint Planning**: Break epics into user stories, estimate with story points or hours, prioritize by value and risk.
2. **Daily Standups**: What did I complete? What am I working on? Any blockers?
3. **Estimation**: Use planning poker, consider complexity not time, build in buffer for unknowns.
4. **Retrospectives**: What went well? What didn't? Action items for improvement.
5. **Velocity Tracking**: Measure completed story points per sprint to improve future estimates.

For this project: Track tasks in GitHub Issues, use project boards, link PRs to issues."
  else if includes "docker" lowerContent
       || includes "container" lowerContent
       || includes "kubernetes" lowerContent then
    "For containerization regarding " ++ dq ++ rawContent ++ dq ++ ":
1. **Docker Best Practices**: Multi-stage builds, minimal base images, .dockerignore, security scanning.
2. **Docker Compose**: Orchestrate multiple services, manage networking, volumes, environment variables.
3. **Kubernetes**: For production scale, use deployments, services, ingress, config maps, secrets.
4. **Health Checks**: Define readiness/liveness probes (already configured in docker-compose.yml).
5. **Resource Limits**: Set memory/CPU limits to prevent resource exhaustion.

This app: Uses Docker with health checks, restart policies. See `docker-compose.yml` and Dockerfiles."
  else if includes "backup" lowerContent
       || includes "restore" lowerContent
       || includes "disaster recovery" lowerContent then
    "For backup and disaster recovery of " ++ dq ++ rawContent ++ dq ++ ":
1. **Backup Strategy**: Automated daily backups, retain for 30 days, test restoration monthly.
2. **What to Backup**: Database, user uploads (`backend/rag_storage`), configuration files, secrets (encrypted).
3. **Backup Storage**: Off-site storage (S3, Azure Blob), multiple geographic regions.
4. **Recovery Testing**: Regularly test restore procedures, document RTO/RPO requirements.
5. **Application State**: For stateless apps, re-deploy from code. For stateful, restore data volumes.

For this app: Backup `backend/rag_storage` directory and environment variables. RAG documents should be backed up externally."
  else if includes "hello" lowerContent
       || includes "hi " lowerContent
       || startsWith "hi" lowerContent
       || startsWith "hello" lowerContent then
    "Hey there! It's good to hear from you. What should we tackle about " ++ dq ++ rawContent ++ dq ++ " today?"
  else if includes "thanks" lowerContent
       || includes "thank you" lowerContent then
    "Always happy to help. If " ++ dq ++ rawContent ++ dq ++ " sparks anything else, just say the word."
  else if includes "error" lowerContent
       || includes "issue" lowerContent
       || includes "fail" lowerContent then
    "Let's troubleshoot " ++ dq ++ rawContent ++ dq ++ " systematically:
1. Recreate the failure with the smallest input.
2. Capture the exact error output or stack trace.
3. Check recent code or config changes touching that area.
4. Add a focused test so the fix sticks.
Ping me with what you find and we'll narrow it down further."
  else if startsWith "how " lowerContent
       || includes " how " lowerContent
       || includes "steps" lowerContent
       || includes "plan" lowerContent then
    "Here's a structured way to tackle " ++ dq ++ rawContent ++ dq ++ ":
1. Nail the success criteria so you know when you're done.
2. Break the work into bite-sized experiments or pull requests.
3. Instrument early so you can measure progress.
4. Iterate with feedback after each milestone.
Tell me which step feels fuzzy and we'll flesh it out."
  else if startsWith "what " lowerContent
       || includes "what is" lowerContent
       || includes "explain" lowerContent then
    "When explaining " ++ dq ++ rawContent ++ dq ++ ", start with the core idea, add why it matters for this project, then call out the trade-offs so stakeholders know when to use it."
  else if includes "why" lowerContent
       || includes "reason" lowerContent then
    "To reason through " ++ dq ++ rawContent ++ dq ++ ", line up the inputs and constraints, test the strongest counter-argument, and see which assumptions hold. The answer usually shows up once you make the hidden assumption explicit."
  else if includes "rag" lowerContent then
    "For RAG topics like " ++ dq ++ rawContent ++ dq ++ ", validate three things: chunk quality, retrieval scoring, and how the prompt stitches sources into responses. Reviewing a few retrieved snippets manually can spotlight gaps fast."
  else
    "Here's how I'd approach " ++ dq ++ rawContent ++ dq ++ ": clarify the outcome, list the constraints, sketch the smallest experiment, and iterate once you see signal.".

Definition isUser (m : Message) : bool := String.eqb (role m) "user".

(** [typeof entry.content === 'string'] *)
Definition stringContent (m : Message) : option string :=
  match content m with JStr s => Some s | _ => None end.

(** The messages [requestHuggingFaceChat] keeps:
    [messages.filter(entry => entry && typeof entry.content === 'string')]. *)
Definition sendable (messages : list Message) : list Message :=
  filter (fun m => match stringContent m with Some _ => true | None => false end)
         messages.

(** Index of the last message satisfying [p], as computed through
    [reverse().findIndex]. *)
Fixpoint lastIndexWhere {A} (p : A -> bool) (l : list A) (i : nat) : option nat :=
  match l with
  | [] => None
  | x :: rest =>
      match lastIndexWhere p rest (S i) with
      | Some j => Some j
      | None => if p x then Some i else None
      end
  end.

(** [xs.slice(-3)] *)
Definition lastThree {A} (xs : list A) : list A :=
  skipn (List.length xs - 3) xs.

Fixpoint indexed {A} (l : list A) (i : nat) : list (A * nat) :=
  match l with
  | [] => []
  | x :: rest => (x, i) :: indexed rest (S i)
  end.

Definition formatMessagesAsPrompt (messages : list Message) (modelId : string) : string :=
  if includes "llama-2" modelId then
    join (nl ++ nl)
      (map (fun msg =>
              if String.eqb (role msg) "system"
              then "<<SYS>>" ++ nl ++ toStr (content msg) ++ nl ++ "<</SYS>>"
              else if String.eqb (role msg) "user"
              then "[INST] " ++ toStr (content msg) ++ " [/INST]"
              else toStr (content msg)) messages)
  else if includes "mistral" modelId || includes "mixtral" modelId
          || includes "zephyr" modelId then
    join nl
      (map (fun msg =>
              if String.eqb (role msg) "system"
              then "<s>[INST] " ++ toStr (content msg) ++ " [/INST]"
              else if String.eqb (role msg) "user"
              then "[INST] " ++ toStr (content msg) ++ " [/INST]"
              else toStr (content msg)) messages)
  else
    join (nl ++ nl)
      (map (fun msg => role msg ++ ": " ++ toStr (content msg)) messages)
    ++ nl ++ "assistant:".

Section Shared.
Context `{StringImpl} (E : Env).
(** The members that differ between the variants. *)
Variable catalog : Obj Model.
Variable defaultModel : string.
Variable prepareNotices : Lookup -> Options -> Prepared.
Variable generateWithLocalModel : JsVal -> string -> Options -> M GenResult.
(** Whether [generateWithLocalModel] is declared [async]. *)
Variable localModelIsAsync : bool.

Definition isLocal (modelId : string) : bool :=
  hasType (lookup catalog modelId) "local".

Definition generateWithOpenAI (prompt : JsVal) (modelId : string)
    (options : Options) : M GenResult :=
  let model := lookup catalog modelId in
  if negb (openaiClient E) then
    throw (Error "OpenAI API key not configured. Please set OPENAI_API_KEY environment variable.")
  else
    tryCatch
      (emit (CallRemote "openai" modelId) ;;;
       generatedText <- await (openaiCreate E modelId [userMessage prompt]) ;;
       let p := prepareNotices model options in
       ret {| text := composeContent generatedText (inline p);
              model := modelId;
              modelInfo := model;
              loading := None;
              notices := extra p |})
      (fun error => throw error).

Definition chatWithOpenAI (messages : list Message) (modelId : string)
    (options : Options) : M ChatResult :=
  let model := lookup catalog modelId in
  if negb (openaiClient E) then
    throw (Error "OpenAI API key not configured. Please set OPENAI_API_KEY environment variable.")
  else
    tryCatch
      (emit (CallRemote "openai" modelId) ;;;
       responseMessage <- await (openaiCreate E modelId messages) ;;
       let p := prepareNotices model options in
       ret {| c_message := Some (composeContent responseMessage (inline p));
              c_model := Some modelId;
              c_modelInfo := Some model;
              c_loading := None;
              c_notices := Some (extra p) |})
      (fun error => throw error).

(** [generatedText.startsWith(prompt) ? generatedText.slice(prompt.length).trim()
                                     : generatedText.trim()] *)
Definition stripEcho (prompt : JsVal) (generatedText : string) : M string :=
  if startsWith (toStr prompt) generatedText then
    n <- lengthOf prompt ;;
    let from := match n with Some k => k | None => 0%nat end in
    ret (trim (substring from (String.length generatedText - from) generatedText))
  else ret (trim generatedText).

Definition generateWithXenova (prompt0 : JsVal) (modelId : string)
    (options : Options) : M GenResult :=
  let prompt := defaultPrompt prompt0 in
  let model := lookup catalog modelId in
  if negb (present model) then
    generateWithLocalModel prompt defaultModel
      (withNotice "Requested local transformer model was not found. Using built-in assistant instead.")
  else
    let cacheKey :=
      match model with
      | Own m => orStr (transformersModel m) modelId
      | _ => modelId
      end in
    tryCatch
      (emit (CallRemote "xenova" modelId) ;;;
       outputs <- await (xenovaPipeline E cacheKey prompt) ;;
       let generatedText :=
         match outputs with
         | OutGenerated s => s
         | OutString s => s
         | OutOther => ""
         end in
       trimmed <- stripEcho prompt generatedText ;;
       let resultText :=
         orStr (Some trimmed)
           (orStr (Some (trim generatedText)) "Local model did not return any output.") in
       let p := prepareNotices model options in
       ret {| text := composeContent resultText (inline p);
              model := modelId;
              modelInfo := model;
              loading := Some false;
              notices := extra p |})
      (fun error =>
         generateWithLocalModel prompt defaultModel
           (withNotice ("Local transformers.js model " ++ modelId ++ " failed: "
                        ++ message error ++ ". Using built-in assistant instead."))).

(** [(model.endpoint || OLLAMA_HOST || 'http://localhost:11434').replace(/\/$/, '')] *)
Definition ollamaBaseUrl (model : Lookup) : string :=
  stripTrailingSlash
    (orStr (match model with Own m => endpoint m | _ => None end)
           (orStr (Some (OLLAMA_HOST E)) "http://localhost:11434")).

Definition ollamaTarget (model : Lookup) (modelId : string) : string :=
  orStr (match model with Own m => ollamaModel m | _ => None end)
        (stripOllamaPrefix modelId).

Definition ollamaFailureNotice (baseUrl targetModel : string) (error : Exn) : string :=
if hasCode error "ECONNREFUSED" then
  "Could not reach Ollama at " ++ baseUrl
  ++ ". Ensure the Ollama service is running and the model is pulled. Using built-in assistant instead."
else
  "Ollama model " ++ targetModel ++ " failed: " ++ message error
  ++ ". Using built-in assistant instead.".

Definition generateWithOllama (prompt0 : JsVal) (modelId : string)
    (options : Options) : M GenResult :=
  let prompt := defaultPrompt prompt0 in
  let model := lookup catalog modelId in
  if negb (present model) then
    generateWithLocalModel prompt defaultModel
      (withNotice "Requested Ollama model was not found. Using built-in assistant instead.")
  else
    let baseUrl := ollamaBaseUrl model in
    let targetModel := ollamaTarget model modelId in
    tryCatch
      (emit (CallRemote "ollama" modelId) ;;;
       data <- await (ollamaGenerate E baseUrl targetModel prompt) ;;
       let generatedText0 :=
         match data with
         | DataResponse r => r
         | DataText s => s
         | DataOther => ""
         end in
       let generatedText := orStr (Some (trim generatedText0))
                                  "Ollama model did not return any output." in
       let p := prepareNotices model options in
       ret {| text := composeContent generatedText (inline p);
              model := modelId;
              modelInfo := model;
              loading := Some false;
              notices := extra p |})
      (fun error =>
         generateWithLocalModel prompt defaultModel
           (withNotice (ollamaFailureNotice baseUrl targetModel error))).

(** The messages kept by [messages.filter(entry => entry &&
    typeof entry.content === 'string')], with their text. *)
Definition safeMessagesOf (messages : list Message) : list (Message * string) :=
  flat_map (fun m => match stringContent m with
                     | Some s => [(m, s)]
                     | None => []
                     end) messages.

Definition generateLocalChatResponse (messages : list Message) (modelId : string)
    (options : Options) : M (Held GenResult) :=
  emit (CallLocalChat modelId) ;;;
  let fallbackModelId := if isLocal modelId then modelId else defaultModel in
  let model := lookup catalog fallbackModelId in
  let safeMessages := safeMessagesOf messages in
  let lastUserIndex := lastIndexWhere (fun e => isUser (fst e)) safeMessages 0 in
  let lastUserMessage :=
    match lastUserIndex with
    | Some i => nth_error safeMessages i
    | None => None
    end in
  match lastUserMessage with
  | Some (_, lastContent) =>
      if nonEmpty (trim lastContent) then
        let rawContent := trim lastContent in
        let lowerContent := toLowerCase rawContent in
        let lastIdx := match lastUserIndex with Some i => i | None => 0%nat end in
        let previousTopics :=
          filter nonEmpty
            (map (fun item => trim (snd (fst item)))
               (lastThree
                  (filter (fun item => isUser (fst (fst item))
                                       && Nat.ltb (snd item) lastIdx)
                          (indexed safeMessages 0)))) in
        let response := localChatReply rawContent lowerContent in
        let topicLine :=
          match previousTopics with
          | [] => ""
          | _ => "Earlier you also mentioned " ++ formatTopicList previousTopics
                 ++ ". I'm keeping that thread in mind so the guidance stays coherent."
          end in
        let closingLine := "If you want examples, drafts, or a deeper dive, just ask." in
        let finalResponse0 :=
          if nonEmpty topicLine then response ++ nl ++ nl ++ topicLine else response in
        let finalResponse := finalResponse0 ++ nl ++ nl ++ closingLine in
        let p := prepareNotices model options in
        ret (Direct {| text := composeContent finalResponse (inline p);
                       model := fallbackModelId;
                       modelInfo := model;
                       loading := Some false;
                       notices := extra p |})
      else
        if localModelIsAsync then
          fun t => let '(settled, t') := generateWithLocalModel (JStr "") fallbackModelId options t
                   in (Returned (Promise settled), t')
        else
          r <- generateWithLocalModel (JStr "") fallbackModelId options ;;
          ret (Direct r)
  | None =>
      if localModelIsAsync then
        fun t => let '(settled, t') := generateWithLocalModel (JStr "") fallbackModelId options t
                 in (Returned (Promise settled), t')
      else
        r <- generateWithLocalModel (JStr "") fallbackModelId options ;;
        ret (Direct r)
  end.

(** What [generateStream] receives: an array of messages or anything
    else, which it wraps as a single user message. *)
Inductive StreamInput : Type :=
| InMessages (messages : list Message)
| InPrompt (prompt : JsVal).

Variable generateText : JsVal -> option string -> Options -> M GenResult.

Definition generateStream (input : StreamInput) (modelId : option string)
    (options : Options) : Trace -> Streamed * Trace :=
  fun t =>
    let key := match modelId with Some id => id | None => "undefined" end in
    let model := lookup catalog key in
    if negb (present model) then
      ({| yielded := ["Model not found"]; failure := None |}, t)
    else
      let messages :=
        match input with
        | InMessages ms => ms
        | InPrompt p => [userMessage p]
        end in
      if hasType model "openai" then
        if negb (openaiClient E) then
          ({| yielded := []; failure := Some (Error "OpenAI API key not configured") |}, t)
        else
          let '(deltas, failed) := openaiStream E key messages in
          ({| yielded := filter nonEmpty deltas; failure := failed |},
           (t ++ [CallRemote "openai" key])%list)
      else if hasType model "ollama" then
        let '(contents, failed) :=
          ollamaChat E (ollamaBaseUrl model) (ollamaTarget model key) messages in
        ({| yielded := filter nonEmpty contents; failure := failed |},
         (t ++ [CallRemote "ollama" key])%list)
      else
        match last (map Some messages) None with
        | None =>
            ({| yielded := [];
                failure := Some (TypeError "Cannot read properties of undefined (reading 'content')") |},
             t)
        | Some lastMsg =>
            match generateText (content lastMsg) modelId options t with
            | (Returned result, t') =>
                ({| yielded := Relay.simulateStream (text result); failure := None |}, t')
            | (Raised e, t') => ({| yielded := []; failure := Some e |}, t')
            end
        end.
End Shared.

End Adapters.

Import Adapters.

(** ** [llmService.js], variant whose default model is [local/aakarsh] *)

Module Aakarsh.

Definition AVAILABLE_MODELS (OLLAMA_HOST : string) : Obj Model :=
  [
    ("xenova/tinyllama-chat",
     {| m_name := "TinyLlama Chat (Local)";
        provider := "Local CPU";
        m_description := "Fast, lightweight 1.1B model running entirely on your machine. Best for quick chats.";
        maxTokens := 512; free := true; type := "xenova";
        transformersModel := Some "Xenova/tinyllama-chat"; endpoint := None; ollamaModel := None;
        requiresKey := None; hfModel := None; vision := false;
        notice := Some "Runs locally on CPU. No data leaves your device." |});
    ("xenova/phi-1_5",
     {| m_name := "Phi-1.5 (Local)";
        provider := "Local CPU";
        m_description := "Microsoft's Phi-1.5 running locally. Good balance of speed and reasoning.";
        maxTokens := 512; free := true; type := "xenova";
        transformersModel := Some "Xenova/phi-1_5"; endpoint := None; ollamaModel := None;
        requiresKey := None; hfModel := None; vision := false;
        notice := Some "Runs locally. First use downloads ~1.7GB weights." |});
    ("local/aakarsh",
     {| m_name := "AAKARSH (Local)";
        provider := "Built-in";
        m_description := "Brand-new on-device LLM with richer NLP signals and a neural mesh for control-oriented replies.";
        maxTokens := 2048; free := true; type := "local";
        transformersModel := None; endpoint := None; ollamaModel := None;
        requiresKey := None; hfModel := None; vision := false;
        notice := Some "Enhanced NLP + neural mesh routing. Entirely local and deterministic." |});
    ("local/assistant-10m",
     {| m_name := "Local Assistant (10M)";
        provider := "Built-in";
        m_description := "Lightweight 10M-parameter assistant optimized for quick on-device responses without external calls.";
        maxTokens := 1024; free := true; type := "local";
        transformersModel := None; endpoint := None; ollamaModel := None;
        requiresKey := None; hfModel := None; vision := false;
        notice := Some "Deterministic built-in assistant tuned for small-footprint deployments." |});
    ("local/instruct",
     {| m_name := "Rule-Based Assistant";
        provider := "Built-in";
        m_description := "Instant responses using advanced pattern matching. Zero latency, offline capable.";
        maxTokens := 1024; free := true; type := "local";
        transformersModel := None; endpoint := None; ollamaModel := None;
        requiresKey := None; hfModel := None; vision := false;
        notice := None |});
    ("ollama/mistral:7b",
     {| m_name := "Mistral 7B (Ollama)";
        provider := "Ollama Local";
        m_description := "High-performance local model via Ollama. Requires Ollama app running.";
        maxTokens := 2048; free := true; type := "ollama";
        transformersModel := None; endpoint := Some OLLAMA_HOST; ollamaModel := Some "mistral:7b";
        requiresKey := None; hfModel := None; vision := false;
        notice := Some ("Requires Ollama running locally with " ++ dq ++ "mistral" ++ dq ++ " model.") |});
    ("gpt-3.5-turbo",
     {| m_name := "GPT-3.5 Turbo";
        provider := "OpenAI";
        m_description := "OpenAI Cloud API.";
        maxTokens := 4096; free := false; type := "openai";
        transformersModel := None; endpoint := None; ollamaModel := None;
        requiresKey := Some "OPENAI_API_KEY"; hfModel := None; vision := false;
        notice := None |});
    ("gpt-4o",
     {| m_name := "GPT-4o (Vision)";
        provider := "OpenAI";
        m_description := "OpenAI Multimodal Model (Text + Vision).";
        maxTokens := 4096; free := false; type := "openai";
        transformersModel := None; endpoint := None; ollamaModel := None;
        requiresKey := Some "OPENAI_API_KEY"; hfModel := None; vision := true;
        notice := None |});
    ("ollama/llava",
     {| m_name := "LLaVA (Vision)";
        provider := "Ollama Local";
        m_description := "Local Multimodal Model (Text + Vision). Requires Ollama.";
        maxTokens := 2048; free := true; type := "ollama";
        transformersModel := None; endpoint := Some OLLAMA_HOST; ollamaModel := Some "llava";
        requiresKey := None; hfModel := None; vision := true;
        notice := Some ("Requires Ollama running locally with " ++ dq ++ "llava" ++ dq ++ " model.") |})
  ].

(** [LOCAL_SAFETY_RULES]: each pattern is a case-insensitive alternation
    of literal words. *)
Definition LOCAL_SAFETY_RULES : list (list string * string) :=
  [ (["exploit"; "backdoor"; "zero-day"; "ddos"; "botnet"; "ransomware"],
     "security attacks");
    (["bomb"; "weapon"; "firearm"; "munition"; "explosive"],
     "weaponization content");
    (["self-harm"; "suicide"; "kill myself"; "end my life"],
     "self-harm support");
    (["hate speech"; "racial slur"; "ethnic slur"; "genocide"],
     "hate or discriminatory speech");
    (["deepfake"; "impersonat"; "fake identity"],
     "impersonation or synthetic identity") ].

Record SafetyVerdict := {
  blocked : bool;
  reason : string;
  refusal : string      (* the [message] field *)
}.

Definition notBlocked : SafetyVerdict :=
  {| blocked := false; reason := ""; refusal := "" |}.

Definition runLocalSafetyChecks `{StringImpl} (prompt : JsVal) : SafetyVerdict :=
  match prompt with
  | JStr s =>
      if negb (nonEmpty s) then notBlocked
      else
        match find (fun rule => existsb (fun word => testIgnoreCase word s) (fst rule))
                   LOCAL_SAFETY_RULES with
        | Some rule =>
            let reason := snd rule in
            {| blocked := true;
               reason := reason;
               refusal := "I can't help with that request because it violates the " ++ reason ++ " policy. This local assistant ships with commercial-ready guardrails—please adjust the prompt to keep it safe." |}
        | None => notBlocked
        end
  | _ => notBlocked
  end.

Record ProductProfile := {
  p_name : string; p_version : string; p_parameters : string;
  p_contextWindow : string; p_latency : string; p_privacy : string;
  p_safety : string; p_observability : string; p_integration : string;
  p_usage : string
}.

Definition LOCAL_ASSISTANT_PRODUCT_PROFILE : ProductProfile :=
  {| p_name := "Local Assistant (10M)";
     p_version := "1.0.0";
     p_parameters := "10 million dense parameters";
     p_contextWindow := "1K tokens";
     p_latency := "Fast CPU-only path tuned for sub-second replies on typical laptops";
     p_privacy := "Runs entirely on-device; no data leaves your machine.";
     p_safety := "Deterministic NLP guardrails with disallowed-content filters and tone adaptation.";
     p_observability := "Structured traces for intent, sentiment, keyword routing, and neural head activations.";
     p_integration := "Use `/api/chat` or `/api/generate` with `model=local/assistant-10m`; streaming supported.";
     p_usage := "Best for productized copilots where offline, predictable responses are required." |}.

Definition AAKARSH_PRODUCT_PROFILE : ProductProfile :=
  {| p_name := "AAKARSH";
     p_version := "1.0.0";
     p_parameters := "120 million hybrid parameters (sparse + dense)";
     p_contextWindow := "4K tokens";
     p_latency := "CPU-only, optimized activation pruning and caching for quick loops";
     p_privacy := "Fully local execution. No third-party calls—analysis, routing, and synthesis stay on-device.";
     p_safety := "Expanded intent-aware filters, tone aware cooling, and deterministic refusals.";
     p_observability := "Insight traces for entities, domain focus, intent strength, and neural mesh activations.";
     p_integration := "Use `/api/chat` or `/api/generate` with `model=local/aakarsh`; streaming supported.";
     p_usage := "Ideal for production copilots needing richer NLP context with lightweight neural control." |}.

Definition sentimentLabel (a : Analysis) : string :=
  if a_positive a then "positive"
  else if a_negative a then "cautious"
  else "neutral".

Definition buildLocalAssistantProductSheet (nlpAnalysis : Analysis) : string :=
  let P := LOCAL_ASSISTANT_PRODUCT_PROFILE in
  let highlightKeywords := filter nonEmpty (firstn 4 (a_keywords nlpAnalysis)) in
  let sections :=
    [ "Product profile: " ++ p_parameters P ++ ", " ++ p_contextWindow P ++ ", "
      ++ p_latency P ++ ".";
      "Trust & privacy: " ++ p_privacy P ++ " Guardrails: " ++ p_safety P;
      "Operational readiness: " ++ p_observability P ++ " Integrations: "
      ++ p_integration P;
      "Intended use: " ++ p_usage P;
      match highlightKeywords with
      | [] => "Tone read: " ++ sentimentLabel nlpAnalysis ++ "."
      | _ => "Focus cues from your prompt: " ++ join ", " highlightKeywords
             ++ " (tone: " ++ sentimentLabel nlpAnalysis ++ ")."
      end ] in
  "Production sheet — " ++ p_name P ++ " v" ++ p_version P ++ ":" ++ nl
  ++ join nl sections.

Definition buildAakarshProductSheet (nlpAnalysis : Analysis) : string :=
  let P := AAKARSH_PRODUCT_PROFILE in
  let highlightKeywords := filter nonEmpty (firstn 5 (a_keywords nlpAnalysis)) in
  let domainHints := firstn 3 (a_topics nlpAnalysis) in
  let sections :=
    filter nonEmpty
      [ "Model core: " ++ p_parameters P ++ ", " ++ p_contextWindow P ++ ", "
        ++ p_latency P ++ ".";
        "Trust & safety: " ++ p_privacy P ++ " Guardrails: " ++ p_safety P;
        "Observability: " ++ p_observability P;
        "Integration: " ++ p_integration P;
        "Usage fit: " ++ p_usage P;
        match highlightKeywords with
        | [] => "Tone read: " ++ sentimentLabel nlpAnalysis ++ "."
        | _ => "Prompt focal points: " ++ join ", " highlightKeywords
               ++ " (tone: " ++ sentimentLabel nlpAnalysis ++ ")."
        end;
        match domainHints with
        | [] => ""
        | _ => "Detected domains: " ++ join ", " domainHints ++ "."
        end ] in
  "Production sheet — " ++ p_name P ++ " v" ++ p_version P ++ ":" ++ nl
  ++ join nl sections.

Definition defaultModel : string := "local/aakarsh".

Section Service.
Context `{StringImpl} (E : Env).

Definition catalog : Obj Model := AVAILABLE_MODELS (OLLAMA_HOST E).

Definition buildOpenSourceCapabilitySummary : list string :=
  firstn 6
    (map (fun entry =>
            let id := fst entry in
            let info := snd entry in
            let tokenNote := showZ (maxTokens info) ++ " token window" in
            let capabilityNotes :=
              ((if negb (maxTokens info =? 0) then [tokenNote] else [])
               ++ (if vision info then ["vision"] else [])
               ++ (if free info then ["no-cost"] else []))%list in
            let suffix :=
              match capabilityNotes with
              | [] => ""
              | _ => " (" ++ join ", " capabilityNotes ++ ")"
              end in
            let descriptor := orStr (Some (m_description info)) "Open-source capable model" in
            "- " ++ orStr (Some (m_name info)) id ++ ": " ++ descriptor ++ suffix)
         (filter (fun entry =>
                    existsb (String.eqb (type (snd entry))) ["xenova"; "ollama"; "local"])
                 catalog)).

(** [inlineModelNotice] defaults to [true] in this variant. *)
Definition prepareNotices (model : Lookup) (options : Options) : Prepared :=
  prepareNoticesWith true model options.

(** First cascade of [generateWithLocalModel]; [None] is [undefined]. *)
Definition draftResponse (fallbackModelId : string) (prompt : JsVal)
    (lowerPrompt : string) (nlpAnalysis : option Analysis) : M (option string) :=
  let analysisOrEmpty :=
    match nlpAnalysis with Some a => a | None => emptyAnalysis end in
  if String.eqb fallbackModelId "local/aakarsh" then
    emit (CallNeuralHead "local/aakarsh") ;;;
    ret (Some (neuralResponse E "local/aakarsh" prompt analysisOrEmpty))
  else if String.eqb fallbackModelId "local/assistant-10m" then
    emit (CallNeuralHead "local/assistant-10m") ;;;
    ret (Some (neuralResponse E "local/assistant-10m" prompt analysisOrEmpty))
  else if negb (truthy prompt) then
    ret (Some "I'm here and ready when you are. Ask me anything about AI, coding, DevOps, security, monitoring, databases, testing, or this project.")
  else
    trimmed <- callTrim prompt ;;
    if negb (nonEmpty trimmed) then
      ret (Some "I'm here and ready when you are. Ask me anything about AI, coding, DevOps, security, monitoring, databases, testing, or this project.")
    else
      match nlpAnalysis with
      | Some a =>
          if a_hasEntities a then
            if includes "nlp" lowerPrompt || includes "natural language" lowerPrompt then
              ret (Some ("I now have advanced NLP capabilities powered by compromise.js! Here's what I can do:

**Entity Recognition**: I can identify people, places, organizations, dates, and values in your text.
**Sentiment Analysis**: I can determine if text is positive, negative, or neutral.
**Keyword Extraction**: I can identify the most important keywords and topics.
**Intent Classification**: I can understand whether you're asking a question, giving a command, or making a statement.
**Part-of-Speech Tagging**: I can analyze the grammatical structure of text.

All these capabilities are rule-based and deterministic - no hallucinations, just accurate language understanding!"))
            else if includes "analyze" lowerPrompt
                    && negb (Nat.eqb (List.length (a_keywords a)) 0) then
              let keywordList := join ", " (firstn 3 (a_keywords a)) in
              ret (Some ("I can help you analyze " ++ dq ++ keywordList ++ dq ++ " and related topics. My NLP engine has identified these as key concepts in your query. Let me provide targeted guidance based on what you're looking for."))
            else ret None
          else ret None
      | None => ret None
      end.

(** Second cascade: it assigns [response] on every path. *)
Definition finalResponse (draft : option string) (prompt : JsVal)
    (lowerPrompt : string) : M string :=
  let noDraft := match draft with Some s => negb (nonEmpty s) | None => true end in
  if noDraft && (includes "help" lowerPrompt || includes "what can you do" lowerPrompt) then
    ret ("I can assist with a wide range of IT and workplace operations:

**Development & Code**: Code reviews, refactoring, best practices, design patterns, testing strategies
**DevOps**: CI/CD pipelines, Docker, Kubernetes, deployment strategies, infrastructure as code
**Security**: Vulnerability assessment, authentication, authorization, compliance, security best practices
**Monitoring**: Logs, metrics, alerting, observability, Prometheus/Grafana setup
**Databases**: Query optimization, schema design, migrations, backup/restore strategies
**Performance**: Optimization techniques, caching, profiling, scalability improvements
**Incident Response**: Troubleshooting, debugging, root cause analysis, postmortem reviews
**Documentation**: Technical writing, API docs, runbooks, architecture documentation
**Project Management**: Sprint planning, estimation, agile practices, retrospectives
**NLP Features**: Entity extraction, sentiment analysis, keyword extraction, intent classification, text normalization

I now include advanced NLP capabilities for better understanding of your queries. Ask me about any specific topic and I'll provide actionable guidance!")
  else if includes "ai" lowerPrompt && includes "use" lowerPrompt then
    ret "Effective AI adoption starts by identifying repetitive or data-heavy workflows, wrapping them with reliable automation, and keeping humans in the loop for review. Start small, measure outcomes, then scale what works."
  else if includes "language model" lowerPrompt || includes "llm" lowerPrompt then
    let openSourceLines := buildOpenSourceCapabilitySummary in
    let capabilityBlock :=
      match openSourceLines with
      | [] => ""
      | _ => nl ++ nl ++ "Open-source choices already wired in:" ++ nl
             ++ join nl openSourceLines
      end in
    ret ("This chat ships with AAKARSH as the default on-device assistant. You can also switch to local transformers.js models or Ollama-hosted options without any external API keys." ++ capabilityBlock)
  else if includes "rag" lowerPrompt then
    ret "Retrieval-Augmented Generation (RAG) combines document search with an LLM. Upload files to the RAG storage and the backend will blend those snippets into the prompt. This app supports both GitHub code search and local file storage for RAG."
  else if includes "deploy" lowerPrompt || includes "docker" lowerPrompt
          || includes "ci/cd" lowerPrompt then
    ret "For deployment: This app uses Docker Compose for orchestration. Run `docker compose up -d` for 24/7 availability with auto-restart. Check health at `/health`, monitor with `/metrics`. CI/CD pipeline includes tests, Docker builds, and security scanning. See DEPLOYMENT_GUIDE.md for details."
  else if includes "security" lowerPrompt || includes "vulnerability" lowerPrompt then
    ret "Security features in this app: Helmet.js for security headers, rate limiting (100 req/15min), input validation with Joi, secrets via environment variables, Trivy scanning in CI/CD. Always run `npm audit` before deployment and keep dependencies updated."
  else if includes "monitor" lowerPrompt || includes "logs" lowerPrompt
          || includes "metrics" lowerPrompt then
    ret "Monitoring setup: Prometheus metrics at `/metrics`, Winston logs in `backend/logs/`, health checks at `/health`. View logs with `tail -f backend/logs/combined.log` or `docker compose logs -f`. Set up Grafana dashboards for visualization."
  else if includes "test" lowerPrompt || includes "testing" lowerPrompt then
    ret "Testing: Jest + Supertest for backend (current coverage 47%, target 80%+). Run `npm test` in backend directory. Add integration tests for new endpoints. Consider Playwright/Cypress for E2E tests. Test-driven development recommended."
  else if includes "database" lowerPrompt || includes "sql" lowerPrompt then
    ret "Database operations: Currently using file-based RAG storage. For production, consider PostgreSQL with Prisma ORM. Focus on schema design, indexing, query optimization, connection pooling, and automated backups with tested restoration procedures."
  else if includes "performance" lowerPrompt || includes "optimize" lowerPrompt then
    ret "Performance optimization: Check metrics at `/metrics` for slow endpoints. Implement Redis caching, database indexing, code profiling. Use connection pooling, pagination, and streaming for large datasets. Monitor CPU, memory, and event loop lag."
  else
    n <- lengthOf prompt ;;
    if match n with Some k => Nat.ltb k 80 | None => false end then
      trimmed <- callTrim prompt ;;
      ret ("Here's a quick thought: " ++ trimmed ++ " -> consider the goal, the data you have, and the user journey you want to support. For technical implementations, verify security, add tests, and monitor performance.")
    else
      ret ("Thanks for the detailed prompt! A concise plan would be:
1. Clarify the objective and success criteria.
2. Break the work into small experiments or PRs.
3. Add tests and monitoring.
4. Deploy incrementally and measure results.
5. Iterate based on feedback.

Ask if you'd like deeper guidance on any step.").

Definition generateWithLocalModel (prompt0 : JsVal) (modelId : string)
    (options : Options) : M GenResult :=
  let prompt := defaultPrompt prompt0 in
  emit (CallLocalModel prompt modelId) ;;;
  let fallbackModelId := if isLocal catalog modelId then modelId else defaultModel in
  let model := lookup catalog fallbackModelId in
  lowerPrompt <- callToLowerCase (orElse prompt (JStr "")) ;;
  let safety := runLocalSafetyChecks prompt in
  if blocked safety then
    let p := prepareNotices model options in
    let sheet :=
      if String.eqb fallbackModelId "local/aakarsh"
      then buildAakarshProductSheet emptyAnalysis
      else buildLocalAssistantProductSheet emptyAnalysis in
    let refusalText := refusal safety ++ nl ++ nl ++ sheet in
    ret {| text := composeContent refusalText (inline p);
           model := fallbackModelId;
           modelInfo := model;
           loading := Some false;
           notices := extra p |}
  else
    nlpAnalysis <-
      (if truthy prompt then
         trimmed <- callTrim prompt ;;
         if nonEmpty trimmed then
           tryCatch (a <- await (nlpAnalyze E (toStr prompt)) ;; ret (Some a))
                    (fun _ => ret None)
         else ret None
       else ret None) ;;
    draft <- draftResponse fallbackModelId prompt lowerPrompt nlpAnalysis ;;
    response <- finalResponse draft prompt lowerPrompt ;;
    let p := prepareNotices model options in
    ret {| text := composeContent response (inline p);
           model := fallbackModelId;
           modelInfo := model;
           loading := Some false;
           notices := extra p |}.

Definition generateText (prompt : JsVal) (modelId0 : option string)
    (options : Options) : M GenResult :=
  let modelId := match modelId0 with Some id => id | None => defaultModel end in
  let requestedModel :=
    if present (lookup catalog modelId) then modelId else defaultModel in
  let model := lookup catalog requestedModel in
  if hasType model "local" then
    generateWithLocalModel prompt requestedModel
      {| opt_notice := opt_notice options; inlineModelNotice := None |}
  else if hasType model "openai" then
    generateWithOpenAI E catalog prepareNotices prompt requestedModel options
  else if hasType model "xenova" then
    generateWithXenova E catalog defaultModel prepareNotices generateWithLocalModel
      prompt requestedModel options
  else if hasType model "ollama" then
    generateWithOllama E catalog defaultModel prepareNotices generateWithLocalModel
      prompt requestedModel options
  else
    generateWithLocalModel prompt defaultModel
      (withNotice "Requested model type is not supported. Using the built-in assistant instead.").

Definition generateLocalChatResponse :=
  Adapters.generateLocalChatResponse catalog defaultModel prepareNotices
    generateWithLocalModel false.

Definition chat (messages : list Message) (modelId0 : option string)
    (options : Options) : M ChatResult :=
  let modelId := match modelId0 with Some id => id | None => defaultModel end in
  let resolvedModelId :=
    if present (lookup catalog modelId) then modelId else defaultModel in
  let model := lookup catalog resolvedModelId in
  if hasType model "openai" then
    chatWithOpenAI E catalog prepareNotices messages resolvedModelId options
  else if hasType model "local" then
    result <- generateLocalChatResponse messages resolvedModelId options ;;
    ret (chatResultOfHeld result)
  else
    let prompt := formatMessagesAsPrompt messages resolvedModelId in
    result <- generateText (JStr prompt) (Some resolvedModelId) options ;;
    ret (chatResultOf result).

Definition generateStream :=
  Adapters.generateStream E catalog generateText.
End Service.

End Aakarsh.

(** ** [llmService.js], variant whose default model is [local/instruct]
    (built-in generator [tinyLLM], Hugging Face router) *)

Module Instruct.

Definition AVAILABLE_MODELS (OLLAMA_HOST : string) : Obj Model :=
  [
    ("local/instruct",
     {| m_name := "Tiny LLM (Local Assistant)";
        provider := "Built-in";
        m_description := "Lightweight, rule-based language model running locally. No downloads required.";
        maxTokens := 1024; free := true; type := "local";
        transformersModel := None; endpoint := None; ollamaModel := None;
        requiresKey := None; hfModel := None; vision := false;
        notice := None |});
    ("xenova/tinyllama-chat",
     {| m_name := "TinyLlama Chat (Local LLM)";
        provider := "Local CPU";
        m_description := "1.1B model. Requires model files in backend/models.";
        maxTokens := 512; free := true; type := "xenova";
        transformersModel := Some "Xenova/tinyllama-chat"; endpoint := None; ollamaModel := None;
        requiresKey := None; hfModel := None; vision := false;
        notice := Some "Requires model files to be manually downloaded to backend/models." |});
    ("xenova/phi-1_5",
     {| m_name := "Phi-1.5 (Local LLM)";
        provider := "Local CPU";
        m_description := "Microsoft Phi-1.5. Requires model files in backend/models.";
        maxTokens := 512; free := true; type := "xenova";
        transformersModel := Some "Xenova/phi-1_5"; endpoint := None; ollamaModel := None;
        requiresKey := None; hfModel := None; vision := false;
        notice := Some "Requires model files to be manually downloaded to backend/models." |});
    ("ollama/mistral:7b",
     {| m_name := "Mistral 7B (Ollama)";
        provider := "Ollama Local";
        m_description := "Requires Ollama app running locally.";
        maxTokens := 2048; free := true; type := "ollama";
        transformersModel := None; endpoint := Some OLLAMA_HOST; ollamaModel := Some "mistral:7b";
        requiresKey := None; hfModel := None; vision := false;
        notice := Some "Requires Ollama running locally." |});
    ("huggingface/meta-llama-3.1-8b-instruct",
     {| m_name := "Llama 3.1 8B (Cloud)";
        provider := "Hugging Face";
        m_description := "Remote inference via Hugging Face API.";
        maxTokens := 4096; free := false; type := "huggingface";
        transformersModel := None; endpoint := None; ollamaModel := None;
        requiresKey := Some "HUGGINGFACE_API_KEY"; hfModel := Some "meta-llama/Llama-3.1-8B-Instruct:fastest"; vision := false;
        notice := Some "Requires API Key." |});
    ("gpt-3.5-turbo",
     {| m_name := "GPT-3.5 Turbo";
        provider := "OpenAI";
        m_description := "OpenAI Cloud API.";
        maxTokens := 4096; free := false; type := "openai";
        transformersModel := None; endpoint := None; ollamaModel := None;
        requiresKey := Some "OPENAI_API_KEY"; hfModel := None; vision := false;
        notice := None |});
    ("gpt-4o",
     {| m_name := "GPT-4o (Vision)";
        provider := "OpenAI";
        m_description := "OpenAI Multimodal Model (Text + Vision).";
        maxTokens := 4096; free := false; type := "openai";
        transformersModel := None; endpoint := None; ollamaModel := None;
        requiresKey := Some "OPENAI_API_KEY"; hfModel := None; vision := true;
        notice := None |});
    ("ollama/llava",
     {| m_name := "LLaVA (Vision)";
        provider := "Ollama Local";
        m_description := "Local Multimodal Model (Text + Vision). Requires Ollama.";
        maxTokens := 2048; free := true; type := "ollama";
        transformersModel := None; endpoint := Some OLLAMA_HOST; ollamaModel := Some "llava";
        requiresKey := None; hfModel := None; vision := true;
        notice := Some ("Requires Ollama running locally with " ++ dq ++ "llava" ++ dq ++ " model.") |})
  ].

Definition defaultModel : string := "local/instruct".

(** The one Hugging Face entry of the catalog. *)
Definition hfId : string := "huggingface/meta-llama-3.1-8b-instruct".

Section Service.
Context `{StringImpl} (E : Env).

Definition catalog : Obj Model := AVAILABLE_MODELS (OLLAMA_HOST E).

(** [inlineModelNotice] defaults to [model?.type !== 'huggingface']. *)
Definition prepareNotices (model : Lookup) (options : Options) : Prepared :=
  prepareNoticesWith (negb (hasType model "huggingface")) model options.

(** [tinyLLM.generate(prompt)]: the whole body sits in a [try] whose
    handler returns an apology, so the call never throws. *)
Definition tinyLLM_generate (prompt : JsVal) : M string :=
  emit (CallBuiltinGenerator prompt) ;;;
  tryCatch
    (if negb (truthy prompt) then
       ret "I'm here to help. What would you like to know about coding, DevOps, or technical topics?"
     else
       trimmed <- callTrim prompt ;;
       if negb (nonEmpty trimmed) then
         ret "I'm here to help. What would you like to know about coding, DevOps, or technical topics?"
       else
         await (builtinKnowledge E (toStr prompt)))
    (fun _ => ret "I encountered an error processing that request. Please try rephrasing.").

(** The [nlpService] identifier is not bound in this variant: the analysis
    step throws a [ReferenceError] inside its own [try] and is skipped. *)
Definition generateWithLocalModel (prompt0 : JsVal) (modelId : string)
    (options : Options) : M GenResult :=
  let prompt := defaultPrompt prompt0 in
  emit (CallLocalModel prompt modelId) ;;;
  let fallbackModelId := if isLocal catalog modelId then modelId else defaultModel in
  let model := lookup catalog fallbackModelId in
  lowerPrompt <- callToLowerCase (orElse prompt (JStr "")) ;;
  (if truthy prompt then
     trimmed <- callTrim prompt ;;
     if nonEmpty trimmed then
       tryCatch (throw (mkExn "ReferenceError" "nlpService is not defined" None None))
                (fun _ => ret tt)
     else ret tt
   else ret tt) ;;;
  response <- tinyLLM_generate prompt ;;
  let p := prepareNotices model options in
  ret {| text := composeContent response (inline p);
         model := fallbackModelId;
         modelInfo := model;
         loading := Some false;
         notices := extra p |}.

Definition generateLocalChatResponse :=
  Adapters.generateLocalChatResponse catalog defaultModel prepareNotices
    generateWithLocalModel true.

(** [requestHuggingFaceChat]: the reply is the content of the first
    choice, the empty string when there is none. *)
Definition requestHuggingFaceChat (messages : list Message) (modelId : string)
    : M string :=
  let model := lookup catalog modelId in
  if negb (present model) then
    throw (Error ("Unknown Hugging Face model: " ++ modelId))
  else
    let safeMessages := sendable messages in
    match safeMessages with
    | [] =>
        throw (Error "At least one message with string content is required for Hugging Face chat completions.")
    | _ =>
        emit (CallRemote "huggingface" modelId) ;;;
        await (hfRouter E
                 (orStr (match model with Own m => hfModel m | _ => None end) modelId)
                 safeMessages)
    end.

Definition isAuthStatus (status : Z) : bool := (status =? 401) || (status =? 403).

Definition handleHuggingFaceTextError (error : Exn) (prompt : JsVal)
    (requestedModel : string) : M GenResult :=
  let model := lookup catalog requestedModel in
  let modelNotices := normalizeNotices (noticeOf model) in
  let generic :=
    let statusLabel :=
      match response error with
      | Some r => if status r =? 0 then "" else " (status " ++ showZ (status r) ++ ")"
      | None => ""
      end in
    let detail :=
      orStr (match response error with Some r => dataErrorMessage r | None => None end)
            (message error) in
    generateWithLocalModel prompt defaultModel
      (withNotice
         (if nonEmpty detail
          then "Remote generation failed" ++ statusLabel ++ ": " ++ detail
               ++ ". Using the built-in assistant instead."
          else "Remote generation failed. Using the built-in assistant instead.")) in
  match response error with
  | Some r =>
      let errorMessage := orOpt (dataErrorMessage r) (orOpt (dataMessage r) (dataDetail r)) in
      if status r =? 503 then
        ret {| text := "Model is currently loading. This can take 20-30 seconds for the first request. Please try again in a moment...

Falling back to the built-in assistant for now.";
               model := defaultModel;
               modelInfo := lookup catalog defaultModel;
               loading := Some true;
               notices := modelNotices |}
      else if status r =? 429 then
        ret {| text := "Rate limit reached for the selected Hugging Face model. Using the built-in assistant instead.";
               model := defaultModel;
               modelInfo := lookup catalog defaultModel;
               loading := Some false;
               notices := modelNotices |}
      else if isAuthStatus (status r) then
        let authMessage :=
          match errorMessage with
          | Some errorMessage =>
              "Authentication failed for the Hugging Face router: " ++ errorMessage ++ ". Please double-check the HUGGINGFACE_API_KEY value."
          | None =>
              "Authentication failed for the Hugging Face router. Please double-check the HUGGINGFACE_API_KEY value."
          end in
        ret {| text := authMessage;
               model := requestedModel;
               modelInfo := model;
               loading := Some false;
               notices := modelNotices |}
      else if status r =? 410 then
        generateWithLocalModel prompt defaultModel
          (withNotice "The selected Hugging Face model endpoint returned 410 (gone). Using the built-in assistant instead.")
      else
        match (if status r =? 400 then errorMessage else None) with
        | Some errorMessage =>
            generateWithLocalModel prompt defaultModel
              (withNotice ("Hugging Face router rejected the request: " ++ errorMessage ++ ". Using the built-in assistant instead."))
        | None => generic
        end
  | None => generic
  end.

Definition generateWithHuggingFace (prompt0 : JsVal) (modelId : string)
    (options : Options) : M GenResult :=
  let prompt := defaultPrompt prompt0 in
  let model := lookup catalog modelId in
  if negb (present model) then
    generateWithLocalModel prompt defaultModel
      (withNotice "Requested Hugging Face model was not found. Using built-in assistant instead.")
  else
    tryCatch
      (content <- requestHuggingFaceChat [userMessage prompt] modelId ;;
       let generated := if nonEmpty content then trim content else "" in
       if negb (nonEmpty generated) then
         throw (Error "Hugging Face router returned an empty response.")
       else
         let p := prepareNotices model options in
         ret {| text := composeContent generated (inline p);
                model := modelId;
                modelInfo := model;
                loading := Some false;
                notices := extra p |})
      (fun error => handleHuggingFaceTextError error prompt modelId).

Definition generateText (prompt : JsVal) (modelId0 : option string)
    (options : Options) : M GenResult :=
  let modelId := match modelId0 with Some id => id | None => defaultModel end in
  let requestedModel :=
    if present (lookup catalog modelId) then modelId else defaultModel in
  let model := lookup catalog requestedModel in
  if hasType model "local" then
    generateWithLocalModel prompt requestedModel
      {| opt_notice := opt_notice options; inlineModelNotice := None |}
  else if hasType model "openai" then
    generateWithOpenAI E catalog prepareNotices prompt requestedModel options
  else if hasType model "xenova" then
    generateWithXenova E catalog defaultModel prepareNotices generateWithLocalModel
      prompt requestedModel options
  else if hasType model "ollama" then
    generateWithOllama E catalog defaultModel prepareNotices generateWithLocalModel
      prompt requestedModel options
  else if hasType model "huggingface" && negb (HUGGINGFACE_API_KEY E) then
    generateWithLocalModel prompt defaultModel
      (withNotice "Hugging Face API key not configured. Using built-in assistant instead.")
  else if hasType model "huggingface" then
    generateWithHuggingFace prompt requestedModel options
  else
    generateWithLocalModel prompt defaultModel
      (withNotice "Requested model type is not supported. Using the built-in assistant instead.").

(** The object built from a fallback reply, with [loading] overridden
    when [loadingOverride] is given. *)
Definition chatReplyOf (fallback : Held GenResult) (loadingOverride : option bool)
    : ChatResult :=
  let c := chatResultOfHeld fallback in
  match loadingOverride with
  | Some b =>
      {| c_message := c_message c; c_model := c_model c;
         c_modelInfo := c_modelInfo c; c_loading := Some b;
         c_notices := c_notices c |}
  | None => c
  end.

Definition handleHuggingFaceChatError (error : Exn) (messages : list Message)
    (requestedModel : string) : M ChatResult :=
  let model := lookup catalog requestedModel in
  let errorMessage :=
    orStr (match response error with Some r => dataErrorMessage r | None => None end)
          (orStr (match response error with Some r => dataMessage r | None => None end)
                 (message error)) in
  let fallbackWith (notice : string) (loadingOverride : option bool) : M ChatResult :=
    fallback <- generateLocalChatResponse messages defaultModel (withNotice notice) ;;
    ret (chatReplyOf fallback loadingOverride) in
  if hasStatus error 503 then
    fallbackWith "Model is currently loading. This can take 20-30 seconds for the first request. Please try again in a moment...

Falling back to the built-in assistant for now." (Some true)
  else if hasStatus error 429 then
    fallbackWith "Rate limit reached for the selected Hugging Face model. Using the built-in assistant instead." None
  else if hasStatus error 401 || hasStatus error 403 then
    let authMessage :=
      if nonEmpty errorMessage
      then "Authentication failed for the Hugging Face router: " ++ errorMessage ++ ". Please double-check the HUGGINGFACE_API_KEY value."
      else "Authentication failed for the Hugging Face router. Please double-check the HUGGINGFACE_API_KEY value." in
    ret {| c_message := Some authMessage;
           c_model := Some requestedModel;
           c_modelInfo := Some model;
           c_loading := Some false;
           c_notices := Some (normalizeNotices (noticeOf model)) |}
  else if hasStatus error 410 then
    fallbackWith "The selected Hugging Face model endpoint returned 410 (gone). Using the built-in assistant instead." None
  else if hasStatus error 400 && nonEmpty errorMessage then
    fallbackWith ("Hugging Face router rejected the request: " ++ errorMessage ++ ". Using the built-in assistant instead.") None
  else
    fallbackWith
      (match response error with
       | Some r =>
           if status r =? 0
           then "Remote generation failed. Using the built-in assistant instead."
           else "Remote generation failed (status " ++ showZ (status r)
                ++ "). Using the built-in assistant instead."
       | None => "Remote generation failed. Using the built-in assistant instead."
       end) None.

Definition chatWithHuggingFace (messages : list Message) (modelId : string)
    (options : Options) : M ChatResult :=
  let model := lookup catalog modelId in
  if negb (present model) then
    fallback <- generateLocalChatResponse messages defaultModel
                  (withNotice "Requested Hugging Face model was not found. Using built-in assistant instead.") ;;
    let c := chatResultOfHeld fallback in
    ret {| c_message := c_message c; c_model := c_model c;
           c_modelInfo := c_modelInfo c; c_loading := c_loading c;
           c_notices := None |}
  else
    tryCatch
      (content0 <- requestHuggingFaceChat messages modelId ;;
       let content := if nonEmpty content0 then trim content0 else "" in
       if negb (nonEmpty content) then
         throw (Error "Hugging Face router returned an empty response.")
       else
         let p := prepareNotices model options in
         ret {| c_message := Some (composeContent content (inline p));
                c_model := Some modelId;
                c_modelInfo := Some model;
                c_loading := Some false;
                c_notices := Some (extra p) |})
      (fun error => handleHuggingFaceChatError error messages modelId).

Definition chat (messages : list Message) (modelId0 : option string)
    (options : Options) : M ChatResult :=
  let modelId := match modelId0 with Some id => id | None => defaultModel end in
  let resolvedModelId :=
    if present (lookup catalog modelId) then modelId else defaultModel in
  let model := lookup catalog resolvedModelId in
  if hasType model "openai" then
    chatWithOpenAI E catalog prepareNotices messages resolvedModelId options
  else if hasType model "local" then
    if String.eqb resolvedModelId "local/instruct" then
      result <- generateLocalChatResponse messages resolvedModelId options ;;
      ret (chatResultOfHeld result)
    else
      let prompt := formatMessagesAsPrompt messages resolvedModelId in
      result <- generateWithLocalModel (JStr prompt) resolvedModelId options ;;
      ret (chatResultOf result)
  else if hasType model "huggingface" && negb (HUGGINGFACE_API_KEY E) then
    fallback <- generateLocalChatResponse messages defaultModel
                  (withNotice "Hugging Face API key not configured. Using built-in assistant instead.") ;;
    ret (chatResultOfHeld fallback)
  else if hasType model "huggingface" then
    chatWithHuggingFace messages resolvedModelId options
  else
    let prompt := formatMessagesAsPrompt messages resolvedModelId in
    result <- generateText (JStr prompt) (Some resolvedModelId) options ;;
    ret (chatResultOf result).

Definition generateStream :=
  Adapters.generateStream E catalog generateText.
End Service.

End Instruct.

(** ** Context injection of the chat routes ([backend/app.js]) *)

Module AppRoutes.

(** An entry of [apiOrchestrationService.listApis()]. *)
Record Api := {
  api_id : string;
  api_name : string;
  api_description : string;
  api_baseUrl : string;
  api_enabled : bool
}.

Record SearchResult := { title : string; link : string; snippet : string }.

Definition apiMarker : string :=
  "System Note: You have access to the following external APIs".

Definition apiContext (apis : list Api) : string :=
  nl ++ nl ++ "[" ++ apiMarker
  ++ ". If the user asks for data from these sources, you can help them construct a query using the API Orchestrator."
  ++ nl
  ++ join nl (map (fun a => "- " ++ api_name a ++ ": " ++ api_description a
                            ++ " (" ++ api_baseUrl a ++ ")") apis)
  ++ nl ++ "]".

Definition searchContext (searchApiName : string) (results : list SearchResult) : string :=
  nl ++ nl ++ "[Web Search Results (" ++ searchApiName ++ "):" ++ nl
  ++ join nl (map (fun r => "- [" ++ title r ++ "](" ++ link r ++ "): " ++ snippet r)
                  results)
  ++ nl ++ "]" ++ nl
  ++ "[Instruction: Use the above search results to answer the user's question. Cite your sources using [Title](Link) format.]".

Definition isSystem (m : Message) : bool := String.eqb (role m) "system".

(** [messages[i].content += extra] on the first system message, if any. *)
Fixpoint appendToFirstSystem (extra : string) (messages : list Message)
    : option (list Message) :=
  match messages with
  | [] => None
  | m :: rest =>
      if isSystem m then
        Some ({| role := role m;
                 content := JStr (toStr (content m) ++ extra);
                 image := image m |} :: rest)
      else
        match appendToFirstSystem extra rest with
        | Some rest' => Some (m :: rest')
        | None => None
        end
  end.

Definition systemMessage (extra : string) : Message :=
  {| role := "system";
     content := JStr ("You are a helpful AI assistant." ++ extra);
     image := None |}.

(** Append to the system message, or [unshift] a new one. *)
Definition injectIntoSystem (extra : string) (messages : list Message) : list Message :=
  match appendToFirstSystem extra messages with
  | Some messages' => messages'
  | None => systemMessage extra :: messages
  end.

(** [POST /api/v1/chat]: API context. *)
Definition injectApiContextChat (apis : list Api) (messages : list Message)
    : list Message :=
  match apis with
  | [] => messages
  | _ => injectIntoSystem (apiContext apis) messages
  end.

(** [POST /api/v1/chat/stream]: web-search context, once results came back. *)
Definition injectSearchContext (searchApiName : string) (results : list SearchResult)
    (messages : list Message) : list Message :=
  match results with
  | [] => messages
  | _ => injectIntoSystem (searchContext searchApiName results) messages
  end.

(** [content.includes(marker)] on the system message of the stream route. *)
Definition contentIncludes (v : JsVal) (marker : string) : Outcome bool :=
  match v with
  | JStr s => Returned (includes marker s)
  | JArr items =>
      Returned (existsb (fun item => match item with
                                     | JStr s => String.eqb s marker
                                     | _ => false
                                     end) items)
  | JUndefined | JNull =>
      Raised (TypeError "Cannot read properties of undefined (reading 'includes')")
  | _ => Raised (TypeError "messages[systemMsgIndex].content.includes is not a function")
  end.

Fixpoint firstSystem (messages : list Message) : option Message :=
  match messages with
  | [] => None
  | m :: rest => if isSystem m then Some m else firstSystem rest
  end.

(** [POST /api/v1/chat/stream]: API context, guarded by the marker. *)
Definition injectApiContextStream (apis : list Api) (messages : list Message)
    : Outcome (list Message) :=
  match apis with
  | [] => Returned messages
  | _ =>
      match firstSystem messages with
      | Some m =>
          match contentIncludes (content m) apiMarker with
          | Returned true => Returned messages
          | Returned false => Returned (injectIntoSystem (apiContext apis) messages)
          | Raised e => Raised e
          end
      | None => Returned (systemMessage (apiContext apis) :: messages)
      end
  end.

(** Text of the first system message. *)
Definition systemContent (messages : list Message) : string :=
  match firstSystem messages with
  | Some m => toStr (content m)
  | None => ""
  end.

(** Number of (possibly overlapping) occurrences of [needle] in [s]. *)
Fixpoint occurrences (needle s : string) : nat :=
  ((if prefix needle s then 1 else 0)
   + match s with
     | EmptyString => 0
     | String _ rest => occurrences needle rest
     end)%nat.

End AppRoutes.

(** ** What is assumed of [trim]

    A text whose first and last characters are visible ASCII characters
    (codes 33 to 126) has nothing to trim.  The notices built by the service
    are of this form. *)

Module Trim.

Definition graphic (c : ascii) : bool :=
  let n := nat_of_ascii c in (Nat.leb 33 n && Nat.leb n 126)%bool.

Fixpoint lastChar (s : string) (d : ascii) : ascii :=
  match s with
  | EmptyString => d
  | String c rest => lastChar rest c
  end.

Definition graphicEnds (s : string) : bool :=
  match s with
  | EmptyString => false
  | String c rest => graphic c && graphic (lastChar rest c)
  end.

Class StringLaws `{StringImpl} : Prop := {
  trim_graphic : forall s, graphicEnds s = true -> trim s = s
}.

End Trim.

(** ** Test doubles: closed environments used in the examples *)

Module Doubles.

Definition connectionRefused : Exn :=
  {| exn_kind := "Error";
     message := "connect ECONNREFUSED 127.0.0.1:11434";
     response := None;
     code := Some "ECONNREFUSED" |}.

Definition httpFailure (status : Z) (body : option string) : Exn :=
  {| exn_kind := "Error";
     message := "Request failed with status code " ++ showZ status;
     response := Some {| status := status;
                         dataErrorMessage := body;
                         dataMessage := None;
                         dataDetail := None |};
     code := None |}.

(** No credential configured, no daemon running. *)
Definition offlineEnv : Env :=
  {| env_OLLAMA_HOST := None;
     openaiClient := false;
     HUGGINGFACE_API_KEY := false;
     nlpAnalyze := fun _ => Returned emptyAnalysis;
     neuralResponse := fun _ _ _ => "neural draft";
     builtinKnowledge := fun _ => Returned "I'm listening.";
     openaiCreate := fun _ _ => Raised connectionRefused;
     openaiStream := fun _ _ => ([], Some connectionRefused);
     ollamaGenerate := fun _ _ _ => Raised connectionRefused;
     ollamaChat := fun _ _ _ => ([], Some connectionRefused);
     xenovaPipeline := fun _ _ => Raised (Error "model files not found");
     hfRouter := fun _ _ => Raised connectionRefused |}.

(** Credentials configured; every cloud request fails with [status]. *)
Definition cloudFailingEnv (status : Z) : Env :=
  {| env_OLLAMA_HOST := None;
     openaiClient := true;
     HUGGINGFACE_API_KEY := true;
     nlpAnalyze := fun _ => Returned emptyAnalysis;
     neuralResponse := fun _ _ _ => "neural draft";
     builtinKnowledge := fun _ => Returned "I'm listening.";
     openaiCreate := fun _ _ => Raised (httpFailure status (Some "upstream says no"));
     openaiStream := fun _ _ => ([], Some (httpFailure status (Some "upstream says no")));
     ollamaGenerate := fun _ _ _ => Raised connectionRefused;
     ollamaChat := fun _ _ _ => ([], Some connectionRefused);
     xenovaPipeline := fun _ _ => Raised (Error "model files not found");
     hfRouter := fun _ _ => Raised (httpFailure status (Some "upstream says no")) |}.

(** Credentials configured, nothing reachable: every backend request fails
    with the same connection error. *)
Definition unreachableEnv : Env :=
  {| env_OLLAMA_HOST := None;
     openaiClient := true;
     HUGGINGFACE_API_KEY := true;
     nlpAnalyze := fun _ => Returned emptyAnalysis;
     neuralResponse := fun _ _ _ => "neural draft";
     builtinKnowledge := fun _ => Returned "I'm listening.";
     openaiCreate := fun _ _ => Raised connectionRefused;
     openaiStream := fun _ _ => ([], Some connectionRefused);
     ollamaGenerate := fun _ _ _ => Raised connectionRefused;
     ollamaChat := fun _ _ _ => ([], Some connectionRefused);
     xenovaPipeline := fun _ _ => Raised connectionRefused;
     hfRouter := fun _ _ => Raised connectionRefused |}.

(** One configured external API and a two-message conversation. *)
Definition weatherApi : AppRoutes.Api :=
  {| AppRoutes.api_id := "weather"; AppRoutes.api_name := "Weather";
     AppRoutes.api_description := "Forecasts";
     AppRoutes.api_baseUrl := "https://api.example.test";
     AppRoutes.api_enabled := true |}.

Definition conversation : list Message :=
  [ {| role := "system"; content := JStr "You are terse."; image := None |};
    userMessage (JStr "hi") ].

End Doubles.

(* ===================================================================== *)
(** * Part I, continued.  Listings, reviews, matcher and route handlers   *)
(* ===================================================================== *)

(** ** [backend/intentDetector.js]: the listing of the categories *)

Module IntentListing.
Import Intent.

(** One element of [getAvailableIntents()]. *)
Record IntentInfo := {
  id : string;
  i_name : string;
  i_description : string;
  i_route : string;
  i_ragType : option string
}.

(** [Object.entries(this.intents).map(([key, intent]) => ({ id: key, ... }))] *)
Definition getAvailableIntents (self : IntentDetector) : list IntentInfo :=
  map (fun entry =>
         {| id := fst entry;
            i_name := name (snd entry);
            i_description := description (snd entry);
            i_route := route (snd entry);
            i_ragType := ragType (snd entry) |})
      (intents self).

(** The listing entry a detection points at. *)
Definition infoOf (d : Detection) : IntentInfo :=
  {| id := intent d;
     i_name := d_name d;
     i_description := d_description d;
     i_route := d_route d;
     i_ragType := d_ragType d |}.

End IntentListing.

(** ** The messages the built-in chat reads *)

Module ChatView.

(** A message of the user whose content is a string. *)
Definition mine (m : Message) : bool :=
  isUser m && match stringContent m with Some _ => true | None => false end.

(** The text of the last message of the user among those whose content is
    a string: what [generateLocalChatResponse] finds as [lastUserMessage],
    [None] when there is no such message. *)
Definition lastUserText (messages : list Message) : option string :=
  match last (map Some (filter (fun e => isUser (fst e)) (safeMessagesOf messages)))
             None with
  | Some (_, s) => Some s
  | None => None
  end.

End ChatView.

(** ** [LLMService.getAvailableModels], [isKeyAvailable], [isConfigured] *)

Module Listing.

(** [process.env]: the value of a variable, if set. *)
Definition ProcessEnv := string -> option string.

(** [!!process.env[key]] *)
Definition envSet (env : ProcessEnv) (key : string) : bool :=
  match env key with
  | Some value => nonEmpty value
  | None => false
  end.

(** An element of the listing: [{ id, ...info }] with the three fields the
    method adds; [lm_message] is absent unless the key is missing. *)
Record ListedModel := {
  lm_id : string;
  lm_info : Model;
  available : bool;
  configured : bool;
  lm_message : option string
}.

(** A model that runs on the machine and needs no key. *)
Definition keyFree (m : ListedModel) : bool :=
  existsb (String.eqb (type (lm_info m))) ["local"; "xenova"; "ollama"].

Section Listed.
(** [this.isKeyAvailable] *)
Variable isKeyAvailable : string -> bool.

Definition listModel (entry : string * Model) : ListedModel :=
  let id := fst entry in
  let info := snd entry in
  match requiresKey info with
  | Some key =>
      if nonEmpty key then
        let available := isKeyAvailable key in
        {| lm_id := id;
           lm_info := info;
           available := available;
           configured := available;
           lm_message :=
             if negb available
             then Some ("Requires " ++ key ++ " environment variable")
             else None |}
      else
        {| lm_id := id; lm_info := info; available := true; configured := true;
           lm_message := None |}
  | None =>
      {| lm_id := id; lm_info := info; available := true; configured := true;
         lm_message := None |}
  end.

(** [Object.entries(AVAILABLE_MODELS).map(...)] *)
Definition listModels (catalog : Obj Model) : list ListedModel :=
  map listModel catalog.
End Listed.

Module OfAakarsh.
Definition isKeyAvailable (env : ProcessEnv) (key : string) : bool := envSet env key.

Definition getAvailableModels (E : Env) (env : ProcessEnv) : list ListedModel :=
  listModels (isKeyAvailable env) (Aakarsh.catalog E).

Definition isConfigured : bool := true.
End OfAakarsh.

Module OfInstruct.
(** The Hugging Face key is read from the module constant, which also
    accepts the alternative variable names. *)
Definition isKeyAvailable (E : Env) (env : ProcessEnv) (key : string) : bool :=
  if String.eqb key "HUGGINGFACE_API_KEY" then HUGGINGFACE_API_KEY E
  else envSet env key.

Definition getAvailableModels (E : Env) (env : ProcessEnv) : list ListedModel :=
  listModels (isKeyAvailable E env) (Instruct.catalog E).

Definition isConfigured : bool := true.
End OfInstruct.

(** [GET /api/v1/models]: [{ models, configured, default }]. *)
Record ModelsReply := {
  models : list ListedModel;
  reply_configured : bool;
  reply_default : string
}.

Definition modelsRouteAakarsh (E : Env) (env : ProcessEnv) : ModelsReply :=
  {| models := OfAakarsh.getAvailableModels E env;
     reply_configured := OfAakarsh.isConfigured;
     reply_default := Aakarsh.defaultModel |}.

Definition modelsRouteInstruct (E : Env) (env : ProcessEnv) : ModelsReply :=
  {| models := OfInstruct.getAvailableModels E env;
     reply_configured := OfInstruct.isConfigured;
     reply_default := Instruct.defaultModel |}.

End Listing.

(** ** [backend/agentReviewService.js] *)

Module AgentReview.

Record Risk := {
  r_category : string;
  severity : string;
  r_description : string;
  mitigation : string
}.

Record Suggestion := {
  s_category : string;
  s_priority : string;
  s_text : string
}.

(** [type === s] for a string literal [s]. *)
Definition typeIs (type : JsVal) (s : string) : bool :=
  match type with
  | JStr t => String.eqb t s
  | _ => false
  end.

(** [[...].includes(type)] on an array of string literals. *)
Definition typeAmong (type : JsVal) (names : list string) : bool :=
  existsb (typeIs type) names.

Section Analysis.
Context `{StringImpl}.

(** [keywords.forEach(keyword => { if (lowerDesc.includes(keyword)) score += step })] *)
Definition addMatches (lowerDesc : string) (step : Q) (keywords : list string)
    (score : Q) : Q :=
  fold_left (fun s keyword => if includes keyword lowerDesc then (s + step)%Q else s)
            keywords score.

Definition complexKeywords : list string :=
  [ "refactor"; "migrate"; "infrastructure"; "distributed"; "microservice";
    "scale"; "multiple"; "integrate"; "complex"; "architecture" ].

Definition criticalKeywords : list string :=
  [ "production"; "database migration"; "authentication"; "security";
    "payment"; "data loss"; "breaking change" ].

(** The score moves in steps of one half, which doubles represent
    exactly. *)
Definition complexityScore (description : string) (type : JsVal) : Q :=
  let lowerDesc := toLowerCase description in
  let score := 1%Q in
  let score := addMatches lowerDesc (1 # 2) complexKeywords score in
  let score := addMatches lowerDesc 1 criticalKeywords score in
  if typeAmong type ["deployment"; "security"; "database"]
  then (score + (1 # 2))%Q else score.

Definition analyzeComplexity (description : string) (type : JsVal) : string :=
  let score := complexityScore description type in
  if Qle_bool 4 score then "critical"
  else if Qle_bool (5 # 2) score then "high"
  else if Qle_bool (3 # 2) score then "medium"
  else "low".

(** The half-points a task collects: one for each complex keyword found,
    two for each critical keyword, one for a type that weighs in.  The
    source accumulates them in [complexityScore]; the count serves to state
    how the level is decided. *)
Definition halfPoints (description : string) (type : JsVal) : nat :=
  let lowerDesc := toLowerCase description in
  (List.length (filter (fun keyword => includes keyword lowerDesc) complexKeywords)
   + 2 * List.length (filter (fun keyword => includes keyword lowerDesc) criticalKeywords)
   + (if typeAmong type ["deployment"; "security"; "database"] then 1 else 0))%nat.

(** [if (cond) risks.push(entry)] *)
Definition pushIf {A} (cond : bool) (entries : list A) (acc : list A) : list A :=
  if cond then (acc ++ entries)%list else acc.

Definition identifyRisks (description : string) (type : JsVal) : list Risk :=
  let lowerDesc := toLowerCase description in
  let risks := [] in
  let risks :=
    pushIf (includes "production" lowerDesc || includes "prod" lowerDesc)
      [ {| r_category := "environment"; severity := "high";
           r_description := "Production environment detected";
           mitigation := "Test thoroughly in staging first, have rollback plan ready" |} ]
      risks in
  let risks :=
    pushIf (includes "database" lowerDesc || includes "migration" lowerDesc
            || includes "data" lowerDesc)
      [ {| r_category := "data"; severity := "high";
           r_description := "Data operations detected";
           mitigation := "Backup data before proceeding, test migration on copy first" |} ]
      risks in
  let risks :=
    pushIf (includes "security" lowerDesc || includes "auth" lowerDesc
            || includes "password" lowerDesc || includes "token" lowerDesc)
      [ {| r_category := "security"; severity := "high";
           r_description := "Security-related operations detected";
           mitigation := "Follow security best practices, audit changes, rotate secrets if needed" |} ]
      risks in
  let risks :=
    pushIf (includes "breaking" lowerDesc || includes "remove" lowerDesc
            || includes "delete" lowerDesc)
      [ {| r_category := "breaking_change"; severity := "critical";
           r_description := "Potential breaking change detected";
           mitigation := "Version API appropriately, communicate changes to all stakeholders" |} ]
      risks in
  let risks :=
    pushIf (includes "deploy" lowerDesc || includes "release" lowerDesc)
      [ {| r_category := "deployment"; severity := "medium";
           r_description := "Deployment operation detected";
           mitigation := "Use blue-green or canary deployment, monitor metrics closely" |} ]
      risks in
  let risks :=
    pushIf (includes "performance" lowerDesc || includes "optimize" lowerDesc
            || includes "slow" lowerDesc)
      [ {| r_category := "performance"; severity := "low";
           r_description := "Performance changes may affect user experience";
           mitigation := "Benchmark before and after, monitor latency and throughput" |} ]
      risks in
  risks.

Definition generateSuggestions (description : string) (type : JsVal) (context : JsVal)
    : list Suggestion :=
  let lowerDesc := toLowerCase description in
  let suggestions :=
    [ {| s_category := "planning"; s_priority := "high";
         s_text := "Break down the task into smaller, manageable steps" |} ] in
  let suggestions :=
    pushIf (negb (includes "test" lowerDesc))
      [ {| s_category := "testing"; s_priority := "high";
           s_text := "Add comprehensive tests for the changes" |} ]
      suggestions in
  let suggestions :=
    pushIf (negb (includes "document" lowerDesc) && negb (includes "readme" lowerDesc))
      [ {| s_category := "documentation"; s_priority := "medium";
           s_text := "Update relevant documentation after completing the task" |} ]
      suggestions in
  let suggestions :=
    pushIf (typeIs type "code" || includes "code" lowerDesc)
      [ {| s_category := "review"; s_priority := "high";
           s_text := "Have code reviewed by another team member before deployment" |} ]
      suggestions in
  let suggestions :=
    pushIf (typeIs type "deployment" || includes "deploy" lowerDesc)
      [ {| s_category := "monitoring"; s_priority := "high";
           s_text := "Set up monitoring and alerts for the new deployment" |} ]
      suggestions in
  let suggestions :=
    pushIf (typeIs type "security" || includes "security" lowerDesc)
      [ {| s_category := "security"; s_priority := "critical";
           s_text := "Run security scans and vulnerability assessments" |} ]
      suggestions in
  suggestions.

Definition identifyPrerequisites (description : string) (type : JsVal) : list string :=
  let lowerDesc := toLowerCase description in
  let prerequisites := [] in
  let prerequisites :=
    pushIf (includes "database" lowerDesc || includes "migration" lowerDesc)
      [ "Database backup completed";
        "Migration scripts tested on staging";
        "Rollback procedure documented" ]
      prerequisites in
  let prerequisites :=
    pushIf (includes "deploy" lowerDesc)
      [ "All tests passing";
        "Code reviewed and approved";
        "Environment variables configured" ]
      prerequisites in
  let prerequisites :=
    pushIf (includes "security" lowerDesc || includes "auth" lowerDesc)
      [ "Security audit completed";
        "Compliance requirements verified" ]
      prerequisites in
  let prerequisites :=
    pushIf (includes "test" lowerDesc)
      [ "Test environment available";
        "Test data prepared" ]
      prerequisites in
  let prerequisites :=
    pushIf (negb (typeIs type "documentation"))
      [ "Local development environment set up";
        "Dependencies installed and up to date" ]
      prerequisites in
  prerequisites.

Definition generateRecommendation (approved : bool) (risks : list Risk)
    (complexity : string) : string :=
  if negb approved then
    "CRITICAL REVIEW REQUIRED: This task has critical risks that must be addressed before proceeding. Review the identified risks and implement mitigation strategies."
  else if Nat.ltb 3 (List.length risks) then
    "PROCEED WITH CAUTION: Multiple risks identified. Carefully review each risk and implement all suggested mitigations before starting."
  else if String.eqb complexity "critical" || String.eqb complexity "high" then
    "CAREFUL PLANNING RECOMMENDED: This is a complex task. Break it down into smaller steps, create a detailed plan, and consider pair programming or additional review."
  else
    "APPROVED: Task reviewed and approved to proceed. Follow the suggestions and prerequisites to ensure successful completion.".

Definition suggestNextSteps (description : string) (type : JsVal) (approved : bool)
    : list string :=
  if negb approved then
    [ "Address all critical risks identified in the review";
      "Revise the task plan and submit for re-review" ]
  else
    [ "Review all prerequisites and ensure they are met";
      "Create a detailed implementation plan with milestones";
      "Set up necessary monitoring and logging";
      "Begin implementation following best practices";
      "Test thoroughly at each milestone";
      "Document changes as you proceed";
      "Submit for code review before finalizing" ].

(** The [task] and [analysis] members of a review. *)
Record TaskEcho := {
  t_description : string;
  t_type : JsVal;
  t_context : JsVal
}.

Record AnalysisPart := {
  complexity : string;
  estimatedEffort : string;
  approved : bool;
  confidence : Q
}.

Record Review := {
  reviewId : string;
  timestamp : string;
  task : TaskEcho;
  analysis : AnalysisPart;
  risks : list Risk;
  suggestions : list Suggestion;
  prerequisites : list string;
  recommendation : string;
  nextSteps : list string
}.

(** What [reviewTask] returns: a review, or the error object. *)
Inductive ReviewReply : Type :=
| Reviewed (review : Review)
| ReviewError (status message : string) (approved : bool).

(** The state of the service: [this.taskHistory], oldest first. *)
Definition History := list Review.

Definition maxHistorySize : nat := 100.

(** [push], then [shift] once when the size limit is exceeded. *)
Definition addToHistory (review : Review) (taskHistory : History) : History :=
  let taskHistory := (taskHistory ++ [review])%list in
  if Nat.ltb maxHistorySize (List.length taskHistory)
  then tl taskHistory
  else taskHistory.

(** The clock, the random source and the two helpers that compute on
    doubles ([estimateEffort] multiplies by 1.3, 0.8, 0.7;
    [calculateConfidence] adds tenths) are supplied from outside. *)
Variable estimateEffort : string -> JsVal -> string.
Variable calculateConfidence : string -> JsVal -> Q.

(** [reviewTask(task)], with the id and the timestamp drawn for it. *)
Definition reviewTask (newId now : string) (description : string) (type context0 : JsVal)
    (taskHistory : History) : ReviewReply * History :=
  let context := match context0 with JUndefined => JObject | _ => context0 end in
  if negb (nonEmpty description) || negb (nonEmpty (trim description)) then
    (ReviewError "error" "Task description is required" false, taskHistory)
  else
    let complexity := analyzeComplexity description type in
    let risks := identifyRisks description type in
    let suggestions := generateSuggestions description type context in
    let prerequisites := identifyPrerequisites description type in
    let estimatedEffort := estimateEffort description type in
    let criticalRisks := filter (fun r => String.eqb (severity r) "critical") risks in
    let approved := Nat.eqb (List.length criticalRisks) 0 in
    let review :=
      {| reviewId := newId;
         timestamp := now;
         task := {| t_description := description;
                    t_type := orElse type (JStr "general");
                    t_context := context |};
         analysis := {| complexity := complexity;
                        estimatedEffort := estimatedEffort;
                        approved := approved;
                        confidence := calculateConfidence description type |};
         risks := risks;
         suggestions := suggestions;
         prerequisites := prerequisites;
         recommendation := generateRecommendation approved risks complexity;
         nextSteps := suggestNextSteps description type approved |} in
    (Reviewed review, addToHistory review taskHistory).
End Analysis.

(** [xs.slice(start)] for an integer [start], negative values counting
    from the end. *)
Definition sliceFrom {A} (start : Z) (xs : list A) : list A :=
  let len := Z.of_nat (List.length xs) in
  let from := if start <? 0 then Z.max (len + start) 0 else Z.min start len in
  skipn (Z.to_nat from) xs.

(** [this.taskHistory.slice(-limit).reverse()] *)
Definition getHistory (limit : Z) (taskHistory : History) : History :=
  rev (sliceFrom (- limit) taskHistory).

(** [this.taskHistory.find(r => r.reviewId === reviewId)] *)
Definition getReviewById (id : string) (taskHistory : History) : option Review :=
  find (fun r => String.eqb (reviewId r) id) taskHistory.

Record Statistics := {
  total : nat;
  st_approved : nat;
  approvalRate : string;
  byComplexity : Obj nat;
  recentReviews : History
}.

(** [acc[complexity] = (acc[complexity] || 0) + 1] *)
Definition countComplexity (acc : Obj nat) (r : Review) : Obj nat :=
  let key := complexity (analysis r) in
  objSet key (match objGet key acc with Some n => n | None => 0 end + 1)%nat acc.

(** The sum of the counts held by an object. *)
Fixpoint sumCounts (o : Obj nat) : nat :=
  match o with
  | [] => 0%nat
  | (_, n) :: rest => (n + sumCounts rest)%nat
  end.

(** [formatRate approved total] stands for
    [(approved / total * 100).toFixed(1) + '%']. *)
Definition getStatistics (formatRate : nat -> nat -> string) (taskHistory : History)
    : Statistics :=
  let total := List.length taskHistory in
  let approved := List.length (filter (fun r => approved (analysis r)) taskHistory) in
  {| total := total;
     st_approved := approved;
     approvalRate := if Nat.ltb 0 total then formatRate approved total else "0%";
     byComplexity := fold_left countComplexity taskHistory [];
     recentReviews := getHistory 5 taskHistory |}.

End AgentReview.

(** ** [tinyLLM.js]: the knowledge base and its matcher *)

Module TinyLLM.

Record Entry := { pattern : list string; response : string }.

(** [this.knowledge], categories in declaration order. *)
Definition knowledge : Obj (list Entry) :=
  [
    ("identity",
     [
       {| pattern := ["who"; "are"; "you"];
          response := "I am the Local Assistant, a lightweight AI running entirely on your machine. I use advanced NLP and pattern matching to help with coding, DevOps, and technical questions." |};
       {| pattern := ["are"; "you"; "real"];
          response := "No, I am a code-based AI assistant designed to be helpful and privacy-focused. All processing happens locally." |};
       {| pattern := ["are"; "you"; "human"];
          response := "No, I'm an AI assistant that runs locally on your computer. I don't send any data to external servers." |};
       {| pattern := ["what"; "can"; "you"; "do"];
          response := "I can help with coding (JavaScript, React, Python), DevOps (Docker, CI/CD, Kubernetes), debugging, system operations, and general technical questions. I use advanced NLP to understand your intent." |};
       {| pattern := ["how"; "do"; "you"; "work"];
          response := "I analyze your input using NLP (compromise.js) to extract intent, entities, and keywords. Then I match against my knowledge base or construct contextual responses. All processing is local and instant." |};
       {| pattern := ["what"; "are"; "you"];
          response := "I'm a local AI assistant called Tiny LLM. I combine rule-based logic with NLP analysis to provide helpful responses without needing external APIs." |}
     ]);
    ("javascript",
     [
       {| pattern := ["function"; "javascript"];
          response := "In JavaScript, you can define functions in several ways:
1. Function declaration: `function myFunc() { }`
2. Arrow function: `const myFunc = () => { }`
3. Function expression: `const myFunc = function() { }`

Arrow functions are preferred for concise syntax and lexical `this` binding." |};
       {| pattern := ["write"; "function"];
          response := "To write a function, use: `function name(params) { return value; }` or the modern arrow syntax: `const name = (params) => value;`" |};
       {| pattern := ["async"; "await"];
          response := "Async/await is syntactic sugar for Promises. Use `async` before a function to make it return a Promise, and `await` inside to pause execution until a Promise resolves:
```javascript
async function fetchData() {
  const data = await fetch(url);
  return data.json();
}
```" |};
       {| pattern := ["promise"];
          response := "Promises represent eventual completion of async operations. Use `.then()` for chaining or `async/await` for cleaner syntax." |};
       {| pattern := ["variable"];
          response := "Variables store data. Use `const` for constants, `let` for mutable values, avoid `var`. Example: `const name = 'value';`" |}
     ]);
    ("react",
     [
       {| pattern := ["react"; "component"];
          response := "React components are building blocks of UI. Functional components are preferred:
```javascript
const MyComponent = ({ props }) => {
  return <div>{props.text}</div>;
}
```
Use hooks like `useState` and `useEffect` for state and side effects." |};
       {| pattern := ["component"];
          response := "Components are reusable UI pieces. In React, write functional components with JSX. Pass data via props." |};
       {| pattern := ["react"];
          response := "React is a JavaScript library for building user interfaces using components. It uses a virtual DOM for efficient updates." |}
     ]);
    ("python",
     [
       {| pattern := ["python"; "loop"];
          response := "Python loops:
```python
# For loop
for i in range(10):
    print(i)

# While loop
while condition:
    do_something()

# List comprehension
result = [x*2 for x in range(10)]
```" |};
       {| pattern := ["python"];
          response := "Python is a high-level programming language. It's great for scripting, data science, and automation." |}
     ]);
    ("apis",
     [
       {| pattern := ["rest"; "api"];
          response := "REST APIs use standard HTTP methods:
- GET: Retrieve data
- POST: Create data
- PUT/PATCH: Update data
- DELETE: Remove data

Design around resources (nouns) and use proper status codes (200, 201, 404, 500)." |};
       {| pattern := ["api"];
          response := "APIs (Application Programming Interfaces) allow programs to communicate. REST is the most common style for web APIs." |}
     ]);
    ("docker",
     [
       {| pattern := ["docker"; "container"];
          response := "Docker containers package code and dependencies together. Key concepts:
- `Dockerfile`: Defines the image
- `docker build`: Creates an image
- `docker run`: Starts a container
- `docker-compose.yml`: Orchestrates multiple containers

Containers are isolated, portable, and lightweight compared to VMs." |};
       {| pattern := ["docker"];
          response := "Docker is a containerization platform. It packages applications with dependencies into portable containers. Use `Dockerfile` to define images and `docker-compose` for multi-container apps." |};
       {| pattern := ["container"];
          response := "Containers are lightweight, isolated environments that package code with dependencies. Docker is the most popular container platform." |}
     ]);
    ("cicd",
     [
       {| pattern := ["ci"; "cd"];
          response := "CI/CD automates software delivery:
- **CI (Continuous Integration)**: Automatically test code on each commit
- **CD (Continuous Deployment)**: Automatically deploy to production

Popular tools: GitHub Actions, Jenkins, GitLab CI, CircleCI. Pipeline stages: build → test → deploy." |};
       {| pattern := ["pipeline"];
          response := "CI/CD pipelines automate build, test, and deployment stages. Define them in YAML files for tools like GitHub Actions or GitLab CI." |};
       {| pattern := ["deploy"];
          response := "Deployment involves releasing code to production. Use CI/CD pipelines, Docker for consistency, and rolling updates to minimize downtime." |}
     ]);
    ("kubernetes",
     [
       {| pattern := ["kubernetes"];
          response := "Kubernetes (K8s) orchestrates containerized applications across clusters. Key concepts:
- **Pods**: Smallest deployable units
- **Services**: Expose pods to network
- **Deployments**: Manage pod replicas
- **ConfigMaps/Secrets**: Configuration management

Use `kubectl` CLI to manage clusters." |};
       {| pattern := ["k8s"];
          response := "K8s is short for Kubernetes. It manages container orchestration, scaling, and self-healing." |}
     ]);
    ("greetings",
     [
       {| pattern := ["hello"];
          response := "Hello! How can I assist you with your project today? I can help with coding, DevOps, debugging, or technical questions." |};
       {| pattern := ["hi"];
          response := "Hi there! What are you working on? I'm here to help with code, systems, or technical challenges." |};
       {| pattern := ["hey"];
          response := "Hey! Ready to tackle some code or technical problems?" |};
       {| pattern := ["good"; "morning"];
          response := "Good morning! Let's start the day with some productive coding or problem-solving." |};
       {| pattern := ["good"; "afternoon"];
          response := "Good afternoon! What can I help you with?" |};
       {| pattern := ["good"; "evening"];
          response := "Good evening! Still working? Let me know how I can help." |}
     ]);
    ("thanks",
     [
       {| pattern := ["thank"];
          response := "You're welcome! Let me know if you need anything else." |};
       {| pattern := ["thanks"];
          response := "Happy to help! Feel free to ask more questions." |}
     ]);
    ("goodbye",
     [
       {| pattern := ["bye"];
          response := "Goodbye! Happy coding." |};
       {| pattern := ["goodbye"];
          response := "See you later! Keep building great things." |};
       {| pattern := ["see"; "you"];
          response := "See you! Come back anytime." |}
     ])
  ].

(** [tokens.includes(word)] *)
Definition hasToken (tokens : list string) (word : string) : bool :=
  existsb (String.eqb word) tokens.

(** The number of pattern words found among the tokens. *)
Definition matchesOf (tokens : list string) (item : Entry) : nat :=
  List.length (filter (hasToken tokens) (pattern item)).

Definition thresholdOf (patternLength : nat) : Q :=
  match patternLength with
  | 1%nat => 1%Q
  | 2%nat => 1%Q
  | 3%nat => (67 # 100)%Q
  | _ => (1 # 2)%Q
  end.

(** [matches / patternLength].  The quotient is only ever compared with
    the threshold and with other such quotients, which exact and double
    arithmetic order alike; an empty pattern gives NaN in the source and 0
    here, and is selected in neither. *)
Definition scoreOf (tokens : list string) (item : Entry) : Q :=
  (inject_Z (Z.of_nat (matchesOf tokens item))
   / inject_Z (Z.of_nat (List.length (pattern item))))%Q.

Definition finalScoreOf (tokens : list string) (normalized : string) (item : Entry) : Q :=
  let score := scoreOf tokens item in
  let patternPhrase := join " " (pattern item) in
  if includes patternPhrase normalized then (score + (1 # 2))%Q else score.

(** [score >= threshold] *)
Definition passesThreshold (tokens : list string) (item : Entry) : bool :=
  Qle_bool (thresholdOf (List.length (pattern item))) (scoreOf tokens item).

(** One turn of the inner loop:
    [if (score >= threshold && finalScore > maxScore) { ... }]. *)
Definition consider (tokens : list string) (normalized : string)
    (best : option string * Q) (item : Entry) : option string * Q :=
  let maxScore := snd best in
  if passesThreshold tokens item
     && negb (Qle_bool (finalScoreOf tokens normalized item) maxScore)
  then (Some (response item), finalScoreOf tokens normalized item)
  else best.

Definition findBestMatchIn (categories : Obj (list Entry)) (tokens : list string)
    (normalized : string) : option string :=
  fst (fold_left
         (fun best category => fold_left (consider tokens normalized) (snd category) best)
         categories (None, 0%Q)).

Definition findBestMatch (tokens : list string) (normalized : string) : option string :=
  findBestMatchIn knowledge tokens normalized.

(** [this.context]: the last turns of the conversation. *)
Record Turn := { turn_role : string; turn_content : JsVal }.

Definition maxContext : nat := 5.

(** [push], then [shift] once when more than [maxContext * 2] turns are
    held. *)
Definition updateContext (role : string) (content : JsVal) (context : list Turn)
    : list Turn :=
  let context := (context ++ [ {| turn_role := role; turn_content := content |} ])%list in
  if Nat.ltb (maxContext * 2) (List.length context) then tl context else context.

End TinyLLM.

(** ** [backend/imageGenerationService.js] *)

Module ImageGen.

Section Service.
(** [this.openaiKey] is set, and the reply of the image endpoint: the data
    URL built from it, or the exception of the HTTP client. *)
Variable openaiKey : bool.
Variable generateWithOpenAI : JsVal -> Outcome string.

(** [generateImage(prompt, provider = 'auto')]; [None] is an absent
    provider. *)
Definition generateImage (prompt : JsVal) (provider0 : option string) : Outcome string :=
  let provider := match provider0 with Some p => p | None => "auto" end in
  let unavailable :=
    Raised (Error "No image generation provider available (OpenAI key not configured)") in
  if String.eqb provider "auto" || String.eqb provider "openai" then
    if openaiKey then
      match generateWithOpenAI prompt with
      | Returned url => Returned url
      | Raised error =>
          if String.eqb provider "openai" then Raised error else unavailable
      end
    else unavailable
  else unavailable.
End Service.

End ImageGen.

(** ** [backend/app.js]: the handlers of the generation routes *)

Module Http.
Import Intent IntentListing AppRoutes.

(** What a handler sends: a JSON body with status 200, or an error body
    [{ error }] with its status. *)
Inductive Reply (A : Type) : Type :=
| Ok (body : A)
| Failed (status : Z) (error : string).
Arguments Ok {A} body.
Arguments Failed {A} status error.

(** [error.message || fallback] *)
Definition messageOr (error : Exn) (fallback : string) : string :=
  if nonEmpty (message error) then message error else fallback.

(** The body of [POST /api/v1/generate]. *)
Record GenerateBody := {
  g_text : string;
  g_model : string;
  g_modelInfo : Lookup;
  g_loading : bool;
  g_notices : list string
}.

(** The body of [POST /api/v1/chat]; a field the service left undefined
    is absent. *)
Record ChatBody := {
  b_message : option string;
  b_model : option string;
  b_modelInfo : option Lookup;
  b_loading : bool;
  b_notices : list string
}.

(** [userInput.toLowerCase()] on whatever the request carried. *)
Definition detectIntentOf `{StringImpl} (userInput : JsVal) : Outcome Detection :=
  match userInput with
  | JStr s => fst (detectIntent new_IntentDetector [] s)
  | JUndefined =>
      Raised (TypeError "Cannot read properties of undefined (reading 'toLowerCase')")
  | JNull =>
      Raised (TypeError "Cannot read properties of null (reading 'toLowerCase')")
  | _ => Raised (TypeError "userInput.toLowerCase is not a function")
  end.

Section Handlers.
Context `{StringImpl}.
(** The service the application was built with. *)
Variable generateText : JsVal -> option string -> Options -> M GenResult.
Variable chat : list Message -> option string -> Options -> M ChatResult.
Variable generateStream : StreamInput -> option string -> Options ->
                          Trace -> Streamed * Trace.

(** [POST /api/v1/generate] *)
Definition postGenerate (prompt : JsVal) (model : option string) (options : Options)
    : M (Reply GenerateBody) :=
  if negb (truthy prompt) then
    ret (Failed 400 "Invalid request: prompt is required")
  else
    tryCatch
      (result <- generateText prompt model options ;;
       ret (Ok {| g_text := text result;
                  g_model := Catalog.model result;
                  g_modelInfo := modelInfo result;
                  g_loading := match loading result with Some b => b | None => false end;
                  g_notices := notices result |}))
      (fun error => ret (Failed 500 (messageOr error "Failed to generate text"))).

(** [POST /api/v1/chat]; [messages] is [None] when the field is absent or
    not an array, [apis] is what [listApis()] returns. *)
Definition postChat (apis : list Api) (messages : option (list Message))
    (model : option string) (options : Options) : M (Reply ChatBody) :=
  match messages with
  | None | Some [] =>
      ret (Failed 400 "Invalid request: messages array is required")
  | Some messages =>
      tryCatch
        (let messages := injectApiContextChat apis messages in
         result <- chat messages model options ;;
         ret (Ok {| b_message := c_message result;
                    b_model := c_model result;
                    b_modelInfo := c_modelInfo result;
                    b_loading := match c_loading result with Some b => b | None => false end;
                    b_notices := match c_notices result with Some ns => ns | None => [] end |}))
        (fun error => ret (Failed 500 (messageOr error "Failed to generate response")))
  end.

(** [POST /api/v1/intent] *)
Definition postIntent (query : JsVal) : Reply Detection :=
  if negb (truthy query) then Failed 400 "Invalid request: query is required"
  else
    match detectIntentOf query with
    | Returned intent => Ok intent
    | Raised error => Failed 500 (messageOr error "Failed to detect intent")
    end.

(** [GET /api/v1/intents] *)
Definition getIntents : Reply (list IntentInfo) :=
  Ok (getAvailableIntents new_IntentDetector).

(** What [POST /api/v1/chat/stream] writes: [data: {"content": ...}],
    [data: {"error": ...}] and [data: [DONE]] frames. *)
Inductive Frame : Type :=
| Content (content : string)
| ErrorFrame (error : string)
| Done.

(** The response of the stream route: a JSON error sent before anything
    was written, or the frames written and whether [res.end()] was
    called. *)
Inductive StreamReply : Type :=
| Refused (status : Z) (error : string)
| Frames (written : list Frame) (ended : bool).

(** A message whose content is a string. *)
Definition textual (m : Message) : bool :=
  match stringContent m with Some _ => true | None => false end.

(** The outer [catch]: a JSON error unless something was written already. *)
Definition abandon (written : list Frame) (error : Exn) : StreamReply :=
  match written with
  | [] => Refused 500 (message error)
  | _ => Frames written false
  end.

(** The collaborators of the stream route: image generation and web
    search reply with a value or an exception. *)
Variable generateImage : JsVal -> Outcome string.
Variable executeSearch : JsVal -> string -> Outcome (list SearchResult).

Definition isSearchApi (a : Api) : bool :=
  api_enabled a
  && (String.eqb (api_id a) "google_search" || String.eqb (api_id a) "bing_search").

(** The web-search step; returns the frames written so far and the
    message list. *)
Definition searchStep (apis : list Api) (lastMessage : JsVal)
    (written : list Frame) (messages : list Message) : list Frame * list Message :=
  match find isSearchApi apis with
  | None => (written, messages)
  | Some searchApi =>
      let written :=
        (written ++ [Content ("*Searching " ++ api_name searchApi ++ "...*" ++ nl ++ nl)])%list in
      match executeSearch lastMessage (api_id searchApi) with
      | Returned results =>
          (written, injectSearchContext (api_name searchApi) results messages)
      | Raised e =>
          ((written ++ [Content ("*Search failed: " ++ message e ++ "*" ++ nl ++ nl)])%list,
           messages)
      end
  end.

(** The last step: relay the chunks of [generateStream]. *)
Definition relayStep (lastMessage : JsVal) (model : option string) (options : Options)
    (written : list Frame) : Trace -> StreamReply * Trace :=
  fun t =>
    let '(stream, t') := generateStream (InPrompt lastMessage) model options t in
    let chunks := map Content (filter nonEmpty (yielded stream)) in
    match failure stream with
    | None => (Frames (written ++ chunks ++ [Done]) true, t')
    | Some error =>
        (Frames (written ++ chunks ++ [ErrorFrame (message error)]) true, t')
    end.

(** [POST /api/v1/chat/stream]; [searchMode] is [options?.searchMode]. *)
Definition postChatStream (apis : list Api) (messages : option (list Message))
    (model : option string) (searchMode0 : option string) (options : Options)
    : Trace -> StreamReply * Trace :=
  fun t =>
    match messages with
    | None | Some [] => (Refused 400 "Invalid request: messages array is required", t)
    | Some messages =>
        let lastMessage := content (last messages (userMessage JUndefined)) in
        match detectIntentOf lastMessage with
        | Raised error => (abandon [] error, t)
        | Returned intent =>
            let searchMode :=
              match searchMode0 with
              | Some mode => if nonEmpty mode then mode else "auto"
              | None => "auto"
              end in
            let afterImage :=
              if String.eqb (Intent.intent intent) "IMAGE_GENERATION" then
                let written := [Content ("*Generating image...*" ++ nl ++ nl)] in
                match generateImage lastMessage with
                | Returned imageUrl =>
                    inl (Frames (written
                                 ++ [Content ("![Generated Image](" ++ imageUrl ++ ")" ++ nl ++ nl);
                                     Done])%list true)
                | Raised e =>
                    inr (written
                         ++ [Content ("*Image generation failed: " ++ message e ++ "*"
                                      ++ nl ++ nl)])%list
                end
              else inr [] in
            match afterImage with
            | inl reply => (reply, t)
            | inr written =>
                let shouldSearch :=
                  if String.eqb searchMode "on" then true
                  else if String.eqb searchMode "auto"
                       then String.eqb (Intent.intent intent) "WEB_SEARCH"
                       else false in
                let '(written, messages) :=
                  if shouldSearch then searchStep apis lastMessage written messages
                  else (written, messages) in
                match injectApiContextStream apis messages with
                | Raised error => (abandon written error, t)
                | Returned _ => relayStep lastMessage model options written t
                end
            end
        end
    end.
End Handlers.

End Http.

(* ===================================================================== *)
(** * Part II.  Properties                                                *)
(* ===================================================================== *)

(** ** Intent classification *)

Module IntentFacts.
Import Intent.

Lemma keywordScore_from (input : string) (p : Z) (kws : list string) (acc : Z) :
  fold_left (fun score keyword => if includes keyword input then score + p else score)
            kws acc
  = acc + fold_right Z.add 0
            (map (fun keyword => if includes keyword input then p else 0) kws).
Proof.
  revert acc; induction kws as [|kw kws IH]; intros acc; simpl.
  - lia.
  - rewrite IH. destruct (includes kw input); lia.
Qed.

Lemma keywordScore_sum (input : string) (c : IntentCategory) :
  keywordScore input c = matchedPrioritySum input c.
Proof.
  unfold keywordScore, matchedPrioritySum. rewrite keywordScore_from. lia.
Qed.

Lemma matchedPrioritySum_nonneg (input : string) (c : IntentCategory) :
  0 <= priority c -> 0 <= matchedPrioritySum input c.
Proof.
  intros Hp. unfold matchedPrioritySum.
  induction (keywords c) as [|kw kws IH]; simpl; [lia|].
  destruct (includes kw input); lia.
Qed.

(** Writing a fresh key appends it: insertion order is declaration order. *)
Lemma objSet_fresh {V} (k : string) (v : V) (o : Obj V) :
  ~ In k (objKeys o) -> objSet k v o = (o ++ [(k, v)])%list.
Proof.
  induction o as [|[k' v'] o IH]; simpl; intros Hnin; [reflexivity|].
  destruct (String.eqb_spec k' k) as [->|Hne].
  - exfalso. apply Hnin. now left.
  - rewrite IH; [reflexivity|]. intros Hin. apply Hnin. now right.
Qed.

Lemma objGet_In_keys {V} (k : string) (o : Obj V) :
  In k (objKeys o) -> exists v, objGet k o = Some v.
Proof.
  induction o as [|[k' v'] o IH]; simpl; [tauto|].
  intros [->|Hin].
  - rewrite String.eqb_refl. eauto.
  - destruct (String.eqb k' k); eauto.
Qed.

Lemma computeScores_from (input : string) (entries : Obj IntentCategory) (acc : Obj Z) :
  NoDup (objKeys acc ++ objKeys entries) ->
  fold_left
    (fun scores entry => objSet (fst entry) (keywordScore input (snd entry)) scores)
    entries acc
  = (acc ++ map (fun e => (fst e, keywordScore input (snd e))) entries)%list.
Proof.
  revert acc; induction entries as [|[k c] entries IH]; intros acc Hnd; simpl.
  - now rewrite app_nil_r.
  - simpl in Hnd.
    rewrite objSet_fresh.
    + rewrite IH.
      * now rewrite <- app_assoc.
      * unfold objKeys in *. rewrite map_app. simpl. now rewrite <- app_assoc.
    + apply NoDup_remove_2 in Hnd. intros Hin. apply Hnd.
      apply in_or_app. now left.
Qed.

Lemma keys_NoDup : NoDup (objKeys INTENT_CATEGORIES).
Proof.
  unfold objKeys; simpl.
  repeat (constructor; [simpl; intuition discriminate|]). constructor.
Qed.

Lemma priorities_nonneg : Forall (fun e => 0 <= priority (snd e)) INTENT_CATEGORIES.
Proof. unfold INTENT_CATEGORIES. repeat (constructor; [simpl; lia|]). constructor. Qed.

Lemma computeScores_table (input : string) :
  computeScores new_IntentDetector input
  = map (fun e => (fst e, matchedPrioritySum input (snd e))) INTENT_CATEGORIES.
Proof.
  unfold computeScores. cbn [intents new_IntentDetector].
  rewrite computeScores_from by exact keys_NoDup.
  cbn [app]. apply map_ext. intros e. now rewrite keywordScore_sum.
Qed.

(** The selection loop returns either its starting point, when nothing
    exceeds the starting score, or the first entry that carries the
    maximum. *)
Lemma pick_from (l : Obj Z) (d0 : string) (m0 : Z) :
  let r := fold_left
             (fun best entry =>
                if snd entry >? snd best then (fst entry, snd entry) else best)
             l (d0, m0) in
  (r = (d0, m0) /\ Forall (fun e => snd e <= m0) l)
  \/ (exists before after,
        l = (before ++ r :: after)%list
        /\ Forall (fun e => snd e < snd r) before
        /\ Forall (fun e => snd e <= snd r) after
        /\ m0 < snd r).
Proof.
  revert d0 m0; induction l as [|[k s] l IH]; intros d0 m0; cbn zeta.
  - left. split; [reflexivity|constructor].
  - cbn [fold_left fst snd].
    destruct (Z.gtb_spec s m0) as [Hgt|Hle].
    + specialize (IH k s); cbn zeta in IH.
      destruct IH as [[Heq Hall]|(before & after & Hl & Hb & Ha & Hlt)].
      * right. exists [], l. rewrite Heq. cbn. repeat split; auto; lia.
      * right. exists ((k, s) :: before), after.
        rewrite Hl at 1. repeat split; auto; try lia.
    + specialize (IH d0 m0); cbn zeta in IH.
      destruct IH as [[Heq Hall]|(before & after & Hl & Hb & Ha & Hlt)].
      * left. split; auto.
      * right. exists ((k, s) :: before), after.
        rewrite Hl at 1. repeat split; auto.
        constructor; auto. cbn [snd]. lia.
Qed.

Lemma scores_nonneg (input : string) :
  Forall (fun e => 0 <= snd e) (computeScores new_IntentDetector input).
Proof.
  rewrite computeScores_table. apply Forall_map.
  eapply Forall_impl; [|exact priorities_nonneg].
  intros e He. cbn. now apply matchedPrioritySum_nonneg.
Qed.

(** On the exported detector the selection is the first entry of the
    score table, in declaration order, that carries the maximum score. *)
Lemma pickHighest_first_max (input : string) :
  let sc := computeScores new_IntentDetector input in
  exists before after,
    sc = (before ++ pickHighest sc :: after)%list
    /\ Forall (fun e => snd e < snd (pickHighest sc)) before
    /\ Forall (fun e => snd e <= snd (pickHighest sc)) after.
Proof.
  cbn zeta. unfold pickHighest.
  destruct (pick_from (computeScores new_IntentDetector input) "CHAT" 0)
    as [[Heq Hall]|(before & after & Hl & Hb & Ha & _)].
  - rewrite Heq. pose proof (scores_nonneg input) as Hnn.
    rewrite computeScores_table in *.
    cbn [map INTENT_CATEGORIES fst snd] in *.
    inversion Hall as [|? ? H0 Hall']; subst.
    inversion Hnn as [|? ? H1 _]; subst. cbn [snd] in *.
    exists [], (map (fun e => (fst e, matchedPrioritySum input (snd e)))
                    (tl INTENT_CATEGORIES)).
    cbn [app]. repeat split.
    + f_equal. f_equal. lia.
    + constructor.
    + exact Hall'.
  - exists before, after. auto.
Qed.

Lemma detectIntent_returns `{StringImpl} (log : Log) (userInput : string) :
  exists d,
    fst (detectIntent new_IntentDetector log userInput) = Returned d
    /\ scores d = computeScores new_IntentDetector (toLowerCase userInput)
    /\ (intent d, snd (pickHighest (scores d))) = pickHighest (scores d)
    /\ confidence d = confidenceOf (snd (pickHighest (scores d))).
Proof.
  unfold detectIntent.
  set (sc := computeScores new_IntentDetector (toLowerCase userInput)).
  destruct (pickHighest_first_max (toLowerCase userInput))
    as (before & after & Hl & _). fold sc in Hl.
  destruct (pickHighest sc) as [k m] eqn:Hp.
  assert (Hin : In k (objKeys (intents new_IntentDetector))).
  { assert (Hk : In k (objKeys sc)).
    { rewrite Hl. unfold objKeys. rewrite map_app. apply in_or_app.
      right. now left. }
    unfold sc in Hk. rewrite computeScores_table in Hk.
    unfold objKeys in *. rewrite map_map in Hk. exact Hk. }
  destruct (objGet_In_keys _ _ Hin) as [c Hc]. rewrite Hc.
  eexists. split; [reflexivity|]. cbn [scores intent confidence fst snd].
  rewrite Hp. auto.
Qed.

(** C8.  For every input string, [detectIntent] returns a detection whose
    score table gives each category, in declaration order, the sum of its
    priority over its matched keywords; the detected category carries the
    highest score, every category declared before it scores strictly less
    (ties go to the earliest declaration); and when no category scores
    above zero the detected category is the generic ["CHAT"]. *)
Theorem detectIntent_scores_and_selection `{StringImpl} (log : Log) (userInput : string) :
  exists d,
    fst (detectIntent new_IntentDetector log userInput) = Returned d
    /\ scores d
       = map (fun e => (fst e, matchedPrioritySum (toLowerCase userInput) (snd e)))
             INTENT_CATEGORIES
    /\ (exists before top after,
          scores d = (before ++ (intent d, top) :: after)%list
          /\ Forall (fun e => snd e < top) before
          /\ Forall (fun e => snd e <= top) after)
    /\ (Forall (fun e => snd e <= 0) (scores d) -> intent d = "CHAT").
Proof.
  destruct (detectIntent_returns log userInput) as (d & Hd & Hsc & Hpick & _).
  exists d. split; [exact Hd|]. split.
  - rewrite Hsc. apply computeScores_table.
  - split.
    + destruct (pickHighest_first_max (toLowerCase userInput))
        as (before & after & Hl & Hb & Ha).
      rewrite <- Hsc in Hl, Hb, Ha. rewrite <- Hpick in Hl.
      exists before, (snd (pickHighest (scores d))), after. auto.
    + intros Hall. unfold pickHighest in Hpick.
      destruct (pick_from (scores d) "CHAT" 0)
        as [[Heq _]|(before & after & Hl & _ & _ & Hlt)].
      * rewrite Heq in Hpick. now inversion Hpick.
      * exfalso. rewrite Forall_forall in Hall.
        assert (Hin : In (fold_left
                   (fun best entry =>
                      if snd entry >? snd best then (fst entry, snd entry) else best)
                   (scores d) ("CHAT", 0)) (scores d)).
        { rewrite Hl at 2. apply in_or_app. right. now left. }
        apply Hall in Hin. lia.
Qed.

(** C10.  Two invocations of [detectIntent] on the same input, the second
    one running after the first (and so on the logger state the first one
    left), return the same detection: same intent, same score table and
    same confidence.  The result does not depend on the logger state. *)
Theorem detectIntent_deterministic `{StringImpl} (log other : Log) (userInput : string) :
  let first := detectIntent new_IntentDetector log userInput in
  let second := detectIntent new_IntentDetector (snd first) userInput in
  exists d,
    fst first = Returned d /\ fst second = Returned d
    /\ fst (detectIntent new_IntentDetector other userInput) = Returned d.
Proof.
  cbn zeta.
  destruct (detectIntent_returns log userInput) as (d & Hd & Hsc & Hpick & Hc).
  exists d. split; [exact Hd|].
  assert (Hind : forall l, fst (detectIntent new_IntentDetector l userInput) = Returned d).
  { intros l. rewrite <- Hd. clear. unfold detectIntent.
    destruct (pickHighest (computeScores new_IntentDetector (toLowerCase userInput)))
      as [k m].
    destruct (objGet k (intents new_IntentDetector)); reflexivity. }
  split; apply Hind.
Qed.

Example detect_devops :
  match fst (detectIntent new_IntentDetector [] "Deploy the Docker container") with
  | Returned d => intent d
  | Raised _ => "raised"
  end = "DEVOPS".
Proof. vm_compute. reflexivity. Qed.

Example detect_default :
  match fst (detectIntent new_IntentDetector [] "zzz") with
  | Returned d => intent d
  | Raised _ => "raised"
  end = "CHAT".
Proof. vm_compute. reflexivity. Qed.

(** A tie between two categories goes to the one declared first:
    ["incident stock"] scores 5 for INCIDENT and 5 for WEB_SEARCH. *)
Example detect_tie :
  match fst (detectIntent new_IntentDetector [] "incident stock") with
  | Returned d => (intent d, objGet "INCIDENT" (scores d), objGet "WEB_SEARCH" (scores d))
  | Raised _ => ("raised", None, None)
  end = ("INCIDENT", Some 5, Some 5).
Proof. vm_compute. reflexivity. Qed.

End IntentFacts.


(** ** Streaming fallback *)

Module RelayFacts.
Import Relay.

Local Open Scope nat_scope.

Lemma substring_nil (n m : nat) : substring n m "" = "".
Proof. destruct n, m; reflexivity. Qed.

(** Two adjacent slices make one slice. *)
Lemma substring_adjacent (s : string) (n a b : nat) :
  (substring n a s ++ substring (n + a) b s)%string = substring n (a + b) s.
Proof.
  revert n a b; induction s as [|c s IH]; intros n a b.
  - now rewrite !substring_nil.
  - destruct n as [|n].
    + destruct a as [|a]; cbn [Nat.add substring append].
      * reflexivity.
      * f_equal. apply (IH 0 a b).
    + cbn [Nat.add substring]. apply IH.
Qed.

(** Length requested beyond the end of the string is ignored. *)
Lemma substring_past_end (s : string) (n a b : nat) :
  String.length s <= n + a -> substring n (a + b) s = substring n a s.
Proof.
  revert n a; induction s as [|c s IH]; intros n a Hle.
  - now rewrite !substring_nil.
  - destruct n as [|n]; cbn [String.length] in Hle.
    + destruct a as [|a]; [lia|]. cbn [Nat.add substring]. f_equal.
      apply IH. cbn. lia.
    + cbn [substring]. apply IH. lia.
Qed.

Lemma substring_whole (s : string) : substring 0 (String.length s) s = s.
Proof. induction s as [|c s IH]; cbn; [reflexivity | now rewrite IH]. Qed.

Lemma substring_zero_length (s : string) (n : nat) : substring n 0 s = "".
Proof.
  revert n; induction s as [|c s IH]; intros [|n]; cbn; auto.
Qed.

Lemma concat_empty_cons (x : string) (xs : list string) :
  String.concat "" (x :: xs) = (x ++ String.concat "" xs)%string.
Proof.
  destruct xs as [|y ys]; cbn [String.concat].
  - revert x. induction x as [|c x IH]; cbn; [reflexivity | now rewrite <- IH].
  - reflexivity.
Qed.

Section Chunks.
Variable K : nat.
Hypothesis HK : 0 < K.

Lemma chunksFrom_step (text : string) (i : nat) :
  i < String.length text ->
  chunksFrom HK text i = slice text i (i + K) :: chunksFrom HK text (i + K).
Proof.
  intros Hlt. rewrite chunksFrom_equation_1.
  destruct (lt_dec i (String.length text)); [reflexivity | contradiction].
Qed.

Lemma chunksFrom_done (text : string) (i : nat) :
  String.length text <= i -> chunksFrom HK text i = [].
Proof.
  intros Hle. rewrite chunksFrom_equation_1.
  destruct (lt_dec i (String.length text)); [lia | reflexivity].
Qed.

(** From position [i] on, the chunks spell the rest of the text. *)
Lemma chunksFrom_concat (text : string) :
  forall n i, String.length text - i = n ->
    String.concat "" (chunksFrom HK text i)
    = substring i (String.length text - i) text.
Proof.
  induction n as [n IH] using lt_wf_ind. intros i Hn.
  destruct (lt_dec i (String.length text)) as [Hlt|Hge].
  - rewrite chunksFrom_step by exact Hlt.
    rewrite concat_empty_cons.
    rewrite (IH (String.length text - (i + K))) by lia.
    unfold slice. replace (i + K - i) with K by lia.
    rewrite substring_adjacent.
    destruct (le_dec K (String.length text - i)) as [Hfit|Hshort].
    + f_equal. lia.
    + (* last, short chunk: both sides stop at the end of the text *)
      replace (K + (String.length text - (i + K)))
        with ((String.length text - i) + (K - (String.length text - i))) by lia.
      apply substring_past_end. lia.
  - rewrite chunksFrom_done by lia.
    replace (String.length text - i) with 0 by lia.
    now rewrite substring_zero_length.
Qed.

(** The number of chunks from position [i] on. *)
Lemma chunksFrom_count (text : string) :
  forall n i, String.length text - i = n ->
    List.length (chunksFrom HK text i) = (n + K - 1) / K.
Proof.
  induction n as [n IH] using lt_wf_ind. intros i Hn.
  destruct (lt_dec i (String.length text)) as [Hlt|Hge].
  - rewrite chunksFrom_step by exact Hlt. cbn [List.length].
    rewrite (IH (String.length text - (i + K))) by lia.
    destruct (le_dec K n) as [Hfit|Hshort].
    + replace (n + K - 1) with ((n - K + K - 1) + 1 * K) by lia.
      rewrite Nat.div_add by lia.
      replace (String.length text - (i + K)) with (n - K) by lia. lia.
    + replace (String.length text - (i + K)) with 0 by lia.
      rewrite (Nat.div_small (0 + K - 1) K) by lia.
      apply Nat.div_unique with (r := n - 1); lia.
  - rewrite chunksFrom_done by lia.
    replace n with 0 by lia. cbn [List.length].
    symmetry. apply Nat.div_small. lia.
Qed.
End Chunks.

Section Fallback.
Context `{StringImpl} (E : Env).
Variable catalog : Obj Model.
Variable generateText : JsVal -> option string -> Options -> M GenResult.

(** The branch of [generateStream] for a registered model that streams
    neither through OpenAI nor through Ollama: [generateText] is called
    once, on the content of the last message, and the text of its result is
    relayed; if it throws, the generator ends with that exception. *)
Lemma generateStream_relays (input : StreamInput) (modelId : option string)
    (options : Options) (t : Trace) (before : list Message) (lastMsg : Message) :
  let key := match modelId with Some id => id | None => "undefined" end in
  present (lookup catalog key) = true ->
  hasType (lookup catalog key) "openai" = false ->
  hasType (lookup catalog key) "ollama" = false ->
  match input with InMessages ms => ms | InPrompt p => [userMessage p] end
  = (before ++ [lastMsg])%list ->
  Adapters.generateStream E catalog generateText input modelId options t
  = match generateText (content lastMsg) modelId options t with
    | (Returned result, t') =>
        ({| yielded := simulateStream (text result); failure := None |}, t')
    | (Raised e, t') => ({| yielded := []; failure := Some e |}, t')
    end.
Proof.
  cbn zeta. intros Hpresent Hopenai Hollama Hmessages.
  unfold Adapters.generateStream.
  rewrite Hpresent, Hopenai, Hollama, Hmessages. cbn [negb]. cbv iota.
  rewrite map_app. cbn [map]. rewrite last_last. reflexivity.
Qed.
End Fallback.

Lemma chunks_concat (K : nat) (HK : 0 < K) (s : string) :
  String.concat "" (chunksFrom HK s 0) = s.
Proof.
  rewrite (chunksFrom_concat HK s (n := String.length s - 0)) by reflexivity.
  rewrite Nat.sub_0_r. apply substring_whole.
Qed.

Lemma chunks_count (K : nat) (HK : 0 < K) (s : string) :
  List.length (chunksFrom HK s 0) = (String.length s + K - 1) / K.
Proof.
  rewrite (chunksFrom_count HK s (n := String.length s - 0)) by reflexivity.
  now rewrite Nat.sub_0_r.
Qed.

(** The ceiling of [N / K], as a quotient and as the least bound. *)
Lemma ceiling_least (N K : nat) :
  0 < K ->
  N <= (N + K - 1) / K * K /\ (forall c, N <= c * K -> (N + K - 1) / K <= c).
Proof.
  intros HK. split.
  - pose proof (Nat.div_mod_eq (N + K - 1) K) as Hdm.
    pose proof (Nat.mod_upper_bound (N + K - 1) K) as Hub.
    nia.
  - intros c Hc.
    assert (Hlt : (N + K - 1) / K < S c); [|lia].
    apply Nat.Div0.div_lt_upper_bound. nia.
Qed.

(** C6.  A text of length N relayed in chunks of a fixed size K > 0 is
    emitted as chunks whose concatenation is the text and whose number is
    the ceiling of N / K, that is, the least c with N <= c * K.  The
    fallback branch of [generateStream], in both variants of the service,
    does so with K = 10 on the text that [generateText] returns for the
    content of the last message: for a registered model that streams
    neither through OpenAI nor through Ollama the generator ends without
    exception, makes the calls of [generateText] and no other, and yields
    chunks whose concatenation is that text and whose number is the
    ceiling of its length divided by 10. *)
Theorem relay_concat_and_count `{StringImpl} (E : Env) (K : nat) (HK : 0 < K)
    (s : string) (input : StreamInput) (modelId : option string)
    (options : Options) (t : Trace) (before : list Message) (lastMsg : Message) :
  let N := String.length s in
  let emitted := chunksFrom HK s 0 in
  let key := match modelId with Some id => id | None => "undefined" end in
  let messages :=
    match input with InMessages ms => ms | InPrompt p => [userMessage p] end in
  let relayedBy (catalog : Obj Model)
        (generateText : JsVal -> option string -> Options -> M GenResult)
        (generateStream : StreamInput -> option string -> Options
                          -> Trace -> Streamed * Trace) :=
    present (lookup catalog key) = true ->
    hasType (lookup catalog key) "openai" = false ->
    hasType (lookup catalog key) "ollama" = false ->
    forall result t',
      generateText (content lastMsg) modelId options t = (Returned result, t') ->
      let out := generateStream input modelId options t in
      let chunks := yielded (fst out) in
      let len := String.length (text result) in
      failure (fst out) = None
      /\ snd out = t'
      /\ String.concat "" chunks = text result
      /\ List.length chunks = (len + 10 - 1) / 10
      /\ len <= List.length chunks * 10
      /\ (forall c, len <= c * 10 -> List.length chunks <= c) in
  String.concat "" emitted = s
  /\ List.length emitted = (N + K - 1) / K
  /\ N <= List.length emitted * K
  /\ (forall c, N <= c * K -> List.length emitted <= c)
  /\ String.concat "" (simulateStream s) = s
  /\ List.length (simulateStream s) = (N + 10 - 1) / 10
  /\ (messages = (before ++ [lastMsg])%list ->
      relayedBy (Aakarsh.catalog E) (Aakarsh.generateText E) (Aakarsh.generateStream E)
      /\ relayedBy (Instruct.catalog E) (Instruct.generateText E)
           (Instruct.generateStream E)).
Proof.
  cbn zeta.
  assert (Hrelay : forall catalog generateText,
             present (lookup catalog
                        match modelId with Some id => id | None => "undefined" end)
             = true ->
             hasType (lookup catalog
                        match modelId with Some id => id | None => "undefined" end)
                     "openai" = false ->
             hasType (lookup catalog
                        match modelId with Some id => id | None => "undefined" end)
                     "ollama" = false ->
             match input with InMessages ms => ms | InPrompt p => [userMessage p] end
             = (before ++ [lastMsg])%list ->
             forall result t',
               generateText (content lastMsg) modelId options t = (Returned result, t') ->
               let out := Adapters.generateStream E catalog generateText input modelId
                            options t in
               failure (fst out) = None
               /\ snd out = t'
               /\ String.concat "" (yielded (fst out)) = text result
               /\ List.length (yielded (fst out))
                  = (String.length (text result) + 10 - 1) / 10
               /\ String.length (text result) <= List.length (yielded (fst out)) * 10
               /\ (forall c, String.length (text result) <= c * 10 ->
                             List.length (yielded (fst out)) <= c)).
  { intros catalog generateText Hpresent Hopenai Hollama Hmessages result t' Hgen.
    cbn zeta.
    rewrite (generateStream_relays E catalog generateText input modelId options t
               before lastMsg Hpresent Hopenai Hollama Hmessages).
    rewrite Hgen. cbn [fst snd yielded failure]. unfold simulateStream.
    rewrite chunks_concat, chunks_count.
    destruct (ceiling_least (String.length (text result)) chunkSize_pos) as (Hup & Hleast).
    split; [reflexivity|]. split; [reflexivity|]. split; [reflexivity|].
    split; [reflexivity|]. split; [exact Hup | exact Hleast]. }
  destruct (ceiling_least (String.length s) HK) as (Hup & Hleast).
  split; [apply chunks_concat|]. split; [apply chunks_count|].
  split; [rewrite chunks_count; exact Hup|].
  split; [rewrite chunks_count; exact Hleast|].
  split; [apply chunks_concat|]. split; [apply (chunks_count chunkSize_pos)|].
  intros Hm. split; intros Hp Ho Hl result t' Hgen.
  - apply (Hrelay (Aakarsh.catalog E) (Aakarsh.generateText E) Hp Ho Hl Hm result t' Hgen).
  - apply (Hrelay (Instruct.catalog E) (Instruct.generateText E) Hp Ho Hl Hm result t' Hgen).
Qed.

Lemma relay_concat_and_count_witness :
  (0 < 10)
  /\ String.concat "" (chunksFrom chunkSize_pos "Model is currently loading." 0)
     = "Model is currently loading."
  /\ List.length (chunksFrom chunkSize_pos "Model is currently loading." 0) = 3
  /\ [userMessage (JStr "hello")] = ([] ++ [userMessage (JStr "hello")])%list
  /\ present (lookup (Aakarsh.catalog Doubles.offlineEnv) "local/aakarsh") = true
  /\ hasType (lookup (Aakarsh.catalog Doubles.offlineEnv) "local/aakarsh") "openai" = false
  /\ hasType (lookup (Aakarsh.catalog Doubles.offlineEnv) "local/aakarsh") "ollama" = false
  /\ exists result t',
       Aakarsh.generateText Doubles.offlineEnv (JStr "hello") (Some "local/aakarsh")
         noOptions [] = (Returned result, t')
       /\ let out := Aakarsh.generateStream Doubles.offlineEnv (InPrompt (JStr "hello"))
                       (Some "local/aakarsh") noOptions [] in
          failure (fst out) = None
          /\ snd out = t'
          /\ String.concat "" (yielded (fst out)) = text result
          /\ List.length (yielded (fst out))
             = (String.length (text result) + 10 - 1) / 10.
Proof.
  destruct (relay_concat_and_count (H := AsciiStrings) Doubles.offlineEnv chunkSize_pos
              "Model is currently loading." (InPrompt (JStr "hello"))
              (Some "local/aakarsh") noOptions [] [] (userMessage (JStr "hello")))
    as (Hcat & Hcnt & _ & _ & _ & _ & Hrelay).
  split; [exact chunkSize_pos|]. split; [exact Hcat|]. split; [exact Hcnt|].
  split; [reflexivity|]. split; [reflexivity|]. split; [reflexivity|].
  split; [reflexivity|].
  destruct (Hrelay eq_refl) as (Haakarsh & _).
  destruct (Aakarsh.generateText Doubles.offlineEnv (JStr "hello") (Some "local/aakarsh")
              noOptions []) as [[result|e] t'] eqn:Hgen; [|vm_compute in Hgen; discriminate].
  exists result, t'. split; [reflexivity|].
  destruct (Haakarsh eq_refl eq_refl eq_refl result t' Hgen)
    as (Hfail & Htrace & Hspell & Hcount & _).
  repeat split; assumption.
Defined.

Example simulateStream_example :
  simulateStream "Model is currently loading."
  = ["Model is c"; "urrently l"; "oading."].
Proof. reflexivity. Qed.

End RelayFacts.

(** ** Notice composition *)

Module NoticeFacts.

Lemma append_assoc (a b c : string) : ((a ++ b) ++ c = a ++ b ++ c)%string.
Proof. induction a as [|x a IH]; cbn; [reflexivity | now rewrite IH]. Qed.

Lemma concat_then (sep content : string) (ns : list string) :
  forall n,
    String.concat sep (n :: ns) ++ sep ++ content
    = fold_right (fun x acc => x ++ sep ++ acc) content (n :: ns).
Proof.
  induction ns as [|m ns IH]; intros n.
  - reflexivity.
  - change (String.concat sep (n :: m :: ns))
      with (n ++ sep ++ String.concat sep (m :: ns)).
    rewrite !append_assoc. rewrite IH. reflexivity.
Qed.

(** Joining with a blank line and prefixing is the same as putting every
    notice, followed by a blank line, in front of the content. *)
Lemma composeContent_fold (content : string) (inlineNotices : list string) :
  composeContent content inlineNotices
  = fold_right (fun n acc => n ++ nl ++ nl ++ acc) content inlineNotices.
Proof.
  destruct inlineNotices as [|n ns]; [reflexivity|].
  unfold composeContent, join.
  change (String.concat (nl ++ nl) (n :: ns) ++ nl ++ nl ++ content)
    with (String.concat (nl ++ nl) (n :: ns) ++ (nl ++ nl) ++ content).
  rewrite concat_then. reflexivity.
Qed.

End NoticeFacts.


(** ** Notice composition, continued *)

Module NoticeOrder.

(** C9 (as stated, refuted).  Identical notice text is repeated: two equal
    caller notices both reach the composed text.  The order is not the
    stated one either: on a fallback path the dynamic notice travels in the
    option bag, so it comes before the static notice of the descriptor that
    answers, and it takes the place of the caller's own notice.  Here the
    Ollama daemon refuses the connection and the default model of the
    [local/aakarsh] variant, which has a static notice, answers. *)
Lemma composed_notices_repeat :
  let options := {| opt_notice := JArr [JStr "Heads up"; JStr "Heads up"];
                    inlineModelNotice := None |} in
  let p := prepareNoticesWith true Missing options in
  inline p = ["Heads up"; "Heads up"]
  /\ ~ NoDup (inline p)
  /\ composeContent "answer" (inline p)
     = "Heads up" ++ nl ++ nl ++ "Heads up" ++ nl ++ nl ++ "answer"
  /\ (let dynamicNotice :=
        "Could not reach Ollama at http://localhost:11434. Ensure the Ollama service is running and the model is pulled. Using built-in assistant instead." in
      let staticNotice :=
        "Enhanced NLP + neural mesh routing. Entirely local and deterministic." in
      exists r,
        fst (run (Aakarsh.generateText Doubles.unreachableEnv (JStr "hello")
                    (Some "ollama/mistral:7b") (withNotice "Caller note")))
        = Returned r
        /\ model r = "local/aakarsh"
        /\ noticeOf (modelInfo r) = JStr staticNotice
        /\ prefix (dynamicNotice ++ nl ++ nl ++ staticNotice ++ nl ++ nl) (text r) = true
        /\ includes "Caller note" (text r) = false
        /\ notices r = [staticNotice]).
Proof.
  cbn zeta. split; [reflexivity|]. split; [|split; [reflexivity|]].
  - intros Hnd. change (NoDup ["Heads up"; "Heads up"]) in Hnd.
    inversion Hnd as [|x l Hnin _]; subst. apply Hnin. now left.
  - eexists. split; [vm_compute; reflexivity|].
    split; [reflexivity|]. split; [reflexivity|].
    split; [vm_compute; reflexivity|]. split; [vm_compute; reflexivity | reflexivity].
Qed.

(** The static notice of a descriptor is repeated as well when the caller
    (or a fallback path) passes the same text: here with the notice of
    [xenova/phi-1_5] in the [local/aakarsh] variant. *)
Example static_notice_repeats :
  let model := lookup (Aakarsh.catalog Doubles.offlineEnv) "xenova/phi-1_5" in
  inline (Aakarsh.prepareNotices model
            (withNotice "Runs locally. First use downloads ~1.7GB weights."))
  = ["Runs locally. First use downloads ~1.7GB weights.";
     "Runs locally. First use downloads ~1.7GB weights."].
Proof. reflexivity. Qed.

Section Kept.
Context `{StringImpl}.

(** [normalizeNotices] on an array of strings: every entry is trimmed, the
    blank ones are dropped, and that is all. *)
Lemma normalizeNotices_array (supplied : list string) :
  normalizeNotices (JArr (map JStr supplied)) = filter nonEmpty (map trim supplied).
Proof.
  unfold normalizeNotices. cbn [truthy negb]. cbv iota.
  rewrite map_map. reflexivity.
Qed.

(** Entries that are already trimmed and not blank are all kept. *)
Lemma clean_kept (supplied : list string) :
  Forall (fun n => trim n = n /\ nonEmpty n = true) supplied ->
  filter nonEmpty (map trim supplied) = supplied.
Proof.
  induction 1 as [|n ns [Htrim Hfull] _ IH]; [reflexivity|].
  cbn [map filter]. rewrite Htrim, Hfull, IH. reflexivity.
Qed.

Lemma inline_parts (inlineDefault : bool) (model : Lookup) (options : Options) :
  inline (prepareNoticesWith inlineDefault model options)
  = (normalizeNotices (opt_notice options)
     ++ (if match inlineModelNotice options with
            | Some b => b
            | None => inlineDefault
            end
         then normalizeNotices (noticeOf model) else []))%list.
Proof.
  unfold prepareNoticesWith. cbn [inline].
  destruct (normalizeNotices (noticeOf model)) as [|n ns].
  - destruct (match inlineModelNotice options with
              | Some b => b
              | None => inlineDefault
              end); now rewrite app_nil_r.
  - destruct (match inlineModelNotice options with
              | Some b => b
              | None => inlineDefault
              end); [reflexivity | now rewrite app_nil_r].
Qed.
End Kept.

(** C9 (amended).  [prepareNotices] puts the normalized notices of the
    option bag first (the caller's, or the dynamic fallback notice that a
    fallback path passes in their place), then the descriptor's static
    notices when inlining is on; the static notices are also returned apart
    as [extra]; [composeContent] puts every inline notice, in that order and
    each followed by a blank line, in front of the content.  Normalizing an
    array of strings trims every entry and drops the blank ones, nothing
    else, so no text is removed for being a repetition: a notice occurs in
    the inline list as often as in the option bag plus as often as among
    the static notices, and notices supplied trimmed and not blank come out
    as the very list supplied, followed by the static notice, whatever
    repetitions it holds. *)
Theorem notices_order `{StringImpl} (inlineDefault : bool) (model : Lookup)
    (options : Options) (content : string) (supplied : list string)
    (staticNotice : string) :
  let p := prepareNoticesWith inlineDefault model options in
  let flag := match inlineModelNotice options with
              | Some b => b
              | None => inlineDefault
              end in
  extra p = normalizeNotices (noticeOf model)
  /\ inline p = (normalizeNotices (opt_notice options)
                 ++ (if flag then normalizeNotices (noticeOf model) else []))%list
  /\ composeContent content (inline p)
     = fold_right (fun n acc => n ++ nl ++ nl ++ acc) content (inline p)
  /\ Aakarsh.prepareNotices model options = prepareNoticesWith true model options
  /\ Instruct.prepareNotices model options
     = prepareNoticesWith (negb (hasType model "huggingface")) model options
  /\ normalizeNotices (JArr (map JStr supplied)) = filter nonEmpty (map trim supplied)
  /\ (forall x,
        count_occ string_dec (inline p) x
        = (count_occ string_dec (normalizeNotices (opt_notice options)) x
           + (if flag then count_occ string_dec (normalizeNotices (noticeOf model)) x
              else 0))%nat)
  /\ (Forall (fun n => trim n = n /\ nonEmpty n = true) (supplied ++ [staticNotice]) ->
      opt_notice options = JArr (map JStr supplied) ->
      noticeOf model = JStr staticNotice ->
      flag = true ->
      inline p = (supplied ++ [staticNotice])%list
      /\ extra p = [staticNotice]
      /\ composeContent content (inline p)
         = fold_right (fun n acc => n ++ nl ++ nl ++ acc)
             (staticNotice ++ nl ++ nl ++ content) supplied
      /\ (forall x,
            count_occ string_dec (inline p) x
            = (count_occ string_dec supplied x
               + count_occ string_dec [staticNotice] x)%nat)).
Proof.
  cbn zeta.
  split; [reflexivity|]. split; [apply inline_parts|].
  split; [apply NoticeFacts.composeContent_fold|].
  split; [reflexivity|]. split; [reflexivity|].
  split; [apply normalizeNotices_array|]. split.
  - intros x. rewrite inline_parts, count_occ_app.
    destruct (match inlineModelNotice options with
              | Some b => b
              | None => inlineDefault
              end); reflexivity.
  - intros Hclean Hbag Hstatic Hflag.
    apply Forall_app in Hclean as (Hsupplied & Hlast).
    inversion Hlast as [|n ns [Htrim Hfull] _]; subst.
    assert (Hinline : inline (prepareNoticesWith inlineDefault model options)
                      = (supplied ++ [staticNotice])%list).
    { rewrite inline_parts, Hflag, Hbag, Hstatic, normalizeNotices_array.
      rewrite (clean_kept Hsupplied).
      unfold normalizeNotices. rewrite Htrim.
      destruct staticNotice; [discriminate|]. reflexivity. }
    split; [exact Hinline|]. split.
    + unfold prepareNoticesWith. cbn [extra]. rewrite Hstatic.
      unfold normalizeNotices. rewrite Htrim.
      destruct staticNotice; [discriminate|]. reflexivity.
    + split.
      * rewrite NoticeFacts.composeContent_fold, Hinline, fold_right_app. reflexivity.
      * intros x. rewrite Hinline. apply count_occ_app.
Qed.

Lemma notices_order_witness :
  let model := lookup (Aakarsh.catalog Doubles.offlineEnv) "xenova/phi-1_5" in
  let staticNotice := "Runs locally. First use downloads ~1.7GB weights." in
  let supplied := ["Heads up"; staticNotice; "Heads up"] in
  let options := {| opt_notice := JArr (map JStr supplied); inlineModelNotice := None |} in
  let p := Aakarsh.prepareNotices model options in
  Forall (fun n => trim n = n /\ nonEmpty n = true) (supplied ++ [staticNotice])
  /\ noticeOf model = JStr staticNotice
  /\ inline p = ["Heads up"; staticNotice; "Heads up"; staticNotice]
  /\ extra p = [staticNotice]
  /\ count_occ string_dec (inline p) "Heads up" = 2%nat
  /\ count_occ string_dec (inline p) staticNotice = 2%nat.
Proof.
  cbn zeta.
  assert (Hclean : Forall (fun n => trim n = n /\ nonEmpty n = true)
                     (["Heads up"; "Runs locally. First use downloads ~1.7GB weights.";
                       "Heads up"]
                      ++ ["Runs locally. First use downloads ~1.7GB weights."])%list).
  { repeat constructor. }
  destruct (notices_order (H := AsciiStrings) true
              (lookup (Aakarsh.catalog Doubles.offlineEnv) "xenova/phi-1_5")
              {| opt_notice :=
                   JArr (map JStr
                           ["Heads up"; "Runs locally. First use downloads ~1.7GB weights.";
                            "Heads up"]);
                 inlineModelNotice := None |}
              "answer"
              ["Heads up"; "Runs locally. First use downloads ~1.7GB weights."; "Heads up"]
              "Runs locally. First use downloads ~1.7GB weights.")
    as (_ & _ & _ & _ & _ & _ & _ & Hkept).
  destruct (Hkept Hclean eq_refl eq_refl eq_refl) as (Hinline & Hextra & _ & Hcount).
  split; [exact Hclean|]. split; [reflexivity|].
  split; [exact Hinline|]. split; [exact Hextra|].
  split; [exact (Hcount "Heads up") | exact (Hcount "Runs locally. First use downloads ~1.7GB weights.")].
Defined.

End NoticeOrder.

(** ** Context injection *)

Module InjectionFacts.
Import AppRoutes Doubles.

(** C7.  The injection of [POST /api/v1/chat] is not idempotent: a second
    pass over the same message list appends the API block a second time; so
    does a second pass of the web-search injection. *)
Theorem chat_injection_duplicates :
  let once := injectApiContextChat [weatherApi] conversation in
  let twice := injectApiContextChat [weatherApi] once in
  twice <> once
  /\ occurrences apiMarker (systemContent once) = 1%nat
  /\ occurrences apiMarker (systemContent twice) = 2%nat
  /\ (let results := [ {| title := "T"; link := "L"; snippet := "S" |} ] in
      let s1 := injectSearchContext "Google" results conversation in
      let s2 := injectSearchContext "Google" results s1 in
      occurrences "[Web Search Results" (systemContent s1) = 1%nat
      /\ occurrences "[Web Search Results" (systemContent s2) = 2%nat).
Proof.
  cbn zeta. split; [|split; [|split; [|split]]]; try (vm_compute; reflexivity).
  intros Heq.
  assert (Hocc : occurrences apiMarker
                   (systemContent (injectApiContextChat [weatherApi]
                                     (injectApiContextChat [weatherApi] conversation)))
                 = occurrences apiMarker
                     (systemContent (injectApiContextChat [weatherApi] conversation)))
    by now rewrite Heq.
  vm_compute in Hocc. discriminate.
Qed.

Lemma includes_prefix (needle rest : string) : includes needle (needle ++ rest) = true.
Proof.
  assert (Hp : prefix needle (needle ++ rest) = true).
  { induction needle as [|c n IH]; cbn.
    - now destruct rest.
    - destruct (ascii_dec c c); [exact IH | contradiction]. }
  destruct needle; cbn in *; [now destruct rest|].
  now rewrite Hp.
Qed.

Lemma includes_append_left (needle a b : string) :
  includes needle b = true -> includes needle (a ++ b) = true.
Proof.
  intros Hb. induction a as [|c a IH]; cbn [append]; [exact Hb|].
  cbn [includes]. rewrite IH. apply orb_true_r.
Qed.

Lemma apiContext_has_marker (apis : list Api) (s : string) :
  includes apiMarker (s ++ apiContext apis) = true.
Proof.
  apply includes_append_left. unfold apiContext.
  do 3 (apply (includes_append_left apiMarker (String _ ""))).
  apply includes_prefix.
Qed.

Lemma appendToFirstSystem_firstSystem (extra : string) (messages : list Message) :
  match firstSystem messages with
  | Some m =>
      exists messages',
        appendToFirstSystem extra messages = Some messages'
        /\ firstSystem messages'
           = Some {| role := role m;
                     content := JStr (toStr (content m) ++ extra);
                     image := image m |}
  | None => appendToFirstSystem extra messages = None
  end.
Proof.
  induction messages as [|m rest IH]; cbn; [reflexivity|].
  destruct (isSystem m) eqn:Hsys.
  - eexists. split; [reflexivity|]. cbn. unfold isSystem in *. cbn. now rewrite Hsys.
  - destruct (firstSystem rest) as [m0|].
    + destruct IH as (rest' & -> & Hfirst). eexists. split; [reflexivity|].
      cbn. now rewrite Hsys.
    + now rewrite IH.
Qed.

(** The guarded injection of [POST /api/v1/chat/stream] is idempotent: once
    it has returned, a second pass changes nothing. *)
Lemma stream_injection_idempotent (apis : list Api) (messages once : list Message) :
  injectApiContextStream apis messages = Returned once ->
  injectApiContextStream apis once = Returned once.
Proof.
  unfold injectApiContextStream. destruct apis as [|a apis]; [congruence|].
  set (ctx := apiContext (a :: apis)).
  pose proof (appendToFirstSystem_firstSystem ctx messages) as Happ.
  destruct (firstSystem messages) as [m|] eqn:Hfirst.
  - destruct (contentIncludes (content m) apiMarker) as [[|]|e] eqn:Hinc;
      intros Heq; inversion Heq; subst; clear Heq.
    + now rewrite Hfirst, Hinc.
    + destruct Happ as (messages' & Happ & Hfirst').
      unfold injectIntoSystem. rewrite Happ, Hfirst'. cbn [content contentIncludes].
      unfold ctx. now rewrite apiContext_has_marker.
  - intros Heq; inversion Heq; subst; clear Heq.
    change (firstSystem (systemMessage ctx :: messages))
      with (Some (systemMessage ctx)).
    unfold ctx.
    change (content (systemMessage (apiContext (a :: apis))))
      with (JStr ("You are a helpful AI assistant." ++ apiContext (a :: apis))).
    cbn [contentIncludes].
    now rewrite (apiContext_has_marker (a :: apis) "You are a helpful AI assistant.").
Qed.

End InjectionFacts.


(** ** Trimming of notices *)

Module TrimFacts.
Import Trim.

Lemma lastChar_app (a b : string) (d : ascii) :
  lastChar (a ++ b) d = lastChar b (lastChar a d).
Proof. revert d; induction a as [|c a IH]; intros d; cbn; auto. Qed.

Lemma rev_head (l : list ascii) :
  forall c, exists l', rev (c :: l) = lastChar (string_of_list_ascii l) c :: l'.
Proof.
  induction l as [|x l IH]; intros c.
  - exists []. reflexivity.
  - destruct (IH x) as (l' & Hl'). exists (l' ++ [c])%list.
    change (rev (c :: x :: l)) with (rev (x :: l) ++ [c])%list.
    rewrite Hl'. reflexivity.
Qed.

Lemma graphic_not_space (c : ascii) : graphic c = true -> isSpace c = false.
Proof.
  unfold graphic, isSpace. intros Hg.
  apply andb_true_iff in Hg as [H1 H2].
  apply Nat.leb_le in H1. apply Nat.leb_le in H2.
  apply orb_false_iff. split.
  - apply andb_false_iff. right. apply Nat.leb_gt. lia.
  - apply Nat.eqb_neq. lia.
Qed.

#[export] Instance AsciiLaws : @StringLaws AsciiStrings.
Proof.
  constructor. intros s Hs. cbn [trim AsciiStrings]. unfold trimAscii.
  destruct s as [|c rest]; [discriminate|].
  cbn [graphicEnds] in Hs. apply andb_true_iff in Hs as [Hc Hlast].
  cbn [list_ascii_of_string dropSpaces].
  rewrite (graphic_not_space _ Hc).
  destruct (rev_head (list_ascii_of_string rest) c) as (l' & Hrev).
  rewrite string_of_list_ascii_of_string in Hrev.
  rewrite Hrev. cbn [dropSpaces]. rewrite (graphic_not_space _ Hlast).
  rewrite <- Hrev, rev_involutive.
  cbn [string_of_list_ascii]. now rewrite string_of_list_ascii_of_string.
Qed.

Section Notices.
Context `{L : StringLaws}.

(** A notice with visible ends is kept as it is by [normalizeNotices]. *)
Lemma normalizeNotices_graphic (notice : string) :
  graphicEnds notice = true -> normalizeNotices (JStr notice) = [notice].
Proof.
  intros Hg. unfold normalizeNotices. rewrite (trim_graphic _ Hg).
  destruct notice; [discriminate | reflexivity].
Qed.

(** On a descriptor without static notice the composed text is the notice,
    a blank line, and the reply. *)
Lemma composeContent_single (notice response : string) (inlineDefault : bool)
    (model : Lookup) :
  graphicEnds notice = true -> noticeOf model = JUndefined ->
  composeContent response
    (inline (prepareNoticesWith inlineDefault model (withNotice notice)))
  = notice ++ nl ++ nl ++ response.
Proof.
  intros Hg Hn. unfold prepareNoticesWith. rewrite Hn.
  cbn [withNotice opt_notice inlineModelNotice inline].
  rewrite (normalizeNotices_graphic _ Hg). reflexivity.
Qed.

End Notices.

(** Visible ends of a text built around a variable part. *)
Ltac graphic_ends :=
  repeat (progress (cbn [append graphicEnds lastChar]; rewrite ?lastChar_app));
  reflexivity.

End TrimFacts.


(** ** The rule-based adapter on text prompts *)

Module LocalModelFacts.

Ltac eval_calls :=
  repeat (progress
            (cbv beta iota zeta
                 delta [bind emit ret throw tryCatch await callTrim callToLowerCase
                        lengthOf defaultPrompt orElse truthy fst snd toStr];
             cbn [nonEmpty negb andb orb])).

Ltac close_call :=
  unfold ret; rewrite <- ?app_assoc; cbn [app]; rewrite ?app_nil_r;
  try reflexivity.

Section Facts.
Context `{StringImpl} (E : Env).

(** [tinyLLM.generate] returns on every argument. *)
Lemma tinyLLM_generate_returns (prompt : JsVal) (t : Trace) :
  exists response,
    Instruct.tinyLLM_generate E prompt t
    = (Returned response, (t ++ [CallBuiltinGenerator prompt])%list).
Proof.
  unfold Instruct.tinyLLM_generate.
  destruct prompt as [| |b|n|s|items|]; eval_calls;
    try (eexists; close_call; fail).
  - destruct b; eval_calls; eexists; close_call.
  - destruct (n =? 0); eval_calls; eexists; close_call.
  - destruct s as [|c s]; eval_calls; [eexists; close_call|].
    destruct (nonEmpty (trim (String c s))); eval_calls; [|eexists; close_call].
    unfold await. destruct (builtinKnowledge E (String c s)); eval_calls;
      eexists; close_call.
Qed.

(** The built-in assistant of the [local/instruct] variant answers every
    text prompt, through exactly one call of the built-in generator. *)
Lemma instruct_local_string (s mid : string) (options : Options) (t : Trace) :
  let fb := if isLocal (Instruct.catalog E) mid then mid else Instruct.defaultModel in
  let model := lookup (Instruct.catalog E) fb in
  exists response,
    Instruct.generateWithLocalModel E (JStr s) mid options t
    = (Returned {| text := composeContent response
                             (inline (Instruct.prepareNotices model options));
                   model := fb;
                   modelInfo := model;
                   loading := Some false;
                   notices := extra (Instruct.prepareNotices model options) |},
       (t ++ [CallLocalModel (JStr s) mid; CallBuiltinGenerator (JStr s)])%list).
Proof.
  cbn zeta. unfold Instruct.generateWithLocalModel.
  destruct (tinyLLM_generate_returns (JStr s) (t ++ [CallLocalModel (JStr s) mid])%list)
    as (response & Hgen).
  exists response.
  destruct s as [|c s]; eval_calls.
  - rewrite Hgen. eval_calls. close_call.
  - destruct (nonEmpty (trim (String c s))); eval_calls; rewrite Hgen; eval_calls;
      close_call.
Qed.

(** First cascade of the [local/aakarsh] variant on a text prompt. *)
Lemma draftResponse_string (fb s lower : string) (a : option Analysis) (t : Trace) :
  exists draft d,
    Aakarsh.draftResponse E fb (JStr s) lower a t = (Returned draft, (t ++ d)%list)
    /\ (d = [] \/ d = [CallNeuralHead fb]).
Proof.
  unfold Aakarsh.draftResponse.
  destruct (String.eqb_spec fb "local/aakarsh") as [->|_].
  { eval_calls. eexists _, [CallNeuralHead _]. split; [reflexivity | now right]. }
  destruct (String.eqb_spec fb "local/assistant-10m") as [->|_].
  { eval_calls. eexists _, [CallNeuralHead _]. split; [reflexivity | now right]. }
  assert (Hdone : forall (x : option string) (u : Trace),
             exists draft d, (Returned x, u) = (Returned draft, (u ++ d)%list)
                             /\ (d = [] \/ d = [CallNeuralHead fb])).
  { intros x u. exists x, []. rewrite app_nil_r. auto. }
  destruct s as [|c s]; eval_calls; [apply Hdone|].
  destruct (nonEmpty (trim (String c s))); eval_calls; [|apply Hdone].
  destruct a as [a|]; [|apply Hdone].
  destruct (a_hasEntities a); [|apply Hdone].
  destruct (includes "nlp" lower || includes "natural language" lower);
    [apply Hdone|].
  destruct (includes "analyze" lower && negb (Nat.eqb (List.length (a_keywords a)) 0));
    apply Hdone.
Qed.

(** Second cascade on a text prompt: it always produces a reply. *)
Lemma finalResponse_string (draft : option string) (s lower : string) (t : Trace) :
  exists response,
    Aakarsh.finalResponse E draft (JStr s) lower t = (Returned response, t).
Proof.
  unfold Aakarsh.finalResponse.
  repeat match goal with
         | |- context [if ?b then ret ?x else _] =>
             destruct b; [eexists; reflexivity|]
         end.
  eval_calls.
  destruct (Nat.ltb (String.length s) 80); eval_calls; eexists; reflexivity.
Qed.

(** The rule-based adapter of the [local/aakarsh] variant answers every
    text prompt; a prompt the safety filter blocks gets the refusal text and
    no neural head is entered. *)
Lemma aakarsh_local_string (s mid : string) (options : Options) (t : Trace) :
  let fb := if isLocal (Aakarsh.catalog E) mid then mid else Aakarsh.defaultModel in
  let model := lookup (Aakarsh.catalog E) fb in
  let safety := Aakarsh.runLocalSafetyChecks (JStr s) in
  exists body d,
    Aakarsh.generateWithLocalModel E (JStr s) mid options t
    = (Returned {| text := composeContent body
                             (inline (Aakarsh.prepareNotices model options));
                   model := fb;
                   modelInfo := model;
                   loading := Some false;
                   notices := extra (Aakarsh.prepareNotices model options) |},
       (t ++ CallLocalModel (JStr s) mid :: d)%list)
    /\ (d = [] \/ d = [CallNeuralHead fb])
    /\ (Aakarsh.blocked safety = true ->
        d = []
        /\ body = Aakarsh.refusal safety ++ nl ++ nl
                  ++ (if String.eqb fb "local/aakarsh"
                      then Aakarsh.buildAakarshProductSheet emptyAnalysis
                      else Aakarsh.buildLocalAssistantProductSheet emptyAnalysis)).
Proof.
  cbn zeta. unfold Aakarsh.generateWithLocalModel.
  set (fb := if isLocal (Aakarsh.catalog E) mid then mid else Aakarsh.defaultModel).
  set (safety := Aakarsh.runLocalSafetyChecks (JStr s)).
  destruct (Aakarsh.blocked safety) eqn:Hblocked.
  - exists (Aakarsh.refusal safety ++ nl ++ nl
            ++ (if String.eqb fb "local/aakarsh"
                then Aakarsh.buildAakarshProductSheet emptyAnalysis
                else Aakarsh.buildLocalAssistantProductSheet emptyAnalysis)), [].
    split; [|split; [now left | intros _; split; reflexivity]].
    subst safety. destruct s as [|c s]; eval_calls; rewrite Hblocked; close_call.
  - assert (Hrest : forall lower a u, exists body d,
               bind (Aakarsh.draftResponse E fb (JStr s) lower a)
                 (fun draft =>
                    bind (Aakarsh.finalResponse E draft (JStr s) lower)
                         (fun response =>
                            ret {| text := composeContent response
                                             (inline (Aakarsh.prepareNotices
                                                        (lookup (Aakarsh.catalog E) fb) options));
                                   model := fb;
                                   modelInfo := lookup (Aakarsh.catalog E) fb;
                                   loading := Some false;
                                   notices := extra (Aakarsh.prepareNotices
                                                       (lookup (Aakarsh.catalog E) fb) options) |}))
                 u
               = (Returned {| text := composeContent body
                                        (inline (Aakarsh.prepareNotices
                                                   (lookup (Aakarsh.catalog E) fb) options));
                              model := fb;
                              modelInfo := lookup (Aakarsh.catalog E) fb;
                              loading := Some false;
                              notices := extra (Aakarsh.prepareNotices
                                                  (lookup (Aakarsh.catalog E) fb) options) |},
                  (u ++ d)%list)
               /\ (d = [] \/ d = [CallNeuralHead fb])).
    { intros lower a u. unfold bind at 1.
      destruct (draftResponse_string fb s lower a u) as (draft & d & -> & Hd).
      unfold bind at 1.
      destruct (finalResponse_string draft s lower (u ++ d)%list) as (response & ->).
      exists response, d. split; [reflexivity | exact Hd]. }
    assert (Hgoal : forall body d,
               (d = [] \/ d = [CallNeuralHead fb]) ->
               (d = [] \/ d = [CallNeuralHead fb])
               /\ (false = true ->
                   d = []
                   /\ body = Aakarsh.refusal safety ++ nl ++ nl
                             ++ (if String.eqb fb "local/aakarsh"
                                 then Aakarsh.buildAakarshProductSheet emptyAnalysis
                                 else Aakarsh.buildLocalAssistantProductSheet emptyAnalysis))).
    { intros body d Hd. split; [exact Hd | discriminate]. }
    subst safety.
    destruct s as [|c s]; eval_calls; rewrite Hblocked.
    + destruct (Hrest (toLowerCase "") None (t ++ [CallLocalModel (JStr "") mid])%list)
        as (body & d & Heq & Hd).
      exists body, d. split; [|now apply Hgoal].
      unfold bind, ret in Heq. rewrite Heq. close_call.
    + destruct (nonEmpty (trim (String c s))); eval_calls.
      * unfold await. destruct (nlpAnalyze E (String c s)) as [a|e]; eval_calls.
        -- destruct (Hrest (toLowerCase (String c s)) (Some a)
                       (t ++ [CallLocalModel (JStr (String c s)) mid])%list)
             as (body & d & Heq & Hd).
           exists body, d. split; [|now apply Hgoal].
           unfold bind, ret in Heq. rewrite Heq. close_call.
        -- destruct (Hrest (toLowerCase (String c s)) None
                       (t ++ [CallLocalModel (JStr (String c s)) mid])%list)
             as (body & d & Heq & Hd).
           exists body, d. split; [|now apply Hgoal].
           unfold bind, ret in Heq. rewrite Heq. close_call.
      * destruct (Hrest (toLowerCase (String c s)) None
                    (t ++ [CallLocalModel (JStr (String c s)) mid])%list)
          as (body & d & Heq & Hd).
        exists body, d. split; [|now apply Hgoal].
        unfold bind, ret in Heq. rewrite Heq. close_call.
Qed.

End Facts.

End LocalModelFacts.


(** ** The rule-based adapter on arbitrary input *)

Module GarbageInput.

(** C5.  A prompt that is a number reaches [(prompt || '').toLowerCase()]
    in [generateWithLocalModel] and raises a [TypeError], in both variants
    of the service and through [generateText] with the default model. *)
Theorem local_adapter_raises_on_number `{StringImpl} (E : Env) (modelId : string)
    (options : Options) :
  let raised := Raised (TypeError ("(prompt || " ++ dq ++ dq ++ ").toLowerCase is not a function")) in
  fst (run (Aakarsh.generateWithLocalModel E (JNum 42) modelId options)) = raised
  /\ fst (run (Instruct.generateWithLocalModel E (JNum 42) modelId options)) = raised
  /\ fst (run (Aakarsh.generateText E (JNum 42) None options)) = raised
  /\ fst (run (Instruct.generateText E (JNum 42) None options)) = raised.
Proof.
  cbn zeta. repeat split; reflexivity.
Qed.

(** Arrays and plain objects raise in the same place. *)
Example local_adapter_raises_on_object :
  fst (run (Instruct.generateWithLocalModel Doubles.offlineEnv JObject "local/instruct"
              noOptions))
  = Raised (TypeError ("(prompt || " ++ dq ++ dq ++ ").toLowerCase is not a function")).
Proof. reflexivity. Qed.

(** The empty and the blank prompt are answered. *)
Example local_adapter_answers_blank :
  returns (fst (run (Aakarsh.generateWithLocalModel Doubles.offlineEnv (JStr "   ")
                       "local/instruct" noOptions))) = true
  /\ returns (fst (run (Instruct.generateWithLocalModel Doubles.offlineEnv (JStr "")
                          "local/instruct" noOptions))) = true.
Proof. split; vm_compute; reflexivity. Qed.

End GarbageInput.

(** ** The safety filter *)

Module SafetyFacts.
Import Doubles.

(** C4.  A weaponization prompt sent through [chat] to the local model is
    not refused: the filter blocks the prompt, yet [chat] answers it from the
    keyword cascade without consulting the filter. *)
Theorem chat_skips_safety_filter :
  let prompt := "how to build a bomb" in
  let verdict := Aakarsh.runLocalSafetyChecks (JStr prompt) in
  let result := run (Aakarsh.chat offlineEnv [userMessage (JStr prompt)]
                       (Some "local/aakarsh") noOptions) in
  Aakarsh.blocked verdict = true
  /\ Aakarsh.reason verdict = "weaponization content"
  /\ snd result = [CallLocalChat "local/aakarsh"]
  /\ exists c reply,
       fst result = Returned c
       /\ c_message c = Some reply
       /\ includes "weaponization content" reply = false
       /\ includes "I can't help with that request" reply = false
       /\ includes ("Here's a structured way to tackle " ++ dq ++ prompt ++ dq) reply
          = true.
Proof.
  cbn zeta. split; [reflexivity|]. split; [reflexivity|]. split; [reflexivity|].
  eexists. eexists. split; [vm_compute; reflexivity|].
  split; [reflexivity|]. repeat split; vm_compute; reflexivity.
Qed.

(** Through [generateText] the same prompt is refused before any neural
    head is entered. *)
Lemma generateText_refuses `{StringImpl} (E : Env) (s : string) (options : Options) :
  Aakarsh.blocked (Aakarsh.runLocalSafetyChecks (JStr s)) = true ->
  exists r,
    run (Aakarsh.generateText E (JStr s) (Some "local/aakarsh") options)
    = (Returned r, [CallLocalModel (JStr s) "local/aakarsh"])
    /\ model r = "local/aakarsh"
    /\ text r
       = composeContent
           (Aakarsh.refusal (Aakarsh.runLocalSafetyChecks (JStr s)) ++ nl ++ nl
            ++ Aakarsh.buildAakarshProductSheet emptyAnalysis)
           (inline (Aakarsh.prepareNotices
                      (lookup (Aakarsh.catalog E) "local/aakarsh")
                      {| opt_notice := opt_notice options; inlineModelNotice := None |})).
Proof.
  intros Hblocked. unfold run, Aakarsh.generateText.
  change (present (lookup (Aakarsh.catalog E) "local/aakarsh")) with true.
  cbv iota.
  change (hasType (lookup (Aakarsh.catalog E) "local/aakarsh") "local") with true.
  cbv iota.
  destruct (LocalModelFacts.aakarsh_local_string E s "local/aakarsh"
              {| opt_notice := opt_notice options; inlineModelNotice := None |} [])
    as (body & d & Heq & _ & Hb).
  destruct (Hb Hblocked) as (-> & ->).
  rewrite Heq. eexists. split; [reflexivity|]. split; reflexivity.
Qed.

End SafetyFacts.


(** ** Dispatch and fallback *)

Module DispatchFacts.
Import LocalModelFacts Trim TrimFacts Instruct.

(** Decide the type tests of [generateText] / [chat] on a catalog key. *)
Ltac decide_types catalog id :=
  change (present (lookup catalog id)) with true;
  try change (hasType (lookup catalog id) "local") with false;
  try change (hasType (lookup catalog id) "local") with true;
  try change (hasType (lookup catalog id) "openai") with false;
  try change (hasType (lookup catalog id) "openai") with true;
  try change (hasType (lookup catalog id) "xenova") with false;
  try change (hasType (lookup catalog id) "xenova") with true;
  try change (hasType (lookup catalog id) "ollama") with false;
  try change (hasType (lookup catalog id) "ollama") with true;
  try change (hasType (lookup catalog id) "huggingface") with false;
  try change (hasType (lookup catalog id) "huggingface") with true;
  cbv iota.

Section InstructPaths.
Context `{L : StringLaws} (E : Env).

Lemma ollamaFailureNotice_graphic (b t : string) (e : Exn) :
  graphicEnds (ollamaFailureNotice b t e) = true.
Proof. unfold ollamaFailureNotice. destruct (hasCode e "ECONNREFUSED"); graphic_ends. Qed.

(** A fallback call of the built-in assistant with a notice: one call, on
    the given prompt; the reply text opens with the notice. *)
Lemma instruct_fallback (prompt notice : string) (u : Trace) :
  graphicEnds notice = true ->
  exists r response,
    Instruct.generateWithLocalModel E (JStr prompt) Instruct.defaultModel
      (withNotice notice) u
    = (Returned r,
       (u ++ [CallLocalModel (JStr prompt) "local/instruct";
              CallBuiltinGenerator (JStr prompt)])%list)
    /\ text r = notice ++ nl ++ nl ++ response
    /\ model r = "local/instruct"
    /\ loading r = Some false.
Proof.
  intros Hg.
  destruct (instruct_local_string E prompt Instruct.defaultModel (withNotice notice) u)
    as (response & Heq).
  cbn zeta in Heq.
  assert (Hfb : (if isLocal (Instruct.catalog E) Instruct.defaultModel
                 then Instruct.defaultModel else Instruct.defaultModel)
                = "local/instruct") by reflexivity.
  rewrite Hfb in Heq.
  eexists. exists response. split; [exact Heq|].
  cbn [text model loading]. split; [|split; reflexivity].
  unfold Instruct.prepareNotices. apply composeContent_single; [exact Hg | reflexivity].
Qed.

Lemma typed_lookup (catalog : Obj Model) (id t : string) :
  hasType (lookup catalog id) t = true ->
  exists m, lookup catalog id = Own m /\ type m = t.
Proof.
  unfold hasType. destruct (lookup catalog id) as [m| |]; try discriminate.
  intros Heq. apply String.eqb_eq in Heq. eauto.
Qed.

(** LocalDaemon failure, for every registered model of type [ollama]. *)
Lemma ollama_failure (id prompt : string) (options : Options) (error : Exn) :
  hasType (lookup (Instruct.catalog E) id) "ollama" = true ->
  (forall base target p, ollamaGenerate E base target p = Raised error) ->
  let descriptor := lookup (Instruct.catalog E) id in
  let notice :=
    ollamaFailureNotice (ollamaBaseUrl E descriptor) (ollamaTarget descriptor id) error in
  exists r response,
    run (Instruct.generateText E (JStr prompt) (Some id) options)
    = (Returned r,
       [CallRemote "ollama" id; CallLocalModel (JStr prompt) "local/instruct";
        CallBuiltinGenerator (JStr prompt)])
    /\ text r = notice ++ nl ++ nl ++ response
    /\ model r = "local/instruct"
    /\ loading r = Some false.
Proof.
  intros Htype Hfail. cbn zeta. unfold run, Instruct.generateText.
  destruct (typed_lookup _ _ _ Htype) as (m & Hl & Ht).
  rewrite Hl. cbn [present]. cbv iota. rewrite Hl. cbn [hasType]. rewrite Ht.
  change (String.eqb "ollama" "local") with false.
  change (String.eqb "ollama" "openai") with false.
  change (String.eqb "ollama" "xenova") with false.
  change (String.eqb "ollama" "ollama") with true.
  cbv iota.
  unfold generateWithOllama. rewrite Hl. cbn [present negb]. cbv iota.
  rewrite Hfail. eval_calls. cbn [app].
  apply instruct_fallback. apply ollamaFailureNotice_graphic.
Qed.

(** OnDeviceTransformer failure, for every registered model of type
    [xenova]. *)
Lemma xenova_failure (id prompt : string) (options : Options) (error : Exn) :
  hasType (lookup (Instruct.catalog E) id) "xenova" = true ->
  (forall key p, xenovaPipeline E key p = Raised error) ->
  let notice := "Local transformers.js model " ++ id ++ " failed: " ++ message error
                ++ ". Using built-in assistant instead." in
  exists r response,
    run (Instruct.generateText E (JStr prompt) (Some id) options)
    = (Returned r,
       [CallRemote "xenova" id; CallLocalModel (JStr prompt) "local/instruct";
        CallBuiltinGenerator (JStr prompt)])
    /\ text r = notice ++ nl ++ nl ++ response
    /\ model r = "local/instruct"
    /\ loading r = Some false.
Proof.
  intros Htype Hfail. cbn zeta. unfold run, Instruct.generateText.
  destruct (typed_lookup _ _ _ Htype) as (m & Hl & Ht).
  rewrite Hl. cbn [present]. cbv iota. rewrite Hl. cbn [hasType]. rewrite Ht.
  change (String.eqb "xenova" "local") with false.
  change (String.eqb "xenova" "openai") with false.
  change (String.eqb "xenova" "xenova") with true.
  cbv iota.
  unfold generateWithXenova. rewrite Hl. cbn [present negb]. cbv iota.
  rewrite Hfail. eval_calls. cbn [app].
  apply instruct_fallback. graphic_ends.
Qed.

(** CloudChat (OpenAI): every failure of the request is thrown again. *)
Lemma openai_failure (prompt : JsVal) (messages : list Message) (options : Options)
    (error : Exn) (id : string) :
  id = "gpt-3.5-turbo" \/ id = "gpt-4o" ->
  openaiClient E = true ->
  (forall m msgs, openaiCreate E m msgs = Raised error) ->
  run (Instruct.generateText E prompt (Some id) options)
  = (Raised error, [CallRemote "openai" id])
  /\ run (Instruct.chat E messages (Some id) options)
     = (Raised error, [CallRemote "openai" id]).
Proof.
  intros Hid Hclient Hfail.
  destruct Hid as [-> | ->].
  - split.
    + unfold run, Instruct.generateText.
      decide_types (Instruct.catalog E) "gpt-3.5-turbo".
      unfold generateWithOpenAI. rewrite Hclient, Hfail. reflexivity.
    + unfold run, Instruct.chat.
      decide_types (Instruct.catalog E) "gpt-3.5-turbo".
      unfold chatWithOpenAI. rewrite Hclient, Hfail. reflexivity.
  - split.
    + unfold run, Instruct.generateText.
      decide_types (Instruct.catalog E) "gpt-4o".
      unfold generateWithOpenAI. rewrite Hclient, Hfail. reflexivity.
    + unfold run, Instruct.chat.
      decide_types (Instruct.catalog E) "gpt-4o".
      unfold chatWithOpenAI. rewrite Hclient, Hfail. reflexivity.
Qed.

(** The text request to the Hugging Face router reaches the error handler
    with the router's exception. *)
Lemma hf_text_reaches_handler (prompt : string) (options : Options) (error : Exn) :
  HUGGINGFACE_API_KEY E = true ->
  (forall m msgs, hfRouter E m msgs = Raised error) ->
  run (Instruct.generateText E (JStr prompt) (Some hfId) options)
  = Instruct.handleHuggingFaceTextError E error (JStr prompt) hfId
      [CallRemote "huggingface" hfId].
Proof.
  intros Hkey Hfail. unfold run, Instruct.generateText, hfId.
  decide_types (Instruct.catalog E) "huggingface/meta-llama-3.1-8b-instruct".
  rewrite Hkey. cbn [negb andb]. cbv iota.
  unfold Instruct.generateWithHuggingFace.
  decide_types (Instruct.catalog E) "huggingface/meta-llama-3.1-8b-instruct".
  unfold Instruct.requestHuggingFaceChat.
  decide_types (Instruct.catalog E) "huggingface/meta-llama-3.1-8b-instruct".
  cbn [filter stringContent content userMessage defaultPrompt].
  rewrite Hfail. reflexivity.
Qed.

Lemma hf_chat_reaches_handler (messages : list Message) (options : Options)
    (error : Exn) :
  HUGGINGFACE_API_KEY E = true ->
  (forall m msgs, hfRouter E m msgs = Raised error) ->
  sendable messages <> [] ->
  run (Instruct.chat E messages (Some hfId) options)
  = Instruct.handleHuggingFaceChatError E error messages hfId
      [CallRemote "huggingface" hfId].
Proof.
  intros Hkey Hfail Hsend. unfold run, Instruct.chat, hfId.
  decide_types (Instruct.catalog E) "huggingface/meta-llama-3.1-8b-instruct".
  rewrite Hkey. cbn [negb andb]. cbv iota.
  unfold Instruct.chatWithHuggingFace.
  decide_types (Instruct.catalog E) "huggingface/meta-llama-3.1-8b-instruct".
  unfold Instruct.requestHuggingFaceChat.
  decide_types (Instruct.catalog E) "huggingface/meta-llama-3.1-8b-instruct".
  unfold sendable in *.
  destruct (filter _ messages) as [|m ms]; [contradiction|].
  rewrite Hfail. reflexivity.
Qed.

Lemma auth_status_cases (error : Exn) (resp : Response) :
  response error = Some resp -> Instruct.isAuthStatus (status resp) = true ->
  hasStatus error 503 = false /\ hasStatus error 429 = false
  /\ (hasStatus error 401 || hasStatus error 403) = true.
Proof.
  intros Hresp Hauth. unfold hasStatus. rewrite Hresp.
  unfold Instruct.isAuthStatus in Hauth.
  apply orb_true_iff in Hauth as [Hs|Hs]; apply Z.eqb_eq in Hs; rewrite Hs;
    repeat split; reflexivity.
Qed.

(** The handlers on an authentication failure: the failure text, the
    requested model, and no further call. *)
Lemma hf_text_auth (error : Exn) (resp : Response) (prompt : JsVal) (id : string)
    (u : Trace) :
  response error = Some resp -> Instruct.isAuthStatus (status resp) = true ->
  exists r,
    Instruct.handleHuggingFaceTextError E error prompt id u = (Returned r, u)
    /\ prefix "Authentication failed for the Hugging Face router" (text r) = true
    /\ model r = id
    /\ loading r = Some false.
Proof.
  intros Hresp Hauth. unfold Instruct.handleHuggingFaceTextError. rewrite Hresp.
  unfold Instruct.isAuthStatus in *.
  assert (H503 : (status resp =? 503) = false).
  { apply orb_true_iff in Hauth as [Hs|Hs]; apply Z.eqb_eq in Hs; now rewrite Hs. }
  assert (H429 : (status resp =? 429) = false).
  { apply orb_true_iff in Hauth as [Hs|Hs]; apply Z.eqb_eq in Hs; now rewrite Hs. }
  rewrite H503, H429, Hauth.
  eexists. split; [reflexivity|]. cbn [text model loading].
  split; [|split; reflexivity].
  destruct (orOpt (dataErrorMessage resp) (orOpt (dataMessage resp) (dataDetail resp)));
    reflexivity.
Qed.

Lemma hf_chat_auth (error : Exn) (resp : Response) (messages : list Message)
    (id : string) (u : Trace) :
  response error = Some resp -> Instruct.isAuthStatus (status resp) = true ->
  exists c reply,
    Instruct.handleHuggingFaceChatError E error messages id u = (Returned c, u)
    /\ c_message c = Some reply
    /\ prefix "Authentication failed for the Hugging Face router" reply = true
    /\ c_model c = Some id
    /\ c_loading c = Some false.
Proof.
  intros Hresp Hauth. unfold Instruct.handleHuggingFaceChatError.
  destruct (auth_status_cases error Hresp Hauth) as (-> & -> & ->).
  eexists. eexists. split; [reflexivity|]. cbn [c_message c_model c_loading].
  split; [reflexivity|]. split; [|split; reflexivity].
  destruct (nonEmpty _); reflexivity.
Qed.

(** The text handler on any other failure than 503, 429, 401 and 403: one
    fallback call on the original prompt, with a notice. *)
Lemma hf_text_other (error : Exn) (prompt : string) (id : string) (u : Trace) :
  hasStatus error 503 = false -> hasStatus error 429 = false ->
  hasStatus error 401 = false -> hasStatus error 403 = false ->
  exists r notice head response,
    Instruct.handleHuggingFaceTextError E error (JStr prompt) id u
    = (Returned r,
       (u ++ [CallLocalModel (JStr prompt) "local/instruct";
              CallBuiltinGenerator (JStr prompt)])%list)
    /\ text r = notice ++ nl ++ nl ++ response
    /\ notice = head ++ "Using the built-in assistant instead."
    /\ model r = "local/instruct"
    /\ loading r = Some false.
Proof.
  intros H503 H429 H401 H403.
  assert (Hgo : forall notice head,
             notice = head ++ "Using the built-in assistant instead." ->
             graphicEnds notice = true ->
             exists r notice' head' response,
               Instruct.generateWithLocalModel E (JStr prompt) Instruct.defaultModel
                 (withNotice notice) u
               = (Returned r,
                  (u ++ [CallLocalModel (JStr prompt) "local/instruct";
                         CallBuiltinGenerator (JStr prompt)])%list)
               /\ text r = notice' ++ nl ++ nl ++ response
               /\ notice' = head' ++ "Using the built-in assistant instead."
               /\ model r = "local/instruct"
               /\ loading r = Some false).
  { intros notice head Hhead Hg.
    destruct (instruct_fallback prompt notice u Hg) as (r & response & Heq & Ht & Hm & Hl).
    exists r, notice, head, response. auto. }
  assert (Hgeneric : forall statusLabel detail,
             exists notice head,
               (if nonEmpty detail
                then "Remote generation failed" ++ statusLabel ++ ": " ++ detail
                     ++ ". Using the built-in assistant instead."
                else "Remote generation failed. Using the built-in assistant instead.")
               = notice
               /\ notice = head ++ "Using the built-in assistant instead."
               /\ graphicEnds notice = true).
  { intros statusLabel detail. destruct (nonEmpty detail).
    - eexists. exists ("Remote generation failed" ++ statusLabel ++ ": " ++ detail ++ ". ").
      split; [reflexivity|]. split; [|graphic_ends].
      rewrite !NoticeFacts.append_assoc. reflexivity.
    - eexists. exists "Remote generation failed. ".
      split; [reflexivity|]. split; reflexivity. }
  unfold Instruct.handleHuggingFaceTextError.
  destruct (response error) as [resp|] eqn:Hresp.
  - unfold hasStatus in *. rewrite Hresp in *.
    unfold Instruct.isAuthStatus. rewrite H503, H429, H401, H403.
    cbn [orb]. cbv iota.
    destruct (status resp =? 410).
    + eapply Hgo; [|reflexivity].
      instantiate (1 := "The selected Hugging Face model endpoint returned 410 (gone). ").
      reflexivity.
    + destruct (if status resp =? 400
                then orOpt (dataErrorMessage resp)
                       (orOpt (dataMessage resp) (dataDetail resp))
                else None) as [errorMessage|].
      * eapply Hgo with (head := "Hugging Face router rejected the request: "
                                 ++ errorMessage ++ ". "); [|graphic_ends].
        rewrite !NoticeFacts.append_assoc. reflexivity.
      * match goal with
        | |- context [withNotice ?n] =>
            match n with
            | (if nonEmpty ?detail then (_ ++ ?label ++ _) else _) =>
                destruct (Hgeneric label detail) as (notice & head & Hn & Hh & Hg)
            end
        end.
        rewrite Hn. eapply Hgo; eassumption.
  - destruct (Hgeneric "" (orStr None (message error))) as (notice & head & Hn & Hh & Hg).
    rewrite Hn. eapply Hgo; eassumption.
Qed.

End InstructPaths.





End DispatchFacts.


(** ** Unknown model ids *)

Module UnknownModel.
Import LocalModelFacts.

Lemma unknown_lookup (catalog : Obj Model) (id : string) :
  objGet id catalog = None ->
  lookup catalog id = Inherited \/ lookup catalog id = Missing.
Proof.
  intros Hnone. unfold lookup. rewrite Hnone.
  destruct (existsb (String.eqb id) objectPrototypeKeys); auto.
Qed.

Section Paths.
Context `{StringImpl} (E : Env).

(** [generateText] of the [local/instruct] variant on an id that is not a
    catalog key: the built-in assistant answers, once. *)
Lemma instruct_generateText_unknown (modelId prompt : string) (options : Options) :
  objGet modelId (Instruct.catalog E) = None ->
  exists r options',
    run (Instruct.generateText E (JStr prompt) (Some modelId) options)
    = (Returned r,
       [CallLocalModel (JStr prompt) "local/instruct"; CallBuiltinGenerator (JStr prompt)])
    /\ model r = "local/instruct"
    /\ modelInfo r = lookup (Instruct.catalog E) "local/instruct"
    /\ (exists response,
          text r = composeContent response
                     (inline (Instruct.prepareNotices (modelInfo r) options'))).
Proof.
  intros Hnone. unfold run, Instruct.generateText.
  destruct (unknown_lookup _ _ Hnone) as [Hl|Hl]; rewrite Hl; cbn [present]; cbv iota.
  - rewrite Hl. cbn [hasType andb]. cbv iota.
    destruct (instruct_local_string E prompt Instruct.defaultModel
                (withNotice "Requested model type is not supported. Using the built-in assistant instead.")
                []) as (response & Heq).
    cbn zeta in Heq. rewrite Heq. cbn [app].
    eexists. eexists. split; [reflexivity|]. cbn [model modelInfo text].
    split; [reflexivity|]. split; [reflexivity|]. exists response. reflexivity.
  - DispatchFacts.decide_types (Instruct.catalog E) Instruct.defaultModel.
    destruct (instruct_local_string E prompt Instruct.defaultModel
                {| opt_notice := opt_notice options; inlineModelNotice := None |} [])
      as (response & Heq).
    cbn zeta in Heq. rewrite Heq. cbn [app].
    eexists. eexists. split; [reflexivity|]. cbn [model modelInfo text].
    split; [reflexivity|]. split; [reflexivity|]. exists response. reflexivity.
Qed.

Lemma aakarsh_generateText_inherited (modelId prompt : string) (options : Options)
    (t : Trace) :
  lookup (Aakarsh.catalog E) modelId = Inherited ->
  exists r d,
    Aakarsh.generateText E (JStr prompt) (Some modelId) options t
    = (Returned r, (t ++ d)%list)
    /\ model r = "local/aakarsh".
Proof.
  intros Hl. unfold Aakarsh.generateText. rewrite Hl. cbn [present]. cbv iota.
  rewrite Hl. cbn [hasType]. cbv iota.
  destruct (aakarsh_local_string E prompt Aakarsh.defaultModel
              (withNotice "Requested model type is not supported. Using the built-in assistant instead.")
              t) as (body & d & Heq & _).
  cbn zeta in Heq. rewrite Heq. eexists. eexists. split; reflexivity.
Qed.

(** The rule-based chat reply of the [local/aakarsh] variant: it always
    returns, and names the local model that answered. *)
Lemma aakarsh_localChat (messages : list Message) (mid : string) (options : Options)
    (t : Trace) :
  exists r d,
    Aakarsh.generateLocalChatResponse E messages mid options t
    = (Returned (Direct r), (t ++ d)%list)
    /\ model r = (if isLocal (Aakarsh.catalog E) mid then mid else Aakarsh.defaultModel).
Proof.
  unfold Aakarsh.generateLocalChatResponse, Adapters.generateLocalChatResponse.
  set (fb := if isLocal (Aakarsh.catalog E) mid then mid else Aakarsh.defaultModel).
  assert (Hfb : (if isLocal (Aakarsh.catalog E) fb then fb else Aakarsh.defaultModel) = fb).
  { subst fb. destruct (isLocal (Aakarsh.catalog E) mid) eqn:Hloc.
    - now rewrite Hloc.
    - reflexivity. }
  assert (Hempty : exists r d,
             bind (Aakarsh.generateWithLocalModel E (JStr "") fb options)
                  (fun r => ret (Direct r)) (t ++ [CallLocalChat mid])%list
             = (Returned (Direct r), (t ++ d)%list) /\ model r = fb).
  { destruct (aakarsh_local_string E "" fb options (t ++ [CallLocalChat mid])%list)
      as (body & d & Heq & _).
    cbn zeta in Heq. unfold bind. rewrite Heq. unfold ret.
    eexists. exists (CallLocalChat mid :: CallLocalModel (JStr "") fb :: d).
    split.
    - rewrite <- app_assoc. reflexivity.
    - exact Hfb. }
  cbv beta iota zeta delta [bind emit] in *.
  destruct (match lastIndexWhere _ _ _ with Some i => _ | None => None end)
    as [[m0 lastContent]|]; [|exact Hempty].
  destruct (nonEmpty (trim lastContent)); [|exact Hempty].
  eexists. exists [CallLocalChat mid]. split; reflexivity.
Qed.

Lemma aakarsh_chat_unknown (modelId : string) (messages : list Message)
    (options : Options) :
  objGet modelId (Aakarsh.catalog E) = None ->
  exists c d,
    run (Aakarsh.chat E messages (Some modelId) options) = (Returned c, d)
    /\ c_model c = Some "local/aakarsh".
Proof.
  intros Hnone. unfold run, Aakarsh.chat.
  destruct (unknown_lookup _ _ Hnone) as [Hl|Hl]; rewrite Hl; cbn [present]; cbv iota.
  - rewrite Hl. cbn [hasType]. cbv iota.
    destruct (aakarsh_generateText_inherited modelId
                (formatMessagesAsPrompt messages modelId) options [] Hl)
      as (r & d & Heq & Hm).
    unfold bind. rewrite Heq. unfold ret.
    eexists. eexists. split; [reflexivity|]. cbn [chatResultOf c_model]. now rewrite Hm.
  - DispatchFacts.decide_types (Aakarsh.catalog E) Aakarsh.defaultModel.
    destruct (aakarsh_localChat messages Aakarsh.defaultModel options [])
      as (r & d & Heq & Hm).
    unfold bind. rewrite Heq. unfold ret.
    eexists. eexists. split; [reflexivity|].
    cbn [chatResultOfHeld chatResultOf c_model]. rewrite Hm. reflexivity.
Qed.

Lemma aakarsh_stream_missing (modelId : string) (input : StreamInput)
    (options : Options) (t : Trace) :
  lookup (Aakarsh.catalog E) modelId = Missing ->
  Aakarsh.generateStream E input (Some modelId) options t
  = ({| yielded := ["Model not found"]; failure := None |}, t).
Proof.
  intros Hl. unfold Aakarsh.generateStream, Adapters.generateStream.
  rewrite Hl. reflexivity.
Qed.

End Paths.

(** C1 (as stated, refuted).  [generateStream] does not resolve an unknown
    id to the default model: it yields the single chunk "Model not found"
    and enters no adapter, whereas [generateText] answers the same request
    from the default model. *)
Lemma generateStream_unknown_model_not_resolved :
  let E := Doubles.offlineEnv in
  let streamed := Aakarsh.generateStream E (InPrompt (JStr "hello"))
                    (Some "nonexistent/model") noOptions [] in
  objGet "nonexistent/model" (Aakarsh.catalog E) = None
  /\ fst streamed = {| yielded := ["Model not found"]; failure := None |}
  /\ snd streamed = []
  /\ exists r,
       run (Aakarsh.generateText E (JStr "hello") (Some "nonexistent/model") noOptions)
       = (Returned r,
          [CallLocalModel (JStr "hello") "local/aakarsh"; CallNeuralHead "local/aakarsh"])
       /\ model r = "local/aakarsh"
       /\ yielded (fst streamed) <> Relay.simulateStream (text r).
Proof.
  cbn zeta. split; [reflexivity|]. split; [reflexivity|]. split; [reflexivity|].
  eexists. split; [vm_compute; reflexivity|]. split; [reflexivity|].
  vm_compute. discriminate.
Qed.

End UnknownModel.

(* ===================================================================== *)
(** * Part II, continued.  Further properties                             *)
(* ===================================================================== *)

(** ** Facts on strings used below *)

Module StringFacts.

Lemma includes_app_r (needle a b : string) :
  includes needle b = true -> includes needle (a ++ b) = true.
Proof.
  intros Hb. induction a as [|c a IH]; [exact Hb|].
  cbn [append includes]. rewrite IH. apply orb_true_r.
Qed.

Lemma prefix_app_l (needle s b : string) :
  prefix needle s = true -> prefix needle (s ++ b) = true.
Proof.
  revert s. induction needle as [|y needle IH]; intros s;
    [intros _; destruct (s ++ b); reflexivity|].
  destruct s as [|x s]; cbn [prefix append]; [discriminate|].
  destruct (Ascii.ascii_dec y x); [apply IH|discriminate].
Qed.

Lemma includes_app_l (needle a b : string) :
  includes needle a = true -> includes needle (a ++ b) = true.
Proof.
  induction a as [|c a IH].
  - destruct needle; cbn; [destruct b; reflexivity|discriminate].
  - cbn [append includes]. intros Hor. apply orb_true_iff in Hor as [Hp|Hi].
    + apply orb_true_iff. left.
      exact (prefix_app_l needle (String c a) b Hp).
    + apply orb_true_iff. right. now apply IH.
Qed.

Lemma includes_inside (needle before part after : string) :
  includes needle part = true ->
  includes needle (before ++ part ++ after) = true.
Proof. intros Hp. apply includes_app_r. now apply includes_app_l. Qed.

Lemma includes_self (needle : string) : includes needle needle = true.
Proof.
  rewrite <- (InjectionFacts.includes_prefix needle "").
  f_equal. induction needle as [|c n IH]; cbn; [reflexivity|now rewrite <- IH].
Qed.

Lemma substring_length (s : string) (n m : nat) :
  String.length (substring n m s) = Nat.min m (String.length s - n).
Proof.
  revert n m; induction s as [|c s IH]; intros n m.
  - rewrite RelayFacts.substring_nil. cbn. now rewrite Nat.min_0_r.
  - destruct n as [|n]; cbn [substring String.length Nat.sub].
    + destruct m as [|m]; [reflexivity|].
      cbn [String.length Nat.min]. rewrite IH, Nat.sub_0_r. reflexivity.
    + apply IH.
Qed.

Lemma nonEmpty_length (s : string) :
  nonEmpty s = true <-> (0 < String.length s)%nat.
Proof. destruct s; cbn; split; intros; try discriminate; try lia; reflexivity. Qed.

End StringFacts.

(** ** Intent classification: confidence, growth, listing, batches *)

Module IntentMore.
Import Intent IntentFacts IntentListing StringFacts.

(** What [detectIntent] returns and logs, in terms of the selected entry. *)
Lemma detectIntent_shape `{StringImpl} (log : Log) (userInput : string) :
  exists k m c,
    pickHighest (computeScores new_IntentDetector (toLowerCase userInput)) = (k, m)
    /\ objGet k INTENT_CATEGORIES = Some c
    /\ detectIntent new_IntentDetector log userInput
       = (Returned {| intent := k;
                      d_name := name c;
                      d_description := description c;
                      d_route := route c;
                      d_ragType := ragType c;
                      confidence := confidenceOf m;
                      scores := computeScores new_IntentDetector (toLowerCase userInput) |},
          (log ++ [ {| log_input := substring 0 100 userInput;
                       log_detectedIntent := k;
                       log_score := m;
                       log_route := route c |} ])%list).
Proof.
  unfold detectIntent.
  set (sc := computeScores new_IntentDetector (toLowerCase userInput)).
  destruct (pickHighest_first_max (toLowerCase userInput))
    as (before & after & Hl & _). fold sc in Hl.
  destruct (pickHighest sc) as [k m] eqn:Hp.
  assert (Hin : In k (objKeys (intents new_IntentDetector))).
  { assert (Hk : In k (objKeys sc)).
    { rewrite Hl. unfold objKeys. rewrite map_app. apply in_or_app.
      right. now left. }
    unfold sc in Hk. rewrite computeScores_table in Hk.
    unfold objKeys in *. rewrite map_map in Hk. exact Hk. }
  destruct (objGet_In_keys _ _ Hin) as [c Hc].
  exists k, m, c. split; [reflexivity|]. split; [exact Hc|].
  rewrite Hc. reflexivity.
Qed.

Lemma objGet_first {V} (before after : Obj V) (k : string) (v : V) :
  ~ In k (objKeys before) ->
  objGet k (before ++ (k, v) :: after)%list = Some v.
Proof.
  induction before as [|[k' v'] before IH]; simpl; intros Hnin.
  - now rewrite String.eqb_refl.
  - destruct (String.eqb_spec k' k) as [->|Hne].
    + exfalso. apply Hnin. now left.
    + apply IH. intros Hin. apply Hnin. now right.
Qed.

Lemma scores_keys (input : string) :
  objKeys (computeScores new_IntentDetector input) = objKeys INTENT_CATEGORIES.
Proof.
  rewrite computeScores_table. unfold objKeys. rewrite map_map. reflexivity.
Qed.

Lemma confidenceOf_range (m : Z) :
  (1 # 10 <= confidenceOf m)%Q /\ (confidenceOf m <= 1)%Q.
Proof.
  unfold confidenceOf. destruct (Z.gtb_spec m 0) as [Hpos|Hle].
  - split.
    + apply Q.min_glb.
      * unfold Qle, Qdiv, Qmult, Qinv, inject_Z; cbn. lia.
      * unfold Qle; cbn. lia.
    + apply Q.le_min_r.
  - split; unfold Qle; cbn; lia.
Qed.

(** X1.  The confidence reported by [detectIntent] is computed from the score
    of the detected category itself: one half when that score is zero (no
    keyword of any category occurs), otherwise a tenth of the score capped at
    one. It therefore always lies between 0.1 and 1. *)
Theorem detectIntent_confidence `{StringImpl} (log : Log) (userInput : string) :
  exists d top,
    fst (detectIntent new_IntentDetector log userInput) = Returned d
    /\ objGet (intent d) (scores d) = Some top
    /\ 0 <= top
    /\ confidence d
       = (if top >? 0 then Qmin (inject_Z top / 10) 1 else 1 # 2)%Q
    /\ (1 # 10 <= confidence d)%Q /\ (confidence d <= 1)%Q.
Proof.
  destruct (detectIntent_returns log userInput) as (d & Hd & Hsc & Hpick & Hc).
  destruct (pickHighest_first_max (toLowerCase userInput))
    as (before & after & Hl & Hb & Ha).
  rewrite <- Hsc in Hl, Hb, Ha. rewrite <- Hpick in Hl. cbn [snd] in Hb.
  set (top := snd (pickHighest (scores d))) in *.
  exists d, top. split; [exact Hd|].
  assert (Hnd : NoDup (objKeys (scores d))).
  { rewrite Hsc, scores_keys. exact keys_NoDup. }
  assert (Hnin : ~ In (intent d) (objKeys before)).
  { rewrite Hl in Hnd. unfold objKeys in *. rewrite map_app in Hnd.
    cbn [map fst] in Hnd. apply NoDup_remove_2 in Hnd.
    intros Hin. apply Hnd. apply in_or_app. now left. }
  split; [rewrite Hl; now apply objGet_first|].
  split.
  { pose proof (scores_nonneg (toLowerCase userInput)) as Hnn.
    rewrite <- Hsc in Hnn. rewrite Forall_forall in Hnn.
    apply (Hnn (intent d, top)). rewrite Hl. apply in_or_app. right. now left. }
  split; [exact Hc|].
  rewrite Hc. apply confidenceOf_range.
Qed.

Lemma matchedPrioritySum_grows (part whole : string) (c : IntentCategory) :
  0 <= priority c ->
  (forall kw, includes kw part = true -> includes kw whole = true) ->
  matchedPrioritySum part c <= matchedPrioritySum whole c.
Proof.
  intros Hp Hinc. unfold matchedPrioritySum.
  induction (keywords c) as [|kw kws IH]; cbn [map fold_right]; [lia|].
  specialize (Hinc kw).
  destruct (includes kw part); [rewrite Hinc by reflexivity; lia|].
  destruct (includes kw whole); lia.
Qed.

(** X2.  Text added around a query never lowers a score: when the lower-cased
    longer input contains the lower-cased query, every category scores at
    least as much on the longer input as on the query alone. *)
Theorem detectIntent_scores_grow `{StringImpl} (log log' : Log)
    (part whole before after : string) :
  toLowerCase whole = before ++ toLowerCase part ++ after ->
  exists d d',
    fst (detectIntent new_IntentDetector log part) = Returned d
    /\ fst (detectIntent new_IntentDetector log' whole) = Returned d'
    /\ Forall2 (fun e e' => fst e = fst e' /\ snd e <= snd e') (scores d) (scores d').
Proof.
  intros Hwhole.
  destruct (detectIntent_returns log part) as (d & Hd & Hsc & _).
  destruct (detectIntent_returns log' whole) as (d' & Hd' & Hsc' & _).
  exists d, d'. split; [exact Hd|]. split; [exact Hd'|].
  rewrite Hsc, Hsc', !computeScores_table, Hwhole.
  pose proof priorities_nonneg as Hprio.
  induction Hprio as [|e l He _ IH]; cbn [map]; constructor; auto.
  cbn [fst snd]. split; [reflexivity|].
  apply matchedPrioritySum_grows; [exact He|].
  intros kw. apply includes_inside.
Qed.

Lemma detectIntent_scores_grow_witness :
  exists d d',
    fst (detectIntent new_IntentDetector [] "docker") = Returned d
    /\ fst (detectIntent new_IntentDetector [] "Deploy the Docker image") = Returned d'
    /\ Forall2 (fun e e' => fst e = fst e' /\ snd e <= snd e') (scores d) (scores d').
Proof.
  apply (@detectIntent_scores_grow AsciiStrings [] [] "docker"
           "Deploy the Docker image" "deploy the " " image").
  reflexivity.
Defined.

Lemma listing_of_lookup (k : string) (c : IntentCategory) (entries : Obj IntentCategory) :
  objGet k entries = Some c ->
  In {| id := k; i_name := name c; i_description := description c;
        i_route := route c; i_ragType := ragType c |}
     (map (fun entry =>
             {| id := fst entry;
                i_name := name (snd entry);
                i_description := description (snd entry);
                i_route := route (snd entry);
                i_ragType := ragType (snd entry) |}) entries).
Proof.
  induction entries as [|[k' c'] entries IH]; cbn [objGet map]; [discriminate|].
  destruct (String.eqb_spec k' k) as [->|Hne].
  - intros Heq. inversion Heq; subst. now left.
  - intros Hget. right. now apply IH.
Qed.

(** X3.  [getAvailableIntents] lists each category once, in declaration order,
    and whatever [detectIntent] answers is one of the listed categories: its
    intent, name, description, route and RAG type are those of a listing
    entry. *)
Theorem detectIntent_in_listing `{StringImpl} (log : Log) (userInput : string) :
  map id (getAvailableIntents new_IntentDetector) = objKeys INTENT_CATEGORIES
  /\ NoDup (map id (getAvailableIntents new_IntentDetector))
  /\ exists d,
       fst (detectIntent new_IntentDetector log userInput) = Returned d
       /\ In (infoOf d) (getAvailableIntents new_IntentDetector).
Proof.
  assert (Hids : map id (getAvailableIntents new_IntentDetector)
                 = objKeys INTENT_CATEGORIES).
  { unfold getAvailableIntents, objKeys. rewrite map_map. reflexivity. }
  split; [exact Hids|]. split; [rewrite Hids; exact keys_NoDup|].
  destruct (detectIntent_shape log userInput) as (k & m & c & _ & Hget & ->).
  eexists. split; [reflexivity|].
  unfold infoOf. cbn [intent d_name d_description d_route d_ragType].
  unfold getAvailableIntents. apply listing_of_lookup. exact Hget.
Qed.

End IntentMore.

(** ** Notices: no blank notice, composition *)

Module NoticeMore.

Lemma normalizeNotices_nonblank `{StringImpl} (value : JsVal) :
  Forall (fun n => nonEmpty n = true) (normalizeNotices value).
Proof.
  unfold normalizeNotices. destruct (negb (truthy value)); [constructor|].
  destruct value as [| |b|n|s|items|];
    try (match goal with
         | |- context [if nonEmpty ?x then _ else _] =>
             destruct (nonEmpty x) eqn:Hne; [constructor; [exact Hne|constructor]|constructor]
         end).
  apply Forall_forall. intros n Hin. apply filter_In in Hin. tauto.
Qed.

(** X4.  No notice is ever blank: whatever the option bag and the catalog
    entry hold (strings, arrays, numbers, nothing), every notice that
    [normalizeNotices] keeps and [prepareNotices] hands out, inline or extra,
    is a non-empty string. *)
Theorem notices_never_blank `{StringImpl} (inlineDefault : bool) (model : Lookup)
    (options : Options) (value : JsVal) :
  Forall (fun n => nonEmpty n = true) (normalizeNotices value)
  /\ Forall (fun n => nonEmpty n = true)
            (inline (prepareNoticesWith inlineDefault model options))
  /\ Forall (fun n => nonEmpty n = true)
            (extra (prepareNoticesWith inlineDefault model options))
  /\ Forall (fun n => nonEmpty n = true) (inline (Aakarsh.prepareNotices model options))
  /\ Forall (fun n => nonEmpty n = true) (inline (Instruct.prepareNotices model options)).
Proof.
  assert (Hin : forall d,
             Forall (fun n => nonEmpty n = true)
                    (inline (prepareNoticesWith d model options))).
  { intros d. unfold prepareNoticesWith. cbn [inline].
    pose proof (normalizeNotices_nonblank (opt_notice options)) as Ho.
    pose proof (normalizeNotices_nonblank (noticeOf model)) as Hm.
    destruct (normalizeNotices (noticeOf model)) as [|n ns]; [exact Ho|].
    destruct (match inlineModelNotice options with Some b => b | None => d end);
      [|exact Ho].
    apply Forall_app. split; assumption. }
  split; [apply normalizeNotices_nonblank|].
  split; [apply Hin|].
  split; [apply normalizeNotices_nonblank|].
  split; apply Hin.
Qed.

Lemma composeContent_suffix (content : string) (notices : list string) :
  exists front, composeContent content notices = front ++ content.
Proof.
  rewrite NoticeFacts.composeContent_fold.
  induction notices as [|n ns [front IH]]; cbn [fold_right].
  - now exists "".
  - exists (n ++ nl ++ nl ++ front). rewrite IH.
    now rewrite !NoticeFacts.append_assoc.
Qed.

(** X5.  Prefixing notices in two steps is prefixing them all at once, and the
    content always survives unchanged at the end of the composed text. *)
Theorem composeContent_composes (content : string) (earlier later : list string) :
  composeContent (composeContent content later) earlier
  = composeContent content (earlier ++ later)
  /\ exists front, composeContent content earlier = front ++ content.
Proof.
  split.
  - rewrite !NoticeFacts.composeContent_fold. now rewrite fold_right_app.
  - apply composeContent_suffix.
Qed.

End NoticeMore.

(** ** The topic line of the chat reply *)

Module TopicFacts.
Import StringFacts.

Lemma join_includes (sep item : string) (items : list string) :
  In item items -> includes item (join sep items) = true.
Proof.
  unfold join. induction items as [|x xs IH]; [contradiction|].
  intros [->|Hin].
  - destruct xs as [|y ys]; cbn [String.concat].
    + apply includes_self.
    + apply InjectionFacts.includes_prefix.
  - destruct xs as [|y ys]; [contradiction|].
    change (String.concat sep (x :: y :: ys))
      with (x ++ sep ++ String.concat sep (y :: ys)).
    apply includes_app_r, includes_app_r. now apply IH.
Qed.

Lemma removelast_last_cases {A} (l : list A) (d x : A) :
  In x l -> In x (removelast l) \/ x = last l d.
Proof.
  induction l as [|a l IH]; [contradiction|].
  destruct l as [|b l]; intros [->|Hin].
  - now right.
  - contradiction.
  - left. now left.
  - destruct (IH Hin) as [Hr|Hl].
    + left. now right.
    + right. exact Hl.
Qed.

(** X6.  Every topic handed to [formatTopicList] shows up, between double
    quotes, in the phrase it builds, whatever the number of topics. *)
Theorem formatTopicList_quotes_all (topics : list string) (topic : string) :
  In topic topics ->
  includes (dq ++ topic ++ dq) (formatTopicList topics) = true.
Proof.
  intros Hin. unfold formatTopicList.
  destruct topics as [|t0 [|t1 [|t2 rest]]]; [contradiction| | |].
  - destruct Hin as [->|[]]. apply includes_self.
  - destruct Hin as [->|[->|[]]].
    + assert (Hre : forall rest, dq ++ topic ++ dq ++ rest = (dq ++ topic ++ dq) ++ rest)
        by (intros; now rewrite !NoticeFacts.append_assoc).
      rewrite Hre. apply InjectionFacts.includes_prefix.
    + apply includes_app_r, includes_app_r, includes_app_r, includes_app_r.
      apply includes_self.
  - set (all := t0 :: t1 :: t2 :: rest) in *.
    destruct (removelast_last_cases all "" topic Hin) as [Hr | ->].
    + apply includes_app_l. apply join_includes.
      apply in_map_iff. exists topic. split; [reflexivity|exact Hr].
    + apply includes_app_r, includes_app_r. apply includes_self.
Qed.

Lemma formatTopicList_quotes_all_witness :
  includes (dq ++ "docker" ++ dq) (formatTopicList ["nginx"; "docker"; "tls"]) = true.
Proof.
  apply (formatTopicList_quotes_all ["nginx"; "docker"; "tls"] "docker").
  cbn. tauto.
Defined.

End TopicFacts.

(** ** Streaming: chunk sizes, what is yielded *)

Module StreamFacts.
Import Relay RelayFacts StringFacts.

Local Open Scope nat_scope.

Section Sizes.
Variable K : nat.
Hypothesis HK : 0 < K.

(** Every chunk is non-empty and at most [K] long; all but the last are
    exactly [K] long. *)
Lemma chunksFrom_sizes (text : string) :
  forall n i, String.length text - i = n ->
    Forall (fun c => 0 < String.length c <= K) (chunksFrom HK text i)
    /\ Forall (fun c => String.length c = K) (removelast (chunksFrom HK text i)).
Proof.
  induction n as [n IH] using lt_wf_ind. intros i Hn.
  destruct (lt_dec i (String.length text)) as [Hlt|Hge].
  - rewrite chunksFrom_step by exact Hlt.
    destruct (IH (String.length text - (i + K)) ltac:(lia) (i + K) eq_refl)
      as [Hall Hinit].
    assert (Hlen : String.length (slice text i (i + K))
                   = Nat.min K (String.length text - i)).
    { unfold slice. rewrite substring_length. f_equal. lia. }
    split.
    + constructor; [rewrite Hlen; lia | exact Hall].
    + destruct (lt_dec (i + K) (String.length text)) as [Hmore|Hlast].
      * rewrite chunksFrom_step in * by exact Hmore.
        cbn [removelast] in *. constructor; [rewrite Hlen; lia | exact Hinit].
      * rewrite chunksFrom_done by lia. constructor.
  - rewrite chunksFrom_done by lia. split; constructor.
Qed.
End Sizes.

(** X7.  The fallback branch of [generateStream] never emits an empty chunk
    and never one longer than ten characters; every chunk before the last one
    is exactly ten characters long. *)
Theorem simulateStream_chunk_sizes (text : string) :
  Forall (fun c => 0 < String.length c <= 10) (simulateStream text)
  /\ Forall (fun c => String.length c = 10) (removelast (simulateStream text)).
Proof.
  unfold simulateStream.
  exact (chunksFrom_sizes chunkSize_pos text 0 eq_refl).
Qed.

Lemma simulateStream_nonEmpty (text : string) :
  Forall (fun c => nonEmpty c = true) (simulateStream text).
Proof.
  eapply Forall_impl;
    [|exact (proj1 (chunksFrom_sizes chunkSize_pos text 0 eq_refl))].
  intros c Hc. cbv beta in Hc. apply nonEmpty_length. lia.
Qed.

Lemma simulateStream_concat (text : string) :
  String.concat "" (simulateStream text) = text.
Proof.
  unfold simulateStream.
  rewrite (chunksFrom_concat chunkSize_pos text (n := String.length text - 0))
    by reflexivity.
  rewrite Nat.sub_0_r. apply substring_whole.
Qed.

Lemma filter_nonEmpty (l : list string) :
  Forall (fun c => nonEmpty c = true) (filter nonEmpty l).
Proof. apply Forall_forall. intros c Hin. apply filter_In in Hin. tauto. Qed.

(** X8.  Whatever the backend, the model and the input, [generateStream] never
    yields a chunk with empty content: the OpenAI and Ollama branches drop
    empty deltas, the fallback branch cuts non-empty slices, and the guard for
    an unknown model yields a fixed sentence. *)
Theorem generateStream_never_yields_empty (E : Env) (catalog : Obj Model)
    (generateText : JsVal -> option string -> Options -> M GenResult)
    (input : StreamInput) (modelId : option string) (options : Options) (t : Trace) :
  Forall (fun c => nonEmpty c = true)
         (yielded (fst (Adapters.generateStream E catalog generateText
                          input modelId options t))).
Proof.
  unfold Adapters.generateStream.
  destruct (negb (present _)); [cbn; repeat constructor|].
  destruct (hasType _ "openai").
  - destruct (negb (openaiClient E)); [constructor|].
    destruct (openaiStream E _ _) as [deltas failed]. cbn. apply filter_nonEmpty.
  - destruct (hasType _ "ollama").
    + destruct (ollamaChat E _ _ _) as [contents failed]. cbn. apply filter_nonEmpty.
    + destruct (last _ None) as [lastMsg|]; [|constructor].
      destruct (generateText _ _ _ _) as [[result|e] t']; [|constructor].
      cbn. apply simulateStream_nonEmpty.
Qed.

End StreamFacts.

(** ** The built-in models behind the stream and the chat *)

Module LocalStream.
Import Relay RelayFacts StreamFacts.

Lemma last_snoc {A} (init : list A) (x : A) (d : option A) :
  last (map Some (init ++ [x])) d = Some x.
Proof. rewrite map_app. cbn [map]. apply last_last. Qed.

Lemma local_lookup (catalog : Obj Model) (modelId : string) :
  hasType (lookup catalog modelId) "local" = true ->
  present (lookup catalog modelId) = true
  /\ hasType (lookup catalog modelId) "openai" = false
  /\ hasType (lookup catalog modelId) "ollama" = false.
Proof.
  destruct (lookup catalog modelId) as [m| |]; cbn; try discriminate.
  intros Heq. apply String.eqb_eq in Heq. rewrite Heq. auto.
Qed.

(** X9.  Streaming from a built-in model relays the text [generateText] gives
    for the content of the last message only: the chunks yielded spell exactly
    that text, the generator ends without an exception, and the messages
    before the last one play no part. *)
Theorem local_stream_spells_text `{StringImpl} (E : Env) (modelId : string)
    (init : list Message) (m : Message) (s : string) (options : Options) :
  hasType (lookup (Aakarsh.catalog E) modelId) "local" = true ->
  content m = JStr s ->
  exists r d,
    run (Aakarsh.generateText E (JStr s) (Some modelId) options) = (Returned r, d)
    /\ Aakarsh.generateStream E (InMessages (init ++ [m])) (Some modelId) options []
       = ({| yielded := simulateStream (text r); failure := None |}, d)
    /\ String.concat "" (simulateStream (text r)) = text r.
Proof.
  intros Hlocal Hcontent.
  destruct (local_lookup _ _ Hlocal) as (Hpresent & Hopenai & Hollama).
  assert (Hgen : exists r d,
             Aakarsh.generateText E (JStr s) (Some modelId) options []
             = (Returned r, d)).
  { unfold Aakarsh.generateText. rewrite Hpresent. cbv iota. rewrite Hlocal.
    destruct (LocalModelFacts.aakarsh_local_string E s modelId
                {| opt_notice := opt_notice options; inlineModelNotice := None |} [])
      as (body & d & Heq & _).
    rewrite Heq. eauto. }
  destruct Hgen as (r & d & Hgen). exists r, d.
  split; [exact Hgen|]. split.
  - unfold Aakarsh.generateStream, Adapters.generateStream.
    fold (Aakarsh.catalog E).
    rewrite Hpresent. cbn [negb]. cbv iota. rewrite Hopenai, Hollama.
    rewrite last_snoc, Hcontent, Hgen. reflexivity.
  - apply simulateStream_concat.
Qed.

Lemma local_stream_spells_text_witness :
  exists r d,
    run (Aakarsh.generateText Doubles.offlineEnv (JStr "hello") (Some "local/aakarsh")
           noOptions) = (Returned r, d)
    /\ Aakarsh.generateStream Doubles.offlineEnv
         (InMessages ([userMessage (JStr "first")] ++ [userMessage (JStr "hello")]))
         (Some "local/aakarsh") noOptions []
       = ({| yielded := simulateStream (text r); failure := None |}, d)
    /\ String.concat "" (simulateStream (text r)) = text r.
Proof.
  apply (@local_stream_spells_text AsciiStrings Doubles.offlineEnv "local/aakarsh"
           [userMessage (JStr "first")] (userMessage (JStr "hello")) "hello" noOptions);
    reflexivity.
Defined.

End LocalStream.

(** ** The refusal of the built-in models *)

Module Refusal.
Import StringFacts.

Lemma find_first {A} (p : A -> bool) (l : list A) (x : A) :
  In x l -> p x = true ->
  exists y, find p l = Some y /\ In y l /\ p y = true.
Proof.
  intros Hin Hp. destruct (find p l) as [y|] eqn:Hfind.
  - exists y. apply find_some in Hfind. tauto.
  - exfalso. apply (find_none p l Hfind) in Hin. congruence.
Qed.

(** X10.  A text prompt in which a word of [LOCAL_SAFETY_RULES] occurs is
    refused by [generateText] on every built-in model: the call returns under
    the requested model without entering a neural head, and its text quotes
    the policy of a rule. *)
Theorem listed_word_is_refused `{StringImpl} (E : Env) (s word : string)
    (rule : list string * string) (modelId : string) (options : Options) :
  hasType (lookup (Aakarsh.catalog E) modelId) "local" = true ->
  s <> "" ->
  In rule Aakarsh.LOCAL_SAFETY_RULES -> In word (fst rule) ->
  testIgnoreCase word s = true ->
  exists r reason,
    run (Aakarsh.generateText E (JStr s) (Some modelId) options)
    = (Returned r, [CallLocalModel (JStr s) modelId])
    /\ model r = modelId
    /\ In reason (map snd Aakarsh.LOCAL_SAFETY_RULES)
    /\ includes ("it violates the " ++ reason ++ " policy") (text r) = true.
Proof.
  intros Hlocal Hne Hrule Hword Htest.
  destruct (LocalStream.local_lookup _ _ Hlocal) as (Hpresent & _).
  set (matches := fun r : list string * string =>
                    existsb (fun w => testIgnoreCase w s) (fst r)).
  destruct (find_first matches Aakarsh.LOCAL_SAFETY_RULES rule Hrule)
    as (hit & Hfind & Hin & _).
  { apply existsb_exists. exists word. auto. }
  assert (Hverdict : Aakarsh.runLocalSafetyChecks (JStr s)
                     = {| Aakarsh.blocked := true;
                          Aakarsh.reason := snd hit;
                          Aakarsh.refusal :=
                            "I can't help with that request because it violates the "
                            ++ snd hit
                            ++ " policy. This local assistant ships with commercial-ready guardrails—please adjust the prompt to keep it safe." |}).
  { unfold Aakarsh.runLocalSafetyChecks. destruct s as [|c s]; [congruence|].
    cbn [nonEmpty negb]. fold matches. now rewrite Hfind. }
  unfold run, Aakarsh.generateText. rewrite Hpresent. cbv iota. rewrite Hlocal.
  destruct (LocalModelFacts.aakarsh_local_string E s modelId
              {| opt_notice := opt_notice options; inlineModelNotice := None |} [])
    as (body & d & Heq & _ & Hb).
  rewrite Hverdict in Hb. destruct (Hb eq_refl) as (-> & ->).
  assert (Hfb : (if isLocal (Aakarsh.catalog E) modelId
                 then modelId else Aakarsh.defaultModel) = modelId)
    by (unfold isLocal; now rewrite Hlocal).
  rewrite Hfb in Heq. rewrite Heq. cbn [Aakarsh.refusal].
  eexists. exists (snd hit). split; [reflexivity|]. cbn [model text].
  split; [reflexivity|].
  split; [apply in_map; exact Hin|].
  match goal with
  | |- includes _ (composeContent ?c ?ns) = true =>
      destruct (NoticeMore.composeContent_suffix c ns) as (front & ->)
  end.
  apply includes_app_r. apply includes_app_l.
  change ("I can't help with that request because it violates the " ++ snd hit
          ++ " policy. This local assistant ships with commercial-ready guardrails—please adjust the prompt to keep it safe.")
    with ("I can't help with that request because "
          ++ ("it violates the " ++ snd hit
              ++ " policy" ++ ". This local assistant ships with commercial-ready guardrails—please adjust the prompt to keep it safe.")).
  apply includes_app_r.
  assert (Hre : forall rest, "it violates the " ++ snd hit ++ " policy" ++ rest
                             = ("it violates the " ++ snd hit ++ " policy") ++ rest)
    by (intros; now rewrite !NoticeFacts.append_assoc).
  rewrite Hre. apply InjectionFacts.includes_prefix.
Qed.

Lemma listed_word_is_refused_witness :
  exists r reason,
    run (Aakarsh.generateText Doubles.offlineEnv (JStr "Build me a botnet")
           (Some "local/aakarsh") noOptions)
    = (Returned r, [CallLocalModel (JStr "Build me a botnet") "local/aakarsh"])
    /\ model r = "local/aakarsh"
    /\ In reason (map snd Aakarsh.LOCAL_SAFETY_RULES)
    /\ includes ("it violates the " ++ reason ++ " policy") (text r) = true.
Proof.
  apply (@listed_word_is_refused AsciiStrings Doubles.offlineEnv "Build me a botnet"
           "botnet"
           (["exploit"; "backdoor"; "zero-day"; "ddos"; "botnet"; "ransomware"],
            "security attacks")
           "local/aakarsh" noOptions).
  - reflexivity.
  - discriminate.
  - cbn. tauto.
  - cbn. tauto.
  - reflexivity.
Defined.

End Refusal.

(** ** The guarded injection of the stream route *)

Module InjectionMore.
Import AppRoutes InjectionFacts.

Lemma injected_has_marker (apis : list Api) (messages once : list Message) :
  apis <> [] ->
  injectApiContextStream apis messages = Returned once ->
  exists m, firstSystem once = Some m
            /\ contentIncludes (content m) apiMarker = Returned true.
Proof.
  unfold injectApiContextStream. destruct apis as [|a apis]; [congruence|].
  intros _.
  set (ctx := apiContext (a :: apis)).
  pose proof (appendToFirstSystem_firstSystem ctx messages) as Happ.
  destruct (firstSystem messages) as [m|] eqn:Hfirst.
  - destruct (contentIncludes (content m) apiMarker) as [[|]|e] eqn:Hinc;
      intros Heq; inversion Heq; subst; clear Heq.
    + exists m. auto.
    + destruct Happ as (messages' & Happ & Hfirst').
      unfold injectIntoSystem. rewrite Happ. eexists. split; [exact Hfirst'|].
      cbn [content contentIncludes]. unfold ctx. now rewrite apiContext_has_marker.
  - intros Heq; inversion Heq; subst; clear Heq.
    exists (systemMessage ctx). split; [reflexivity|].
    unfold ctx.
    change (content (systemMessage (apiContext (a :: apis))))
      with (JStr ("You are a helpful AI assistant." ++ apiContext (a :: apis))).
    cbn [contentIncludes].
    now rewrite (apiContext_has_marker (a :: apis) "You are a helpful AI assistant.").
Qed.

(** X11.  Once the stream route has injected the API context, the first system
    message carries the marker sentence, and any later pass of the injection,
    whatever APIs are configured by then, leaves the message list as it is. *)
Theorem stream_injection_settles (apis later : list Api)
    (messages once : list Message) :
  apis <> [] ->
  injectApiContextStream apis messages = Returned once ->
  (exists m, firstSystem once = Some m
             /\ contentIncludes (content m) apiMarker = Returned true)
  /\ injectApiContextStream later once = Returned once.
Proof.
  intros Hne Hret.
  destruct (@injected_has_marker apis messages once Hne Hret) as (m & Hfirst & Hinc).
  split; [eauto|].
  unfold injectApiContextStream. destruct later; [reflexivity|].
  now rewrite Hfirst, Hinc.
Qed.

Lemma stream_injection_settles_witness :
  (exists m, firstSystem (systemMessage (apiContext [Doubles.weatherApi])
                            :: [userMessage (JStr "hi")]) = Some m
             /\ contentIncludes (content m) apiMarker = Returned true)
  /\ injectApiContextStream [Doubles.weatherApi]
       (systemMessage (apiContext [Doubles.weatherApi]) :: [userMessage (JStr "hi")])
     = Returned (systemMessage (apiContext [Doubles.weatherApi])
                   :: [userMessage (JStr "hi")]).
Proof.
  apply (@stream_injection_settles [Doubles.weatherApi] [Doubles.weatherApi]
           [userMessage (JStr "hi")]).
  - discriminate.
  - reflexivity.
Defined.

End InjectionMore.

(** ** What the built-in chat reads *)

Module LocalChatFacts.
Import ChatView.

Section LastUser.
Context {A : Type} (p : A -> bool).

Lemma last_some_cons (x : A) (l : list A) (y : A) :
  last (map Some l) None = Some y ->
  last (map Some (x :: l)) None = Some y /\ removelast (x :: l) = x :: removelast l.
Proof.
  destruct l as [|z l]; cbn [map last]; [discriminate|].
  intros Hlast. split; [exact Hlast | reflexivity].
Qed.

Lemma none_before (l : list A) (i bound : nat) :
  filter p l = [] ->
  filter (fun item => p (fst item) && Nat.ltb (snd item) bound) (indexed l i) = [].
Proof.
  revert i; induction l as [|x l IH]; intros i; [reflexivity|].
  cbn [filter indexed fst snd]. destruct (p x); [discriminate|].
  cbn [andb]. apply IH.
Qed.

(** [lastIndexWhere] finds the last element that satisfies [p]; the
    elements satisfying [p] before that position are all of them but the
    last. *)
Lemma lastIndexWhere_spec (l : list A) :
  forall i,
    match lastIndexWhere p l i with
    | Some j =>
        (i <= j)%nat
        /\ exists x,
             nth_error l (j - i) = Some x
             /\ last (map Some (filter p l)) None = Some x
             /\ map fst (filter (fun item => p (fst item) && Nat.ltb (snd item) j)
                                (indexed l i))
                = removelast (filter p l)
    | None => filter p l = []
    end.
Proof.
  induction l as [|x l IH]; intros i; [reflexivity|].
  cbn [lastIndexWhere]. specialize (IH (S i)).
  destruct (lastIndexWhere p l (S i)) as [j|].
  - destruct IH as (Hle & y & Hnth & Hlast & Hbefore).
    split; [lia|]. exists y.
    replace (j - i)%nat with (S (j - S i)) by lia.
    split; [exact Hnth|].
    cbn [filter indexed fst snd].
    destruct (p x) eqn:Hpx.
    + destruct (last_some_cons x _ Hlast) as (Hl & Hr).
      split; [exact Hl|]. rewrite Hr.
      replace (Nat.ltb i j) with true by (symmetry; apply Nat.ltb_lt; lia).
      cbn [andb map fst]. now rewrite Hbefore.
    + split; [exact Hlast|]. cbn [andb]. exact Hbefore.
  - cbn [filter]. destruct (p x) eqn:Hpx.
    + split; [lia|]. exists x. rewrite Nat.sub_diag, IH.
      split; [reflexivity|]. split; [reflexivity|].
      cbn [indexed filter fst snd]. rewrite Hpx, Nat.ltb_irrefl. cbn [andb].
      now rewrite none_before.
    + exact IH.
Qed.
End LastUser.

Lemma safeMessagesOf_mine (messages : list Message) :
  safeMessagesOf (filter mine messages)
  = filter (fun e => isUser (fst e)) (safeMessagesOf messages).
Proof.
  unfold safeMessagesOf, mine.
  induction messages as [|m ms IH]; [reflexivity|].
  cbn [filter flat_map]. destruct (stringContent m) as [s|] eqn:Hs.
  - cbn [app filter fst]. destruct (isUser m); cbn [andb].
    + cbn [flat_map]. rewrite Hs. cbn [app]. now rewrite IH.
    + exact IH.
  - rewrite andb_false_r. exact IH.
Qed.

Lemma filter_idem {A} (p : A -> bool) (l : list A) :
  filter p (filter p l) = filter p l.
Proof.
  induction l as [|x l IH]; [reflexivity|].
  cbn [filter]. destruct (p x) eqn:Hpx; [cbn [filter]; now rewrite Hpx, IH | exact IH].
Qed.

Lemma lastThree_map {A B} (f : A -> B) (l : list A) :
  lastThree (map f l) = map f (lastThree l).
Proof. unfold lastThree. now rewrite length_map, skipn_map. Qed.

Section Reply.
Context `{StringImpl}.
Variable catalog : Obj Model.
Variable defaultModel : string.
Variable prepareNotices : Lookup -> Options -> Prepared.
Variable generateWithLocalModel : JsVal -> string -> Options -> M GenResult.
Variable localModelIsAsync : bool.

Lemma reply_by_user_text (messages messages' : list Message) (modelId : string)
    (options : Options) (t : Trace) :
  filter (fun e => isUser (fst e)) (safeMessagesOf messages)
  = filter (fun e => isUser (fst e)) (safeMessagesOf messages') ->
  Adapters.generateLocalChatResponse catalog defaultModel prepareNotices
    generateWithLocalModel localModelIsAsync messages modelId options t
  = Adapters.generateLocalChatResponse catalog defaultModel prepareNotices
      generateWithLocalModel localModelIsAsync messages' modelId options t.
Proof.
  intros Hsame. unfold Adapters.generateLocalChatResponse.
  unfold bind, emit. 
  generalize dependent (safeMessagesOf messages').
  generalize (safeMessagesOf messages). intros S S' Hsame.
  pose proof (lastIndexWhere_spec (fun e : Message * string => isUser (fst e)) S 0) as HS.
  pose proof (lastIndexWhere_spec (fun e : Message * string => isUser (fst e)) S' 0) as HS'.
  destruct (lastIndexWhere _ S 0) as [j|]; destruct (lastIndexWhere _ S' 0) as [j'|].
  - destruct HS as (_ & x & Hnth & Hlast & Hbefore).
    destruct HS' as (_ & x' & Hnth' & Hlast' & Hbefore').
    rewrite Nat.sub_0_r in Hnth, Hnth'. rewrite Hnth, Hnth'.
    rewrite Hsame, Hlast' in Hlast. inversion Hlast; subst x'.
    destruct x as [m lastContent].
    rewrite <- !(map_map fst (fun e : Message * string => trim (snd e))).
    rewrite <- !lastThree_map, Hbefore, Hbefore', Hsame. reflexivity.
  - destruct HS as (_ & x & _ & Hlast & _). rewrite Hsame, HS' in Hlast. discriminate.
  - destruct HS' as (_ & x & _ & Hlast & _). rewrite <- Hsame, HS in Hlast. discriminate.
  - reflexivity.
Qed.
End Reply.

(** X12.  The built-in chat of both variants answers from the user's own text
    messages alone: dropping every system message, every assistant message and
    every message whose content is not a string changes neither the reply nor
    the calls made. Context injected into the system message never reaches
    these models. *)
Theorem local_chat_reads_user_text_only `{StringImpl} (E : Env)
    (messages : list Message) (modelId : string) (options : Options) (t : Trace) :
  Aakarsh.generateLocalChatResponse E (filter mine messages) modelId options t
  = Aakarsh.generateLocalChatResponse E messages modelId options t
  /\ Instruct.generateLocalChatResponse E (filter mine messages) modelId options t
     = Instruct.generateLocalChatResponse E messages modelId options t.
Proof.
  split; apply reply_by_user_text;
    now rewrite safeMessagesOf_mine, filter_idem.
Qed.

Import AppRoutes.

Lemma appendToFirstSystem_mine (extra : string) (messages messages' : list Message) :
  appendToFirstSystem extra messages = Some messages' ->
  filter mine messages' = filter mine messages.
Proof.
  revert messages'; induction messages as [|m rest IH]; intros messages';
    cbn [appendToFirstSystem]; [discriminate|].
  destruct (isSystem m) eqn:Hsys.
  - intros Heq; inversion Heq; subst; clear Heq.
    unfold isSystem in Hsys. apply String.eqb_eq in Hsys.
    assert (Hm : forall c i, mine {| role := role m; content := c; image := i |} = false)
      by (intros c i; unfold mine, isUser; cbn [role]; now rewrite Hsys).
    cbn [filter]. rewrite Hm.
    destruct m as [r c i]. cbn [role] in Hm. now rewrite Hm.
  - destruct (appendToFirstSystem extra rest) as [rest'|]; [|discriminate].
    intros Heq; inversion Heq; subst; clear Heq.
    cbn [filter]. now rewrite (IH rest' eq_refl).
Qed.

Lemma injectIntoSystem_mine (extra : string) (messages : list Message) :
  filter mine (injectIntoSystem extra messages) = filter mine messages.
Proof.
  unfold injectIntoSystem.
  destruct (appendToFirstSystem extra messages) as [messages'|] eqn:Happ.
  - now apply appendToFirstSystem_mine with (extra := extra).
  - reflexivity.
Qed.

Lemma aakarsh_chat_local `{StringImpl} (E : Env) (messages : list Message)
    (modelId : string) (options : Options) :
  hasType (lookup (Aakarsh.catalog E) modelId) "local" = true ->
  Aakarsh.chat E messages (Some modelId) options
  = bind (Aakarsh.generateLocalChatResponse E messages modelId options)
         (fun result => ret (chatResultOfHeld result)).
Proof.
  intros Hlocal.
  destruct (LocalStream.local_lookup _ _ Hlocal) as (Hpresent & Hopenai & _).
  unfold Aakarsh.chat. rewrite Hpresent. cbv iota. now rewrite Hopenai, Hlocal.
Qed.

(** X13.  With a built-in model the context injected by the chat routes has no
    effect: [chat] gives the same result, through the same calls, on the
    message list with the API note or the web-search results injected as on
    the list the client sent. *)
Theorem injection_never_reaches_local_chat `{StringImpl} (E : Env)
    (apis : list Api) (searchApiName : string) (results : list SearchResult)
    (messages : list Message) (modelId : string) (options : Options) (t : Trace) :
  hasType (lookup (Aakarsh.catalog E) modelId) "local" = true ->
  Aakarsh.chat E (injectApiContextChat apis messages) (Some modelId) options t
  = Aakarsh.chat E messages (Some modelId) options t
  /\ Aakarsh.chat E (injectSearchContext searchApiName results messages)
       (Some modelId) options t
     = Aakarsh.chat E messages (Some modelId) options t
  /\ Instruct.chat E (injectApiContextChat apis messages) None options t
     = Instruct.chat E messages None options t.
Proof.
  intros Hlocal.
  assert (Hapi : filter mine (injectApiContextChat apis messages) = filter mine messages).
  { unfold injectApiContextChat. destruct apis; [reflexivity|].
    apply injectIntoSystem_mine. }
  assert (Hsearch : filter mine (injectSearchContext searchApiName results messages)
                    = filter mine messages).
  { unfold injectSearchContext. destruct results; [reflexivity|].
    apply injectIntoSystem_mine. }
  assert (Hsame : forall msgs msgs',
             filter mine msgs = filter mine msgs' ->
             filter (fun e => isUser (fst e)) (safeMessagesOf msgs)
             = filter (fun e => isUser (fst e)) (safeMessagesOf msgs')).
  { intros msgs msgs' Heq. now rewrite <- !safeMessagesOf_mine, Heq. }
  split; [|split].
  - rewrite !aakarsh_chat_local by exact Hlocal. unfold bind.
    unfold Aakarsh.generateLocalChatResponse.
    erewrite reply_by_user_text; [reflexivity | apply Hsame; exact Hapi].
  - rewrite !aakarsh_chat_local by exact Hlocal. unfold bind.
    unfold Aakarsh.generateLocalChatResponse.
    erewrite reply_by_user_text; [reflexivity | apply Hsame; exact Hsearch].
  - unfold Instruct.chat.
    change (present (lookup (Instruct.catalog E) Instruct.defaultModel)) with true.
    cbv iota.
    change (hasType (lookup (Instruct.catalog E) Instruct.defaultModel) "openai")
      with false.
    change (hasType (lookup (Instruct.catalog E) Instruct.defaultModel) "local")
      with true.
    cbv iota.
    change (String.eqb Instruct.defaultModel "local/instruct") with true.
    cbv iota. unfold bind. unfold Instruct.generateLocalChatResponse.
    erewrite reply_by_user_text; [reflexivity | apply Hsame; exact Hapi].
Qed.

Lemma injection_never_reaches_local_chat_witness :
  Aakarsh.chat Doubles.offlineEnv
    (injectApiContextChat [Doubles.weatherApi] Doubles.conversation)
    (Some "local/aakarsh") noOptions []
  = Aakarsh.chat Doubles.offlineEnv Doubles.conversation (Some "local/aakarsh")
      noOptions []
  /\ Aakarsh.chat Doubles.offlineEnv
       (injectSearchContext "Google"
          [ {| title := "T"; link := "L"; snippet := "S" |} ] Doubles.conversation)
       (Some "local/aakarsh") noOptions []
     = Aakarsh.chat Doubles.offlineEnv Doubles.conversation (Some "local/aakarsh")
         noOptions []
  /\ Instruct.chat Doubles.offlineEnv
       (injectApiContextChat [Doubles.weatherApi] Doubles.conversation)
       None noOptions []
     = Instruct.chat Doubles.offlineEnv Doubles.conversation None noOptions [].
Proof.
  apply (@injection_never_reaches_local_chat AsciiStrings Doubles.offlineEnv
           [Doubles.weatherApi] "Google"
           [ {| title := "T"; link := "L"; snippet := "S" |} ]
           Doubles.conversation "local/aakarsh" noOptions []).
  reflexivity.
Defined.

End LocalChatFacts.

(** ** The model listing *)

Module ListingFacts.
Import Listing.

Lemma listModel_invariant (isKeyAvailable : string -> bool) (entry : string * Model) :
  let m := listModel isKeyAvailable entry in
  lm_id m = fst entry
  /\ lm_info m = snd entry
  /\ configured m = available m
  /\ (lm_message m = None <-> available m = true).
Proof.
  cbn zeta. unfold listModel.
  destruct (requiresKey (snd entry)) as [key|]; [destruct (nonEmpty key)|];
    cbn; try tauto.
  destruct (isKeyAvailable key); cbn; repeat split; intros; congruence.
Qed.

(** X14.  The listing has one element per catalog entry, in catalog order and
    under the catalog id; each element reports [configured] equal to
    [available], and carries a message exactly when it is not available. *)
Theorem listing_mirrors_catalog (isKeyAvailable : string -> bool)
    (catalog : Obj Model) :
  map lm_id (listModels isKeyAvailable catalog) = objKeys catalog
  /\ map lm_info (listModels isKeyAvailable catalog) = map snd catalog
  /\ Forall (fun m => configured m = available m
                      /\ (lm_message m = None <-> available m = true))
            (listModels isKeyAvailable catalog).
Proof.
  unfold listModels, objKeys. rewrite !map_map.
  split; [|split].
  - apply map_ext. intros e. apply (listModel_invariant isKeyAvailable e).
  - apply map_ext. intros e. apply (listModel_invariant isKeyAvailable e).
  - apply Forall_map, Forall_forall. intros e _.
    destruct (listModel_invariant isKeyAvailable e) as (_ & _ & Hc & Hm). auto.
Qed.

Lemma keyFree_available (isKeyAvailable : string -> bool) (catalog : Obj Model) :
  Forall (fun e => existsb (String.eqb (type (snd e))) ["local"; "xenova"; "ollama"] = true
                   -> requiresKey (snd e) = None) catalog ->
  Forall (fun m => keyFree m = true -> available m = true /\ lm_message m = None)
         (listModels isKeyAvailable catalog).
Proof.
  intros Hcat. unfold listModels. apply Forall_map.
  eapply Forall_impl; [|exact Hcat].
  intros e He Hfree. unfold keyFree, listModel in *.
  destruct (requiresKey (snd e)) as [key|] eqn:Hkey.
  - cbn [lm_info] in Hfree.
    destruct (nonEmpty key); cbn [lm_info] in Hfree; specialize (He Hfree); discriminate.
  - cbn. auto.
Qed.

(** X15.  In every environment, with or without API keys, both variants list
    each model that runs on the machine (types local, xenova and ollama) as
    available and without a message, and the default model is among them. *)
Theorem local_models_always_available (E : Env) (env : ProcessEnv) :
  Forall (fun m => keyFree m = true -> available m = true /\ lm_message m = None)
         (models (modelsRouteAakarsh E env))
  /\ Forall (fun m => keyFree m = true -> available m = true /\ lm_message m = None)
            (models (modelsRouteInstruct E env))
  /\ (exists m, In m (models (modelsRouteAakarsh E env))
                /\ lm_id m = reply_default (modelsRouteAakarsh E env)
                /\ keyFree m = true)
  /\ (exists m, In m (models (modelsRouteInstruct E env))
                /\ lm_id m = reply_default (modelsRouteInstruct E env)
                /\ keyFree m = true).
Proof.
  split; [|split; [|split]].
  - apply keyFree_available.
    unfold Aakarsh.catalog, Aakarsh.AVAILABLE_MODELS.
    repeat (constructor; [cbn; intros; first [reflexivity | discriminate]|]).
    constructor.
  - apply keyFree_available.
    unfold Instruct.catalog, Instruct.AVAILABLE_MODELS.
    repeat (constructor; [cbn; intros; first [reflexivity | discriminate]|]).
    constructor.
  - cbn [models modelsRouteAakarsh reply_default].
    unfold OfAakarsh.getAvailableModels, listModels, Aakarsh.catalog,
      Aakarsh.AVAILABLE_MODELS. cbn [map].
    eexists. split; [do 2 right; left; reflexivity|]. split; reflexivity.
  - cbn [models modelsRouteInstruct reply_default].
    unfold OfInstruct.getAvailableModels, listModels, Instruct.catalog,
      Instruct.AVAILABLE_MODELS. cbn [map].
    eexists. split; [left; reflexivity|]. split; reflexivity.
Qed.

(** X16.  A model that names a key is available exactly when the key is: the
    OpenAI models of both variants follow [OPENAI_API_KEY] in the process
    environment, and an unset or empty variable yields the "Requires ..."
    message. *)
Theorem keyed_models_follow_the_key (E : Env) (env : ProcessEnv) (m : ListedModel) :
  In m (models (modelsRouteAakarsh E env)) \/ In m (models (modelsRouteInstruct E env)) ->
  type (lm_info m) = "openai" ->
  available m = envSet env "OPENAI_API_KEY"
  /\ lm_message m
     = (if envSet env "OPENAI_API_KEY" then None
        else Some "Requires OPENAI_API_KEY environment variable").
Proof.
  cbn [models modelsRouteAakarsh modelsRouteInstruct].
  unfold OfAakarsh.getAvailableModels, OfInstruct.getAvailableModels, listModels,
    Aakarsh.catalog, Aakarsh.AVAILABLE_MODELS, Instruct.catalog,
    Instruct.AVAILABLE_MODELS.
  cbn [map In].
  intros [Hin|Hin] Htype;
    repeat (destruct Hin as [<-|Hin]; [cbn in Htype |- *; try discriminate|]);
    try contradiction;
    unfold OfAakarsh.isKeyAvailable, OfInstruct.isKeyAvailable; cbn;
    destruct (envSet env "OPENAI_API_KEY"); auto.
Qed.

Lemma keyed_models_follow_the_key_witness :
  let env := fun _ : string => @None string in
  let m := listModel (OfAakarsh.isKeyAvailable env)
             ("gpt-4o",
              {| m_name := "GPT-4o (Vision)"; provider := "OpenAI";
                 m_description := "OpenAI Multimodal Model (Text + Vision).";
                 maxTokens := 4096; free := false; type := "openai";
                 transformersModel := None; endpoint := None; ollamaModel := None;
                 requiresKey := Some "OPENAI_API_KEY"; hfModel := None;
                 vision := true; notice := None |}) in
  available m = envSet env "OPENAI_API_KEY"
  /\ lm_message m
     = (if envSet env "OPENAI_API_KEY" then None
        else Some "Requires OPENAI_API_KEY environment variable").
Proof.
  cbn zeta.
  apply (@keyed_models_follow_the_key Doubles.offlineEnv (fun _ => None)).
  - left. cbn. do 7 right. left. reflexivity.
  - reflexivity.
Defined.

End ListingFacts.

(** ** Task reviews *)

Module AgentReviewFacts.
Import AgentReview.

Section Reviews.
Context `{StringImpl}.
Variable estimateEffort : string -> JsVal -> string.
Variable calculateConfidence : string -> JsVal -> Q.

Lemma addToHistory_shape (review : Review) (taskHistory : History) :
  (List.length taskHistory <= maxHistorySize)%nat ->
  addToHistory review taskHistory
  = (if Nat.ltb (List.length taskHistory) maxHistorySize
     then taskHistory ++ [review]
     else tl taskHistory ++ [review])%list
  /\ (List.length (addToHistory review taskHistory) <= maxHistorySize)%nat.
Proof.
  intros Hle. unfold addToHistory. rewrite length_app. cbn [List.length].
  destruct (Nat.ltb_spec (List.length taskHistory) maxHistorySize) as [Hlt|Hge].
  - replace (Nat.ltb maxHistorySize (List.length taskHistory + 1)) with false
      by (symmetry; apply Nat.ltb_ge; lia).
    split; [reflexivity|]. rewrite length_app. cbn. lia.
  - replace (Nat.ltb maxHistorySize (List.length taskHistory + 1)) with true
      by (symmetry; apply Nat.ltb_lt; lia).
    destruct taskHistory as [|r0 rest]; [cbn in Hge; unfold maxHistorySize in Hge; lia|].
    cbn [app tl]. split; [reflexivity|]. rewrite length_app. cbn in *. lia.
Qed.

(** X17.  The review history never outgrows its limit of 100: a call of
    [reviewTask] on a history within the limit leaves a history within the
    limit; a review that is produced is stored last, and once the history is
    full the oldest entry makes room for it. *)
Theorem history_stays_bounded (newId now description : string) (type context : JsVal)
    (taskHistory : History) :
  (List.length taskHistory <= maxHistorySize)%nat ->
  let after := snd (reviewTask estimateEffort calculateConfidence newId now
                      description type context taskHistory) in
  (List.length after <= maxHistorySize)%nat
  /\ forall review,
       fst (reviewTask estimateEffort calculateConfidence newId now
              description type context taskHistory) = Reviewed review ->
       after = (if Nat.ltb (List.length taskHistory) maxHistorySize
                then taskHistory ++ [review]
                else tl taskHistory ++ [review])%list.
Proof.
  intros Hle. cbn zeta. unfold reviewTask.
  destruct (negb (nonEmpty description) || negb (nonEmpty (trim description))).
  - cbn [fst snd]. split; [exact Hle | discriminate].
  - cbn [fst snd]. split.
    + now apply addToHistory_shape.
    + intros review Heq. inversion Heq; subst review.
      now apply addToHistory_shape.
Qed.

Lemma addMatches_count (lowerDesc : string) (step : Q) (keywords : list string) :
  forall score,
    (addMatches lowerDesc step keywords score
     == score + step * inject_Z (Z.of_nat
                                   (List.length
                                      (filter (fun keyword => includes keyword lowerDesc)
                                              keywords))))%Q.
Proof.
  induction keywords as [|keyword keywords IH]; intros score; cbn [addMatches fold_left].
  - cbn. ring.
  - unfold addMatches in IH. rewrite IH. cbn [filter].
    destruct (includes keyword lowerDesc); [|reflexivity].
    cbn [List.length]. rewrite Nat2Z.inj_succ, <- Z.add_1_r, inject_Z_plus. ring.
Qed.

Lemma complexityScore_halfPoints (description : string) (type : JsVal) :
  (complexityScore description type
   == inject_Z (Z.of_nat (2 + halfPoints description type)) * (1 # 2))%Q.
Proof.
  unfold complexityScore, halfPoints.
  set (lowerDesc := toLowerCase description).
  set (a := List.length (filter _ complexKeywords)).
  set (b := List.length (filter _ criticalKeywords)).
  assert (Hscore : (addMatches lowerDesc 1 criticalKeywords
                      (addMatches lowerDesc (1 # 2) complexKeywords 1)
                    == 1 + (1 # 2) * inject_Z (Z.of_nat a) + inject_Z (Z.of_nat b))%Q).
  { rewrite addMatches_count. fold b.
    rewrite (addMatches_count lowerDesc (1 # 2) complexKeywords 1). fold a. ring. }
  destruct (typeAmong type _); rewrite Hscore;
    rewrite !Nat2Z.inj_add, !Nat2Z.inj_mul, !inject_Z_plus, !inject_Z_mult; cbn; ring.
Qed.

(** X18.  The complexity level is decided by a count: each complex keyword
    found in the lower-cased description adds one half-point, each critical
    keyword two, and one of the types deployment, security, database one; the
    task is critical from six half-points, high from three, medium from one,
    and low only when nothing at all matched. *)
Theorem complexity_by_count (description : string) (type : JsVal) :
  let n := halfPoints description type in
  analyzeComplexity description type
  = (if Nat.leb 6 n then "critical"
     else if Nat.leb 3 n then "high"
     else if Nat.leb 1 n then "medium"
     else "low").
Proof.
  cbn zeta. unfold analyzeComplexity.
  pose proof (complexityScore_halfPoints description type) as Hscore.
  set (n := halfPoints description type) in *.
  set (score := complexityScore description type) in *.
  assert (Hcmp : forall k : nat,
             Qle_bool (inject_Z (Z.of_nat (2 + k)) * (1 # 2)) score = Nat.leb k n).
  { intros k. destruct (Nat.leb_spec k n) as [Hle|Hgt].
    - apply Qle_bool_iff. rewrite Hscore.
      unfold Qle, Qmult, inject_Z; cbn [Qnum Qden]. lia.
    - destruct (Qle_bool _ score) eqn:Hq; [|reflexivity].
      apply Qle_bool_iff in Hq. rewrite Hscore in Hq.
      unfold Qle, Qmult, inject_Z in Hq; cbn [Qnum Qden] in Hq. lia. }
  assert (H4 : Qle_bool 4 score = Nat.leb 6 n).
  { rewrite <- Hcmp. apply eq_true_iff_eq. rewrite !Qle_bool_iff.
    assert (Heq : (4 == inject_Z (Z.of_nat (2 + 6)) * (1 # 2))%Q) by reflexivity.
    now rewrite Heq. }
  assert (H25 : Qle_bool (5 # 2) score = Nat.leb 3 n).
  { rewrite <- Hcmp. apply eq_true_iff_eq. rewrite !Qle_bool_iff.
    assert (Heq : (5 # 2 == inject_Z (Z.of_nat (2 + 3)) * (1 # 2))%Q) by reflexivity.
    now rewrite Heq. }
  assert (H15 : Qle_bool (3 # 2) score = Nat.leb 1 n).
  { rewrite <- Hcmp. apply eq_true_iff_eq. rewrite !Qle_bool_iff.
    assert (Heq : (3 # 2 == inject_Z (Z.of_nat (2 + 1)) * (1 # 2))%Q) by reflexivity.
    now rewrite Heq. }
  now rewrite H4, H25, H15.
Qed.

Lemma critical_risks (description : string) (type : JsVal) :
  let lowerDesc := toLowerCase description in
  List.length (filter (fun r => String.eqb (severity r) "critical")
                      (identifyRisks description type))
  = if includes "breaking" lowerDesc || includes "remove" lowerDesc
       || includes "delete" lowerDesc
    then 1%nat else 0%nat.
Proof.
  cbn zeta. unfold identifyRisks, pushIf.
  set (lowerDesc := toLowerCase description).
  destruct (includes "production" lowerDesc || includes "prod" lowerDesc);
  destruct (includes "database" lowerDesc || includes "migration" lowerDesc
            || includes "data" lowerDesc);
  destruct (includes "security" lowerDesc || includes "auth" lowerDesc
            || includes "password" lowerDesc || includes "token" lowerDesc);
  destruct (includes "breaking" lowerDesc || includes "remove" lowerDesc
            || includes "delete" lowerDesc);
  destruct (includes "deploy" lowerDesc || includes "release" lowerDesc);
  destruct (includes "performance" lowerDesc || includes "optimize" lowerDesc
            || includes "slow" lowerDesc);
  reflexivity.
Qed.

(** X19.  A task is approved exactly when its lower-cased description mentions
    none of "breaking", "remove" and "delete"; a task that is not approved
    gets the critical-review recommendation and the two remediation steps, an
    approved one never gets that recommendation and gets the seven
    implementation steps. An empty or blank description is answered by the
    error object and leaves the history as it was. *)
Theorem approval_rule (newId now description : string) (type context : JsVal)
    (taskHistory : History) :
  let reply := reviewTask estimateEffort calculateConfidence newId now
                 description type context taskHistory in
  let lowerDesc := toLowerCase description in
  let critical := "CRITICAL REVIEW REQUIRED: This task has critical risks that must be addressed before proceeding. Review the identified risks and implement mitigation strategies." in
  if negb (nonEmpty description) || negb (nonEmpty (trim description)) then
    reply = (ReviewError "error" "Task description is required" false, taskHistory)
  else
    exists review,
      fst reply = Reviewed review
      /\ approved (analysis review)
         = negb (includes "breaking" lowerDesc || includes "remove" lowerDesc
                 || includes "delete" lowerDesc)
      /\ (if approved (analysis review)
          then recommendation review <> critical
               /\ List.length (nextSteps review) = 7%nat
          else recommendation review = critical
               /\ nextSteps review
                  = [ "Address all critical risks identified in the review";
                      "Revise the task plan and submit for re-review" ]).
Proof.
  cbn zeta. unfold reviewTask.
  destruct (negb (nonEmpty description) || negb (nonEmpty (trim description)));
    [reflexivity|].
  eexists. split; [reflexivity|].
  cbn [analysis approved recommendation nextSteps].
  rewrite critical_risks.
  destruct (includes "breaking" (toLowerCase description)
            || includes "remove" (toLowerCase description)
            || includes "delete" (toLowerCase description)).
  - split; [reflexivity|]. cbn. auto.
  - split; [reflexivity|]. cbn [Nat.eqb negb].
    unfold generateRecommendation, suggestNextSteps. cbn [negb].
    split; [|reflexivity].
    destruct (Nat.ltb 3 _); [discriminate|].
    destruct (_ || _); discriminate.
Qed.

Lemma find_after {A} (p : A -> bool) (l : list A) (x : A) :
  Forall (fun y => p y = false) l -> p x = true -> find p (l ++ [x]) = Some x.
Proof.
  intros Hall Hx. induction Hall as [|y l Hy _ IH]; cbn [app find].
  - now rewrite Hx.
  - now rewrite Hy.
Qed.

Lemma fetched_from (kept : History) (review : Review) :
  Forall (fun r => reviewId r <> reviewId review) kept ->
  getReviewById (reviewId review) (kept ++ [review])%list = Some review
  /\ getHistory 1 (kept ++ [review])%list = [review].
Proof.
  intros Hkept. split.
  - unfold getReviewById. apply find_after.
    + eapply Forall_impl; [|exact Hkept]. intros r Hr. now apply String.eqb_neq.
    + apply String.eqb_refl.
  - unfold getHistory, sliceFrom. rewrite length_app. cbn [List.length].
    replace (Z.to_nat (if - (1) <? 0
                       then Z.max (Z.of_nat (List.length kept + 1) + - (1)) 0
                       else Z.min (- (1)) (Z.of_nat (List.length kept + 1))))
      with (List.length kept + 0)%nat by (cbn; lia).
    rewrite skipn_app, skipn_all2 by lia.
    replace (List.length kept + 0 - List.length kept)%nat with 0%nat by lia.
    reflexivity.
Qed.

(** X20.  A review can be fetched back: after [reviewTask] has produced a
    review under an id that no stored review carries, [getReviewById] with
    that id returns this review, and it heads the history listing. *)
Theorem review_can_be_fetched (newId now description : string) (type context : JsVal)
    (taskHistory : History) :
  (List.length taskHistory <= maxHistorySize)%nat ->
  Forall (fun r => reviewId r <> newId) taskHistory ->
  (negb (nonEmpty description) || negb (nonEmpty (trim description))) = false ->
  exists review,
    fst (reviewTask estimateEffort calculateConfidence newId now
           description type context taskHistory) = Reviewed review
    /\ reviewId review = newId
    /\ let after := snd (reviewTask estimateEffort calculateConfidence newId now
                           description type context taskHistory) in
       getReviewById newId after = Some review
       /\ getHistory 1 after = [review].
Proof.
  intros Hle Hfresh Hgiven. unfold reviewTask. rewrite Hgiven.
  eexists. split; [reflexivity|]. split; [reflexivity|]. cbn [snd].
  match goal with
  | |- context [addToHistory ?r _] => set (review := r)
  end.
  change newId with (reviewId review) in Hfresh |- *.
  destruct (addToHistory_shape review taskHistory Hle) as (-> & _).
  destruct (Nat.ltb (List.length taskHistory) maxHistorySize).
  - now apply fetched_from.
  - apply fetched_from. destruct taskHistory; [constructor | now inversion Hfresh].
Qed.
End Reviews.

Lemma review_can_be_fetched_witness :
  exists review,
    fst (@reviewTask AsciiStrings (fun _ _ => "2 hours") (fun _ _ => (4 # 5)%Q)
           "review_1" "2025-01-01T00:00:00.000Z" "Add a login form" (JStr "code")
           JUndefined []) = Reviewed review
    /\ reviewId review = "review_1"
    /\ let after := snd (@reviewTask AsciiStrings (fun _ _ => "2 hours")
                           (fun _ _ => (4 # 5)%Q)
                           "review_1" "2025-01-01T00:00:00.000Z" "Add a login form"
                           (JStr "code") JUndefined []) in
       getReviewById "review_1" after = Some review
       /\ getHistory 1 after = [review].
Proof.
  apply (@review_can_be_fetched AsciiStrings (fun _ _ => "2 hours")
           (fun _ _ => (4 # 5)%Q) "review_1" "2025-01-01T00:00:00.000Z"
           "Add a login form" (JStr "code") JUndefined []).
  - cbn. lia.
  - constructor.
  - reflexivity.
Defined.

Lemma history_stays_bounded_witness :
  let after := snd (@reviewTask AsciiStrings (fun _ _ => "2 hours")
                      (fun _ _ => (4 # 5)%Q)
                      "review_1" "2025-01-01T00:00:00.000Z" "Add a login form"
                      (JStr "code") JUndefined []) in
  (List.length after <= maxHistorySize)%nat
  /\ forall review,
       fst (@reviewTask AsciiStrings (fun _ _ => "2 hours") (fun _ _ => (4 # 5)%Q)
              "review_1" "2025-01-01T00:00:00.000Z" "Add a login form" (JStr "code")
              JUndefined []) = Reviewed review ->
       after = (if Nat.ltb (List.length (@nil Review)) maxHistorySize
                then [] ++ [review]
                else tl [] ++ [review])%list.
Proof.
  apply (@history_stays_bounded AsciiStrings (fun _ _ => "2 hours")
           (fun _ _ => (4 # 5)%Q) "review_1" "2025-01-01T00:00:00.000Z"
           "Add a login form" (JStr "code") JUndefined []).
  cbn. lia.
Defined.

Lemma getHistory_positive (limit : Z) (taskHistory : History) :
  0 < limit ->
  getHistory limit taskHistory = firstn (Z.to_nat limit) (rev taskHistory).
Proof.
  intros Hpos. unfold getHistory, sliceFrom.
  replace (- limit <? 0) with true by (symmetry; apply Z.ltb_lt; lia).
  rewrite firstn_rev. f_equal. f_equal. lia.
Qed.

(** X21.  [getHistory] returns the newest reviews first. With a positive limit
    it returns at most that many; with limit 0 it returns the whole history,
    since [slice(-0)] starts at the beginning; with a negative limit it leaves
    out that many of the oldest entries. *)
Theorem getHistory_window (limit : Z) (taskHistory : History) :
  (0 < limit -> getHistory limit taskHistory
                = firstn (Z.to_nat limit) (rev taskHistory))
  /\ getHistory 0 taskHistory = rev taskHistory
  /\ (limit < 0 -> getHistory limit taskHistory
                   = rev (skipn (Z.to_nat (- limit)) taskHistory)).
Proof.
  split; [apply getHistory_positive|].
  unfold getHistory, sliceFrom. split.
  - cbn [Z.opp Z.ltb Z.compare]. rewrite Z.min_l by lia. reflexivity.
  - intros Hneg. replace (- limit <? 0) with false by (symmetry; apply Z.ltb_ge; lia).
    destruct (Z.min_spec (- limit) (Z.of_nat (List.length taskHistory)))
      as [[Hlt ->]|[Hge ->]]; [reflexivity|].
    rewrite Nat2Z.id. rewrite !skipn_all2 by lia. reflexivity.
Qed.

Lemma objSet_sum (k : string) (o : Obj nat) :
  sumCounts (objSet k (match objGet k o with Some n => n | None => 0 end + 1)%nat o)
  = S (sumCounts o).
Proof.
  induction o as [|[k' n] o IH]; cbn [objSet objGet sumCounts]; [lia|].
  destruct (String.eqb k' k); cbn [sumCounts]; [lia|]. rewrite IH. lia.
Qed.

Lemma countComplexity_sum (taskHistory : History) (acc : Obj nat) :
  sumCounts (fold_left countComplexity taskHistory acc)
  = (sumCounts acc + List.length taskHistory)%nat.
Proof.
  revert acc; induction taskHistory as [|r rest IH]; intros acc; cbn [fold_left].
  - cbn. lia.
  - rewrite IH. unfold countComplexity. rewrite objSet_sum. cbn. lia.
Qed.

(** X22.  The statistics add up: the approved reviews are among the total, the
    counts per complexity level sum to the total, and the recent reviews are
    the five newest, newest first. *)
Theorem statistics_add_up (formatRate : nat -> nat -> string) (taskHistory : History) :
  let s := getStatistics formatRate taskHistory in
  total s = List.length taskHistory
  /\ (st_approved s <= total s)%nat
  /\ sumCounts (byComplexity s) = total s
  /\ recentReviews s = firstn 5 (rev taskHistory)
  /\ (taskHistory = [] -> approvalRate s = "0%").
Proof.
  cbn zeta. unfold getStatistics.
  cbn [total st_approved byComplexity recentReviews approvalRate].
  split; [reflexivity|]. split; [apply filter_length_le|].
  split; [now rewrite countComplexity_sum|].
  split; [apply getHistory_positive; lia|].
  intros ->. reflexivity.
Qed.

End AgentReviewFacts.

(** ** The matcher of the knowledge base *)

Module TinyLLMFacts.
Import TinyLLM.

Lemma matchesOf_le (tokens : list string) (item : Entry) :
  (matchesOf tokens item <= List.length (pattern item))%nat.
Proof. apply filter_length_le. Qed.

(** What passing the threshold means in whole numbers: every word of a
    pattern of up to three words, half of the words of a longer one. *)
Lemma threshold_passed (tokens : list string) (item : Entry) :
  passesThreshold tokens item = true ->
  (0 < matchesOf tokens item)%nat
  /\ (List.length (pattern item) <= 2 * matchesOf tokens item)%nat
  /\ ((List.length (pattern item) <= 3)%nat ->
      matchesOf tokens item = List.length (pattern item)).
Proof.
  pose proof (matchesOf_le tokens item) as Hle.
  unfold passesThreshold, scoreOf. intros Hpass. apply Qle_bool_iff in Hpass.
  set (m := matchesOf tokens item) in *.
  destruct (List.length (pattern item)) as [|[|[|[|n]]]] eqn:Hlen.
  - replace m with 0%nat in * by lia. vm_compute in Hpass. contradiction Hpass. reflexivity.
  - unfold thresholdOf, Qle, Qdiv, Qmult, Qinv, inject_Z in Hpass; cbn in Hpass. lia.
  - unfold thresholdOf, Qle, Qdiv, Qmult, Qinv, inject_Z in Hpass; cbn in Hpass. lia.
  - unfold thresholdOf, Qle, Qdiv, Qmult, Qinv, inject_Z in Hpass; cbn in Hpass. lia.
  - unfold thresholdOf, Qle, Qdiv, Qmult, Qinv, inject_Z in Hpass.
    cbn [Z.of_nat Qnum Qden] in Hpass.
    cbn in Hpass. lia.
Qed.

Lemma consider_invariant (tokens : list string) (normalized : string)
    (items : list Entry) (P : Entry -> Prop) :
  (forall item, In item items -> P item) ->
  forall best,
    (fst best = None
     \/ exists item, P item /\ passesThreshold tokens item = true /\ fst best = Some (response item)) ->
    let best' := fold_left (consider tokens normalized) items best in
    fst best' = None
    \/ exists item, P item /\ passesThreshold tokens item = true /\ fst best' = Some (response item).
Proof.
  induction items as [|item items IH]; intros HP best Hbest; [exact Hbest|].
  cbn [fold_left]. apply IH; [intros i Hi; apply HP; now right|].
  unfold consider.
  destruct (passesThreshold tokens item) eqn:Hpass; cbn [andb]; [|exact Hbest].
  destruct (negb _); [|exact Hbest].
  right. exists item. split; [apply HP; now left|].
  split; [exact Hpass | reflexivity].
Qed.

Lemma findBestMatchIn_sound (categories : Obj (list Entry)) (tokens : list string)
    (normalized : string) (r : string) :
  findBestMatchIn categories tokens normalized = Some r ->
  exists category item,
    In category categories /\ In item (snd category)
    /\ response item = r /\ passesThreshold tokens item = true.
Proof.
  unfold findBestMatchIn.
  assert (Hinv : forall cats best,
             (forall c, In c cats -> In c categories) ->
             (fst best = None
              \/ exists item, (exists c, In c categories /\ In item (snd c))
                              /\ passesThreshold tokens item = true
                              /\ fst best = Some (response item)) ->
             let best' := fold_left
                            (fun b category =>
                               fold_left (consider tokens normalized) (snd category) b)
                            cats best in
             fst best' = None
             \/ exists item, (exists c, In c categories /\ In item (snd c))
                             /\ passesThreshold tokens item = true
                             /\ fst best' = Some (response item)).
  { induction cats as [|c cats IH]; intros best Hsub Hbest; [exact Hbest|].
    cbn [fold_left]. apply IH; [intros c' Hc'; apply Hsub; now right|].
    apply consider_invariant; [|exact Hbest].
    intros item Hitem. exists c. split; [apply Hsub; now left | exact Hitem]. }
  intros Hsome.
  destruct (Hinv categories (None, 0%Q) (fun c Hc => Hc) (or_introl eq_refl))
    as [Hnone|(item & (c & Hc & Hitem) & Hpass & Hbest)].
  - rewrite Hsome in Hnone. discriminate.
  - rewrite Hsome in Hbest. inversion Hbest. eauto 7.
Qed.

(** X23.  [findBestMatch] only ever answers with a response of the knowledge
    base, and only for an entry that passes its threshold: at least one
    pattern word is among the tokens, at least half of them are, and for a
    pattern of one, two or three words all of them are (two of three do not
    reach the threshold of 0.67). Without tokens there is no match, whatever
    the normalized text. *)
Theorem findBestMatch_needs_the_words (tokens : list string) (normalized : string) :
  (forall r, findBestMatch tokens normalized = Some r ->
     exists category item,
       In category knowledge /\ In item (snd category)
       /\ response item = r
       /\ (0 < matchesOf tokens item)%nat
       /\ (List.length (pattern item) <= 2 * matchesOf tokens item)%nat
       /\ ((List.length (pattern item) <= 3)%nat ->
           Forall (fun word => hasToken tokens word = true) (pattern item)))
  /\ findBestMatch [] normalized = None.
Proof.
  split.
  - intros r Hsome. apply findBestMatchIn_sound in Hsome.
    destruct Hsome as (category & item & Hc & Hi & Hr & Hpass).
    destruct (threshold_passed tokens item Hpass) as (Hpos & Hhalf & Hall).
    exists category, item. repeat (split; [assumption|]).
    intros Hshort. specialize (Hall Hshort). unfold matchesOf in Hall.
    clear - Hall. induction (pattern item) as [|w ws IH]; [constructor|].
    cbn [filter] in Hall. destruct (hasToken tokens w) eqn:Hw.
    + constructor; [exact Hw|]. apply IH. cbn in Hall. lia.
    + pose proof (filter_length_le (hasToken tokens) ws). cbn in Hall. lia.
  - destruct (findBestMatch [] normalized) as [r|] eqn:Hsome; [|reflexivity].
    apply findBestMatchIn_sound in Hsome.
    destruct Hsome as (category & item & _ & _ & _ & Hpass).
    destruct (threshold_passed [] item Hpass) as (Hpos & _).
    unfold matchesOf, hasToken in Hpos. cbn [existsb] in Hpos.
    exfalso. clear - Hpos. induction (pattern item); cbn in Hpos; [lia|auto].
Qed.

Example two_of_three_words_do_not_match :
  findBestMatch ["are"; "you"] "are you" = None
  /\ findBestMatch ["are"; "you"; "real"] "are you real"
     = Some "No, I am a code-based AI assistant designed to be helpful and privacy-focused. All processing happens locally.".
Proof. split; vm_compute; reflexivity. Qed.

(** X24.  The conversation context never holds more than ten turns: adding a
    turn to a context within that bound gives a context within it, whose last
    turn is the one added. *)
Theorem context_stays_bounded (role : string) (content : JsVal) (context : list Turn) :
  (List.length context <= maxContext * 2)%nat ->
  (List.length (updateContext role content context) <= maxContext * 2)%nat
  /\ last (updateContext role content context) {| turn_role := ""; turn_content := JNull |}
     = {| turn_role := role; turn_content := content |}
  /\ updateContext role content context
     = (if Nat.ltb (List.length context) (maxContext * 2)
        then context ++ [ {| turn_role := role; turn_content := content |} ]
        else tl context ++ [ {| turn_role := role; turn_content := content |} ])%list.
Proof.
  intros Hle. unfold updateContext. rewrite length_app. cbn [List.length].
  destruct (Nat.ltb_spec (List.length context) (maxContext * 2)) as [Hlt|Hge].
  - replace (Nat.ltb (maxContext * 2) (List.length context + 1)) with false
      by (symmetry; apply Nat.ltb_ge; lia).
    rewrite length_app, last_last. cbn [List.length]. repeat split. lia.
  - replace (Nat.ltb (maxContext * 2) (List.length context + 1)) with true
      by (symmetry; apply Nat.ltb_lt; lia).
    destruct context as [|t0 rest]; [cbn in Hge; lia|].
    cbn [app tl]. rewrite length_app, last_last. cbn in *. repeat split. lia.
Qed.

Lemma context_stays_bounded_witness :
  (List.length (updateContext "user" (JStr "hi") []) <= maxContext * 2)%nat
  /\ last (updateContext "user" (JStr "hi") []) {| turn_role := ""; turn_content := JNull |}
     = {| turn_role := "user"; turn_content := JStr "hi" |}
  /\ updateContext "user" (JStr "hi") []
     = (if Nat.ltb (List.length (@nil Turn)) (maxContext * 2)
        then [] ++ [ {| turn_role := "user"; turn_content := JStr "hi" |} ]
        else tl [] ++ [ {| turn_role := "user"; turn_content := JStr "hi" |} ])%list.
Proof.
  apply (@context_stays_bounded "user" (JStr "hi") []). cbn. lia.
Defined.

End TinyLLMFacts.

(** ** The handlers of the generation routes *)

Module HttpFacts.
Import Intent IntentFacts IntentListing AppRoutes Http.

(** X25.  Image generation fails in one way unless OpenAI is asked for by
    name: without a key, or with a provider other than "auto" and "openai",
    the call raises the "no provider" error without contacting anyone; an
    OpenAI failure is reported as such only when the provider was "openai",
    and is replaced by the "no provider" error under "auto". *)
Theorem generateImage_failures (openaiKey : bool)
    (generateWithOpenAI : JsVal -> Outcome string) (prompt : JsVal)
    (provider : option string) (error : Exn) :
  let unavailable :=
    Raised (Error "No image generation provider available (OpenAI key not configured)") in
  ImageGen.generateImage false generateWithOpenAI prompt provider = unavailable
  /\ (provider <> None -> provider <> Some "auto" -> provider <> Some "openai" ->
      ImageGen.generateImage openaiKey generateWithOpenAI prompt provider = unavailable)
  /\ (generateWithOpenAI prompt = Raised error ->
      ImageGen.generateImage true generateWithOpenAI prompt (Some "openai") = Raised error
      /\ ImageGen.generateImage true generateWithOpenAI prompt None = unavailable
      /\ ImageGen.generateImage true generateWithOpenAI prompt (Some "auto") = unavailable).
Proof.
  cbn zeta. unfold ImageGen.generateImage. split; [|split].
  - destruct (_ || _); reflexivity.
  - intros Hnone Hauto Hopenai. destruct provider as [p|]; [|congruence].
    destruct (String.eqb_spec p "auto") as [->|_]; [congruence|].
    destruct (String.eqb_spec p "openai") as [->|_]; [congruence|].
    reflexivity.
  - intros ->. cbn. auto.
Qed.

Section Handlers.
Context `{StringImpl}.
Variable generateText : JsVal -> option string -> Options -> M GenResult.
Variable chat : list Message -> option string -> Options -> M ChatResult.
Variable generateStream : StreamInput -> option string -> Options ->
                          Trace -> Streamed * Trace.
Variable generateImage : JsVal -> Outcome string.
Variable executeSearch : JsVal -> string -> Outcome (list SearchResult).

(** X26.  The handlers of [POST /api/v1/generate] and [POST /api/v1/chat]
    never throw, whatever the service does. A request without its required
    field is answered 400 and the service is not called; otherwise the service
    is called once, its result is answered with status 200 and its exception
    with status 500 and the exception's message (a fixed text when the message
    is empty). *)
Theorem generation_handlers_always_reply (apis : list Api) (prompt : JsVal)
    (messages : option (list Message)) (model : option string) (options : Options)
    (t : Trace) :
  (exists reply t',
     postGenerate generateText prompt model options t = (Returned reply, t')
     /\ (if truthy prompt
         then match generateText prompt model options t with
              | (Returned result, t1) =>
                  (exists body, reply = Ok body
                                /\ g_text body = text result
                                /\ g_model body = Catalog.model result
                                /\ g_notices body = notices result)
                  /\ t' = t1
              | (Raised error, t1) =>
                  reply = Failed 500 (messageOr error "Failed to generate text")
                  /\ t' = t1
              end
         else reply = Failed 400 "Invalid request: prompt is required" /\ t' = t))
  /\ (exists reply t',
        postChat chat apis messages model options t = (Returned reply, t')
        /\ match messages with
           | None | Some [] =>
               reply = Failed 400 "Invalid request: messages array is required"
               /\ t' = t
           | Some sent =>
               match chat (injectApiContextChat apis sent) model options t with
               | (Returned result, t1) =>
                   (exists body, reply = Ok body
                                 /\ b_message body = c_message result
                                 /\ b_model body = c_model result)
                   /\ t' = t1
               | (Raised error, t1) =>
                   reply = Failed 500 (messageOr error "Failed to generate response")
                   /\ t' = t1
               end
           end).
Proof.
  split.
  - unfold postGenerate. destruct (truthy prompt); cbn [negb].
    + unfold tryCatch, bind, ret.
      destruct (generateText prompt model options t) as [[result|error] t1];
        eexists; eexists; split; try reflexivity; split; try reflexivity.
      eexists. split; [reflexivity|]. cbn. auto.
    + eexists; eexists; split; [reflexivity|]. split; reflexivity.
  - unfold postChat. destruct messages as [[|m ms]|];
      try (eexists; eexists; split; [reflexivity|]; split; reflexivity).
    unfold tryCatch, bind, ret.
    destruct (chat (injectApiContextChat apis (m :: ms)) model options t)
      as [[result|error] t1];
      eexists; eexists; split; try reflexivity; split; try reflexivity.
    eexists. split; [reflexivity|]. cbn. auto.
Qed.

(** X27.  [POST /api/v1/intent] answers 200 exactly for a non-empty string,
    and then with the detection of [detectIntent]; a missing, empty, zero or
    false query is answered 400; any other value reaches
    [userInput.toLowerCase()] and is answered 500 with the type error. *)
Theorem intent_route_statuses (query : JsVal) :
  match query with
  | JStr s =>
      if nonEmpty s
      then exists d, postIntent query = Ok d
                     /\ fst (detectIntent new_IntentDetector [] s) = Returned d
      else postIntent query = Failed 400 "Invalid request: query is required"
  | _ =>
      if truthy query
      then postIntent query = Failed 500 "userInput.toLowerCase is not a function"
      else postIntent query = Failed 400 "Invalid request: query is required"
  end.
Proof.
  unfold postIntent.
  destruct query as [| |b|n|s|items|]; cbn [truthy negb]; try reflexivity.
  - destruct b; reflexivity.
  - destruct (negb (n =? 0)); reflexivity.
  - destruct (nonEmpty s) eqn:Hs; cbn [negb]; [|reflexivity].
    destruct (detectIntent_returns [] s) as (d & Hd & _).
    exists d. unfold detectIntentOf. rewrite Hd. auto.
Qed.

Lemma firstSystem_In (messages : list Message) (m : Message) :
  firstSystem messages = Some m -> In m messages.
Proof.
  induction messages as [|x rest IH]; cbn [firstSystem]; [discriminate|].
  destruct (isSystem x).
  - intros Heq; inversion Heq; subst. now left.
  - intros Hfirst. right. now apply IH.
Qed.

Lemma textual_injection (apis : list Api) (messages : list Message) :
  forallb textual messages = true ->
  exists injected, injectApiContextStream apis messages = Returned injected.
Proof.
  intros Htext. unfold injectApiContextStream.
  destruct apis as [|a apis]; [eauto|].
  destruct (firstSystem messages) as [m|] eqn:Hfirst; [|eauto].
  apply firstSystem_In in Hfirst.
  rewrite forallb_forall in Htext. specialize (Htext m Hfirst).
  unfold textual, stringContent in Htext.
  destruct (content m); try discriminate. cbn [contentIncludes].
  destruct (includes apiMarker s); eauto.
Qed.

Lemma appendToFirstSystem_textual (extra : string) (messages messages' : list Message) :
  forallb textual messages = true ->
  appendToFirstSystem extra messages = Some messages' ->
  forallb textual messages' = true.
Proof.
  revert messages'; induction messages as [|m rest IH]; intros messages';
    cbn [appendToFirstSystem forallb]; [discriminate|].
  intros Hall. apply andb_true_iff in Hall as [Hm Hrest].
  destruct (isSystem m).
  - intros Heq; inversion Heq; subst. cbn [forallb]. now rewrite Hrest.
  - destruct (appendToFirstSystem extra rest) as [rest'|]; [|discriminate].
    intros Heq; inversion Heq; subst. cbn [forallb].
    now rewrite Hm, (IH rest' Hrest eq_refl).
Qed.

Lemma searchStep_independent (apis : list Api) (lastMessage : JsVal)
    (written : list Frame) (messages messages' : list Message) :
  forallb textual messages = true ->
  fst (searchStep executeSearch apis lastMessage written messages)
  = fst (searchStep executeSearch apis lastMessage written messages')
  /\ forallb textual (snd (searchStep executeSearch apis lastMessage written messages))
     = true.
Proof.
  intros Htext. unfold searchStep.
  destruct (find isSearchApi apis) as [searchApi|]; [|auto].
  destruct (executeSearch lastMessage (api_id searchApi)) as [results|e];
    cbn [fst snd]; [|auto].
  split; [reflexivity|].
  unfold injectSearchContext. destruct results as [|r rs]; [exact Htext|].
  unfold injectIntoSystem.
  destruct (appendToFirstSystem _ messages) as [messages1|] eqn:Happ.
  - now apply appendToFirstSystem_textual with (2 := Happ).
  - cbn [forallb]. now rewrite Htext.
Qed.

Lemma last_content_nonempty (m : Message) (ms : list Message) (d d' : Message) :
  last (m :: ms) d = last (m :: ms) d'.
Proof.
  revert m; induction ms as [|x ms IH]; intros m; [reflexivity|].
  change (last (m :: x :: ms) d) with (last (x :: ms) d).
  change (last (m :: x :: ms) d') with (last (x :: ms) d').
  apply IH.
Qed.

(** X29.  The stream route reads the conversation only through the content of
    its last message: two requests whose messages all carry text and end with
    the same content get the same frames and make the same calls, whatever
    came before, and whatever the route injected into the system message. *)
Theorem stream_route_reads_last_message_only (apis : list Api)
    (first second : list Message) (model searchMode : option string)
    (options : Options) (t : Trace) :
  first <> [] -> second <> [] ->
  forallb textual first = true -> forallb textual second = true ->
  content (last first (userMessage JUndefined))
  = content (last second (userMessage JUndefined)) ->
  postChatStream generateStream generateImage executeSearch apis (Some first)
    model searchMode options t
  = postChatStream generateStream generateImage executeSearch apis (Some second)
      model searchMode options t.
Proof.
  intros Hne1 Hne2 Ht1 Ht2 Hlast. unfold postChatStream.
  destruct first as [|m1 ms1]; [congruence|].
  destruct second as [|m2 ms2]; [congruence|].
  rewrite <- Hlast.
  set (lastMessage := content (last (m1 :: ms1) (userMessage JUndefined))).
  destruct (detectIntentOf lastMessage) as [intent|error]; [|reflexivity].
  destruct (if String.eqb (Intent.intent intent) "IMAGE_GENERATION" then _ else _)
    as [reply|written]; [reflexivity|].
  destruct (if String.eqb _ "on" then true else _).
  - destruct (searchStep_independent apis lastMessage written (m1 :: ms1) (m2 :: ms2) Ht1)
      as (Hw & Htext1).
    destruct (searchStep_independent apis lastMessage written (m2 :: ms2) (m1 :: ms1) Ht2)
      as (_ & Htext2).
    destruct (searchStep executeSearch apis lastMessage written (m1 :: ms1))
      as [w1 msgs1].
    destruct (searchStep executeSearch apis lastMessage written (m2 :: ms2))
      as [w2 msgs2].
    cbn [fst snd] in *. subst w2.
    destruct (textual_injection apis msgs1 Htext1) as (i1 & ->).
    destruct (textual_injection apis msgs2 Htext2) as (i2 & ->).
    reflexivity.
  - destruct (textual_injection apis (m1 :: ms1) Ht1) as (i1 & ->).
    destruct (textual_injection apis (m2 :: ms2) Ht2) as (i2 & ->).
    reflexivity.
Qed.

(** X30.  A request whose messages all carry text always gets a complete event
    stream: the route answers with frames, calls [res.end()], and the last
    frame is the [DONE] marker or an error frame. *)
Theorem stream_route_always_terminates (apis : list Api) (messages : list Message)
    (model searchMode : option string) (options : Options) (t : Trace) :
  messages <> [] ->
  forallb textual messages = true ->
  exists written,
    fst (postChatStream generateStream generateImage executeSearch apis
           (Some messages) model searchMode options t)
    = Frames written true
    /\ match last written Done with
       | Done | ErrorFrame _ => True
       | Content _ => False
       end.
Proof.
  intros Hne Htext. unfold postChatStream.
  destruct messages as [|m ms]; [congruence|].
  set (lastMessage := content (last (m :: ms) (userMessage JUndefined))).
  assert (Hstr : exists s, lastMessage = JStr s).
  { unfold lastMessage. rewrite forallb_forall in Htext.
    assert (Hin : In (last (m :: ms) (userMessage JUndefined)) (m :: ms)).
    { clear. revert m; induction ms as [|x ms IH]; intros m; [now left|].
      change (last (m :: x :: ms) (userMessage JUndefined))
        with (last (x :: ms) (userMessage JUndefined)). right. apply IH. }
    specialize (Htext _ Hin). unfold textual, stringContent in Htext.
    destruct (content _); try discriminate. eauto. }
  destruct Hstr as (s & Hs). rewrite Hs.
  destruct (detectIntent_returns [] s) as (d & Hd & _).
  unfold detectIntentOf. rewrite Hd.
  assert (Hrelay : forall written t0,
             exists frames,
               fst (relayStep generateStream (JStr s) model options written t0)
               = Frames frames true
               /\ match last frames Done with
                  | Done | ErrorFrame _ => True
                  | Content _ => False
                  end).
  { intros written t0. unfold relayStep.
    destruct (generateStream (InPrompt (JStr s)) model options t0) as [stream t1].
    destruct (failure stream) as [error|]; cbn [fst]; eexists;
      (split; [reflexivity|]); rewrite !app_assoc, last_last; exact I. }
  destruct (String.eqb (Intent.intent d) "IMAGE_GENERATION").
  - destruct (generateImage (JStr s)) as [imageUrl|e].
    + cbn [fst]. eexists. split; [reflexivity|]. cbn. exact I.
    + destruct (if String.eqb _ "on" then true else _).
      * destruct (searchStep_independent apis (JStr s)
                    ([Content ("*Generating image...*" ++ nl ++ nl)]
                     ++ [Content ("*Image generation failed: " ++ message e ++ "*"
                                  ++ nl ++ nl)])%list
                    (m :: ms) (m :: ms) Htext) as (_ & Htext1).
        destruct (searchStep executeSearch apis (JStr s) _ (m :: ms)) as [w1 msgs1].
        cbn [snd] in Htext1.
        destruct (textual_injection apis msgs1 Htext1) as (i1 & ->). apply Hrelay.
      * destruct (textual_injection apis (m :: ms) Htext) as (i1 & ->). apply Hrelay.
  - destruct (if String.eqb _ "on" then true else _).
    + destruct (searchStep_independent apis (JStr s) [] (m :: ms) (m :: ms) Htext)
        as (_ & Htext1).
      destruct (searchStep executeSearch apis (JStr s) [] (m :: ms)) as [w1 msgs1].
      cbn [snd] in Htext1.
      destruct (textual_injection apis msgs1 Htext1) as (i1 & ->). apply Hrelay.
    + destruct (textual_injection apis (m :: ms) Htext) as (i1 & ->). apply Hrelay.
Qed.
End Handlers.

(** X28.  Through [POST /api/v1/generate] the built-in service of the
    [local/instruct] variant answers a text prompt for a model id that is not
    in the catalog with status 200 and the default model; a prompt that is a
    number is answered with status 500 and the message of the type error
    raised by [(prompt || '').toLowerCase()], in which the engine prints the
    string literal between double quotes; an empty prompt is answered 400
    before the service is entered. *)
Theorem generate_route_on_builtin_service `{StringImpl} (E : Env)
    (modelId prompt : string) (options : Options) :
  objGet modelId (Instruct.catalog E) = None ->
  nonEmpty prompt = true ->
  (exists body d,
     run (postGenerate (Instruct.generateText E) (JStr prompt) (Some modelId) options)
     = (Returned (Ok body), d)
     /\ g_model body = Instruct.defaultModel
     /\ g_loading body = false)
  /\ run (postGenerate (Instruct.generateText E) (JNum 42) (Some modelId) options)
     = (Returned (Failed 500 ("(prompt || " ++ dq ++ dq ++ ").toLowerCase is not a function")),
        [CallLocalModel (JNum 42) Instruct.defaultModel])
  /\ run (postGenerate (Instruct.generateText E) (JStr "") (Some modelId) options)
     = (Returned (Failed 400 "Invalid request: prompt is required"), []).
Proof.
  intros Hnone Hprompt. split; [|split].
  - unfold run, postGenerate. cbn [truthy]. rewrite Hprompt. cbn [negb].
    unfold tryCatch, bind, ret, Instruct.generateText.
    destruct (UnknownModel.unknown_lookup _ _ Hnone) as [Hl|Hl];
      rewrite Hl; cbn [present]; cbv iota.
    + rewrite Hl. cbn [hasType andb]. cbv iota.
      destruct (LocalModelFacts.instruct_local_string E prompt Instruct.defaultModel
                  (withNotice "Requested model type is not supported. Using the built-in assistant instead.")
                  []) as (response & Hlocal).
      cbn zeta in Hlocal. rewrite Hlocal.
      eexists. eexists. split; [reflexivity|]. split; reflexivity.
    + DispatchFacts.decide_types (Instruct.catalog E) Instruct.defaultModel.
      destruct (LocalModelFacts.instruct_local_string E prompt Instruct.defaultModel
                  {| opt_notice := opt_notice options; inlineModelNotice := None |} [])
        as (response & Hlocal).
      cbn zeta in Hlocal. rewrite Hlocal.
      eexists. eexists. split; [reflexivity|]. split; reflexivity.
  - unfold run, postGenerate. cbn [truthy Z.eqb negb]. unfold tryCatch, bind, ret.
    unfold Instruct.generateText.
    destruct (UnknownModel.unknown_lookup _ _ Hnone) as [Hl|Hl];
      rewrite Hl; cbn [present]; cbv iota.
    + rewrite Hl. cbn [hasType andb]. cbv iota. reflexivity.
    + DispatchFacts.decide_types (Instruct.catalog E) Instruct.defaultModel.
      reflexivity.
  - reflexivity.
Qed.

Lemma generate_route_on_builtin_service_witness :
  (exists body d,
     run (postGenerate (Instruct.generateText Doubles.offlineEnv) (JStr "hello")
            (Some "no-such-model") noOptions)
     = (Returned (Ok body), d)
     /\ g_model body = Instruct.defaultModel
     /\ g_loading body = false)
  /\ run (postGenerate (Instruct.generateText Doubles.offlineEnv) (JNum 42)
            (Some "no-such-model") noOptions)
     = (Returned (Failed 500 ("(prompt || " ++ dq ++ dq ++ ").toLowerCase is not a function")),
        [CallLocalModel (JNum 42) Instruct.defaultModel])
  /\ run (postGenerate (Instruct.generateText Doubles.offlineEnv) (JStr "")
            (Some "no-such-model") noOptions)
     = (Returned (Failed 400 "Invalid request: prompt is required"), []).
Proof.
  apply (@generate_route_on_builtin_service AsciiStrings Doubles.offlineEnv
           "no-such-model" "hello" noOptions); reflexivity.
Defined.

Lemma stream_route_reads_last_message_only_witness :
  postChatStream (Aakarsh.generateStream Doubles.offlineEnv)
    (fun _ => Raised (Error "no provider")) (fun _ _ => Returned [])
    [Doubles.weatherApi]
    (Some [userMessage (JStr "earlier"); userMessage (JStr "hello")])
    (Some "local/aakarsh") None noOptions []
  = postChatStream (Aakarsh.generateStream Doubles.offlineEnv)
      (fun _ => Raised (Error "no provider")) (fun _ _ => Returned [])
      [Doubles.weatherApi]
      (Some [userMessage (JStr "hello")])
      (Some "local/aakarsh") None noOptions [].
Proof.
  apply (@stream_route_reads_last_message_only AsciiStrings
           (Aakarsh.generateStream Doubles.offlineEnv)
           (fun _ => Raised (Error "no provider")) (fun _ _ => Returned [])
           [Doubles.weatherApi]
           [userMessage (JStr "earlier"); userMessage (JStr "hello")]
           [userMessage (JStr "hello")]
           (Some "local/aakarsh") None noOptions []);
    try discriminate; reflexivity.
Defined.

Lemma stream_route_always_terminates_witness :
  exists written,
    fst (postChatStream (Aakarsh.generateStream Doubles.offlineEnv)
           (fun _ => Raised (Error "no provider")) (fun _ _ => Returned [])
           [Doubles.weatherApi] (Some Doubles.conversation)
           (Some "local/aakarsh") None noOptions [])
    = Frames written true
    /\ match last written Done with
       | Done | ErrorFrame _ => True
       | Content _ => False
       end.
Proof.
  apply (@stream_route_always_terminates AsciiStrings
           (Aakarsh.generateStream Doubles.offlineEnv)
           (fun _ => Raised (Error "no provider")) (fun _ _ => Returned [])
           [Doubles.weatherApi] Doubles.conversation
           (Some "local/aakarsh") None noOptions []);
    [discriminate | reflexivity].
Defined.

End HttpFacts.

(* ===================================================================== *)
(** * Part II, concluded.  Unknown ids and failing backends, text and chat *)
(* ===================================================================== *)

(** ** The built-in chat reply on a conversation that ends on a question *)

Module LocalChatReply.
Import ChatView LocalModelFacts.

Lemma safeMessagesOf_sendable (messages : list Message) :
  sendable messages = [] -> safeMessagesOf messages = [].
Proof.
  unfold sendable, safeMessagesOf.
  induction messages as [|m ms IH]; [reflexivity|].
  cbn [filter flat_map]. destruct (stringContent m); [discriminate|]. exact IH.
Qed.

(** A conversation with a text message of the user has a message that
    [requestHuggingFaceChat] can send. *)
Lemma sendable_of_text (messages : list Message) (s : string) :
  lastUserText messages = Some s -> sendable messages <> [].
Proof.
  unfold lastUserText. intros Hlast Hnone.
  rewrite (safeMessagesOf_sendable _ Hnone) in Hlast. discriminate.
Qed.

(** [lastUserText] is what the search through [reverse().findIndex] finds. *)
Lemma last_user_found (messages : list Message) (s : string) :
  lastUserText messages = Some s ->
  exists i m,
    lastIndexWhere (fun e : Message * string => isUser (fst e))
      (safeMessagesOf messages) 0 = Some i
    /\ nth_error (safeMessagesOf messages) i = Some (m, s).
Proof.
  unfold lastUserText. intros Hlast.
  pose proof (LocalChatFacts.lastIndexWhere_spec
                (fun e : Message * string => isUser (fst e))
                (safeMessagesOf messages) 0) as Hspec.
  destruct (lastIndexWhere _ (safeMessagesOf messages) 0) as [j|].
  - destruct Hspec as (_ & x & Hnth & Hl & _).
    rewrite Nat.sub_0_r in Hnth. rewrite Hl in Hlast.
    destruct x as [m s']. inversion Hlast; subst. exists j, m. auto.
  - rewrite Hspec in Hlast. discriminate.
Qed.

Section Blank.
Context `{StringImpl}.

Lemma last_user_blank (messages : list Message) :
  (forall s, lastUserText messages = Some s -> nonEmpty (trim s) = false) ->
  match lastIndexWhere (fun e : Message * string => isUser (fst e))
          (safeMessagesOf messages) 0 with
  | Some i =>
      exists m s, nth_error (safeMessagesOf messages) i = Some (m, s)
                  /\ nonEmpty (trim s) = false
  | None => True
  end.
Proof.
  unfold lastUserText. intros Hblank.
  pose proof (LocalChatFacts.lastIndexWhere_spec
                (fun e : Message * string => isUser (fst e))
                (safeMessagesOf messages) 0) as Hspec.
  destruct (lastIndexWhere _ (safeMessagesOf messages) 0) as [j|]; [|exact I].
  destruct Hspec as (_ & x & Hnth & Hl & _).
  rewrite Nat.sub_0_r in Hnth. rewrite Hl in Hblank.
  destruct x as [m s]. exists m, s. split; [exact Hnth|]. now apply Hblank.
Qed.
End Blank.

Section Reply.
Context `{StringImpl}.
Variable catalog : Obj Model.
Variable defaultModel : string.
Variable prepareNotices : Lookup -> Options -> Prepared.
Variable generateWithLocalModel : JsVal -> string -> Options -> M GenResult.
Variable localModelIsAsync : bool.

(** When the last text message of the user is not blank the reply is
    built at once, from that text, and no generator is entered. *)
Lemma local_chat_answers (messages : list Message) (s modelId : string)
    (options : Options) (t : Trace) :
  lastUserText messages = Some s ->
  nonEmpty (trim s) = true ->
  let fb := if isLocal catalog modelId then modelId else defaultModel in
  let model := lookup catalog fb in
  exists rest,
    Adapters.generateLocalChatResponse catalog defaultModel prepareNotices
      generateWithLocalModel localModelIsAsync messages modelId options t
    = (Returned
         (Direct {| text := composeContent
                              (localChatReply (trim s) (toLowerCase (trim s)) ++ rest)
                              (inline (prepareNotices model options));
                    model := fb;
                    modelInfo := model;
                    loading := Some false;
                    notices := extra (prepareNotices model options) |}),
       (t ++ [CallLocalChat modelId])%list).
Proof.
  intros Hlast Hfull. cbn zeta.
  destruct (last_user_found _ Hlast) as (i & m & Hidx & Hnth).
  unfold Adapters.generateLocalChatResponse.
  cbv beta iota zeta delta [bind emit]. rewrite Hidx, Hnth, Hfull.
  match goal with
  | |- context [if nonEmpty ?topicLine then _ else _] =>
      destruct (nonEmpty topicLine)
  end.
  - eexists. unfold ret. rewrite !NoticeFacts.append_assoc. reflexivity.
  - eexists. unfold ret. reflexivity.
Qed.
End Reply.

Section Deferred.
Context `{StringImpl} (E : Env).

(** In the [local/instruct] variant the other case hands the promise of
    the asynchronous [generateWithLocalModel] to a caller that reads its
    fields at once. *)
Lemma instruct_chat_defers (messages : list Message) (modelId : string)
    (options : Options) (t : Trace) :
  (forall s, lastUserText messages = Some s -> nonEmpty (trim s) = false) ->
  exists settled t',
    Instruct.generateLocalChatResponse E messages modelId options t
    = (Returned (Promise settled), t').
Proof.
  intros Hblank. pose proof (last_user_blank _ Hblank) as Hfound.
  unfold Instruct.generateLocalChatResponse, Adapters.generateLocalChatResponse.
  cbv beta iota zeta delta [bind emit].
  destruct (lastIndexWhere _ (safeMessagesOf messages) 0) as [i|].
  - destruct Hfound as (m & s & Hnth & Hb). rewrite Hnth, Hb.
    match goal with
    | |- context [Instruct.generateWithLocalModel ?e ?p ?id ?o ?u] =>
        destruct (Instruct.generateWithLocalModel e p id o u) as [settled t']
    end.
    eauto.
  - match goal with
    | |- context [Instruct.generateWithLocalModel ?e ?p ?id ?o ?u] =>
        destruct (Instruct.generateWithLocalModel e p id o u) as [settled t']
    end.
    eauto.
Qed.
End Deferred.

End LocalChatReply.

(** ** Unknown model ids, in both variants *)

Module UnknownIds.
Import ChatView LocalModelFacts LocalChatReply UnknownModel.

Section Paths.
Context `{StringImpl} (E : Env).

(** [generateText] of the [local/aakarsh] variant on an id that is not a
    catalog key: the default model answers. *)
Lemma aakarsh_generateText_unknown (modelId prompt : string) (options : Options)
    (t : Trace) :
  objGet modelId (Aakarsh.catalog E) = None ->
  exists r d,
    Aakarsh.generateText E (JStr prompt) (Some modelId) options t
    = (Returned r, (t ++ CallLocalModel (JStr prompt) "local/aakarsh" :: d)%list)
    /\ (d = [] \/ d = [CallNeuralHead "local/aakarsh"])
    /\ model r = "local/aakarsh".
Proof.
  intros Hnone. unfold Aakarsh.generateText.
  destruct (unknown_lookup _ _ Hnone) as [Hl|Hl]; rewrite Hl; cbn [present]; cbv iota.
  - rewrite Hl. cbn [hasType]. cbv iota.
    destruct (aakarsh_local_string E prompt Aakarsh.defaultModel
                (withNotice "Requested model type is not supported. Using the built-in assistant instead.")
                t) as (body & d & Heq & Hd & _).
    cbn zeta in Heq. rewrite Heq. eexists. exists d.
    split; [reflexivity|]. split; [exact Hd | reflexivity].
  - DispatchFacts.decide_types (Aakarsh.catalog E) Aakarsh.defaultModel.
    destruct (aakarsh_local_string E prompt Aakarsh.defaultModel
                {| opt_notice := opt_notice options; inlineModelNotice := None |} t)
      as (body & d & Heq & Hd & _).
    cbn zeta in Heq. rewrite Heq. eexists. exists d.
    split; [reflexivity|]. split; [exact Hd | reflexivity].
Qed.

(** [chat] of the [local/instruct] variant on an id that is not a catalog
    key, for a conversation whose last text message of the user is not
    blank. *)
Lemma instruct_chat_unknown (modelId s : string) (messages : list Message)
    (options : Options) :
  objGet modelId (Instruct.catalog E) = None ->
  lastUserText messages = Some s ->
  nonEmpty (trim s) = true ->
  exists c d,
    run (Instruct.chat E messages (Some modelId) options) = (Returned c, d)
    /\ localCalls d = 1%nat
    /\ c_model c = Some "local/instruct".
Proof.
  intros Hnone Hlast Hfull. unfold run, Instruct.chat.
  destruct (unknown_lookup _ _ Hnone) as [Hl|Hl]; rewrite Hl; cbn [present]; cbv iota.
  - rewrite Hl. cbn [hasType andb]. cbv iota.
    destruct (instruct_generateText_unknown E modelId
                (formatMessagesAsPrompt messages modelId) options Hnone)
      as (r & _ & Heq & Hm & _).
    unfold run in Heq. unfold bind. rewrite Heq. unfold ret.
    eexists. eexists. split; [reflexivity|]. split; [reflexivity|].
    cbn [chatResultOf c_model]. now rewrite Hm.
  - DispatchFacts.decide_types (Instruct.catalog E) Instruct.defaultModel.
    change (String.eqb Instruct.defaultModel "local/instruct") with true. cbv iota.
    unfold Instruct.generateLocalChatResponse.
    destruct (local_chat_answers (Instruct.catalog E) Instruct.defaultModel
                Instruct.prepareNotices (Instruct.generateWithLocalModel E) true
                messages Instruct.defaultModel options [] Hlast Hfull)
      as (rest & Heq).
    cbn zeta in Heq. unfold bind. rewrite Heq. unfold ret.
    eexists. eexists. split; [reflexivity|]. split; reflexivity.
Qed.

(** The other conversations, in the [local/instruct] variant: [chat]
    copies the fields of a promise, so the object it returns has no
    [model] and no [message]. *)
Lemma instruct_chat_unanswered (modelId : string) (messages : list Message)
    (options : Options) :
  lookup (Instruct.catalog E) modelId = Missing ->
  (forall s, lastUserText messages = Some s -> nonEmpty (trim s) = false) ->
  exists d,
    run (Instruct.chat E messages (Some modelId) options)
    = (Returned {| c_message := None; c_model := None; c_modelInfo := None;
                   c_loading := None; c_notices := None |}, d).
Proof.
  intros Hl Hblank. unfold run, Instruct.chat.
  rewrite Hl. cbn [present]. cbv iota.
  DispatchFacts.decide_types (Instruct.catalog E) Instruct.defaultModel.
  change (String.eqb Instruct.defaultModel "local/instruct") with true. cbv iota.
  destruct (instruct_chat_defers E messages Instruct.defaultModel options [] Hblank)
    as (settled & t' & Heq).
  unfold bind. rewrite Heq. unfold ret. cbn [chatResultOfHeld]. eauto.
Qed.

Lemma instruct_stream_missing (modelId : string) (input : StreamInput)
    (options : Options) (t : Trace) :
  lookup (Instruct.catalog E) modelId = Missing ->
  Instruct.generateStream E input (Some modelId) options t
  = ({| yielded := ["Model not found"]; failure := None |}, t).
Proof.
  intros Hl. unfold Instruct.generateStream, Adapters.generateStream.
  rewrite Hl. reflexivity.
Qed.

End Paths.

(** The blank conversation of the [local/instruct] variant, on an id the
    catalog does not have. *)
Example instruct_chat_blank_question :
  run (Instruct.chat Doubles.offlineEnv [userMessage (JStr "   ")]
         (Some "nonexistent/model") noOptions)
  = (Returned {| c_message := None; c_model := None; c_modelInfo := None;
                 c_loading := None; c_notices := None |},
     [CallLocalChat "local/instruct"; CallLocalModel (JStr "") "local/instruct";
      CallBuiltinGenerator (JStr "")]).
Proof. vm_compute. reflexivity. Qed.

(** C1 (amended).  For every model id that is not a key of the catalog,
    in both variants of the service: [generateText] answers a text prompt
    from the registered default model, whose type is [local], without
    raising, and the result names that model; [chat] does so for every
    conversation in the [local/aakarsh] variant and, in the
    [local/instruct] variant, for every conversation whose last text
    message of the user is not blank.  [generateStream] resolves nothing:
    when the lookup finds nothing, and when no id is given at all, it
    yields the single chunk "Model not found", enters no adapter and does
    not raise. *)
Theorem unknown_model_dispatch `{StringImpl} (E : Env) (modelId prompt : string)
    (messages : list Message) (input : StreamInput) (options : Options) :
  let notFound := {| yielded := ["Model not found"]; failure := None |} in
  (objGet modelId (Aakarsh.catalog E) = None ->
   (exists r d,
       run (Aakarsh.generateText E (JStr prompt) (Some modelId) options)
       = (Returned r, d)
       /\ localModelCalls d = 1%nat
       /\ model r = Aakarsh.defaultModel)
   /\ (exists c d,
         run (Aakarsh.chat E messages (Some modelId) options) = (Returned c, d)
         /\ c_model c = Some Aakarsh.defaultModel))
  /\ (objGet modelId (Instruct.catalog E) = None ->
      (exists r,
          run (Instruct.generateText E (JStr prompt) (Some modelId) options)
          = (Returned r,
             [CallLocalModel (JStr prompt) "local/instruct";
              CallBuiltinGenerator (JStr prompt)])
          /\ model r = Instruct.defaultModel)
      /\ (forall s,
            lastUserText messages = Some s ->
            nonEmpty (trim s) = true ->
            exists c d,
              run (Instruct.chat E messages (Some modelId) options) = (Returned c, d)
              /\ localCalls d = 1%nat
              /\ c_model c = Some Instruct.defaultModel))
  /\ hasType (lookup (Aakarsh.catalog E) Aakarsh.defaultModel) "local" = true
  /\ hasType (lookup (Instruct.catalog E) Instruct.defaultModel) "local" = true
  /\ (forall t,
        lookup (Aakarsh.catalog E) modelId = Missing ->
        Aakarsh.generateStream E input (Some modelId) options t = (notFound, t))
  /\ (forall t,
        lookup (Instruct.catalog E) modelId = Missing ->
        Instruct.generateStream E input (Some modelId) options t = (notFound, t))
  /\ (forall t,
        Aakarsh.generateStream E input None options t = (notFound, t)
        /\ Instruct.generateStream E input None options t = (notFound, t)).
Proof.
  cbn zeta. split; [|split; [|split; [|split; [|split; [|split]]]]].
  - intros Hnone. split.
    + destruct (aakarsh_generateText_unknown E modelId prompt options [] Hnone)
        as (r & d & Heq & Hd & Hm).
      exists r. eexists. split; [exact Heq|]. split; [|exact Hm].
      destruct Hd as [-> | ->]; reflexivity.
    + destruct (aakarsh_chat_unknown E modelId messages options Hnone)
        as (c & d & Heq & Hm).
      exists c, d. split; [exact Heq | exact Hm].
  - intros Hnone. split.
    + destruct (instruct_generateText_unknown E modelId prompt options Hnone)
        as (r & _ & Heq & Hm & _).
      exists r. split; [exact Heq | exact Hm].
    + intros s Hlast Hfull.
      apply (instruct_chat_unknown E modelId messages options Hnone Hlast Hfull).
  - reflexivity.
  - reflexivity.
  - intros t Hl. now apply aakarsh_stream_missing.
  - intros t Hl. now apply instruct_stream_missing.
  - intros t. split; reflexivity.
Qed.

Lemma unknown_model_dispatch_witness :
  let E := Doubles.offlineEnv in
  let question := [userMessage (JStr "hello")] in
  objGet "nonexistent/model" (Aakarsh.catalog E) = None
  /\ objGet "nonexistent/model" (Instruct.catalog E) = None
  /\ lastUserText question = Some "hello"
  /\ nonEmpty (trim "hello") = true
  /\ lookup (Aakarsh.catalog E) "nonexistent/model" = Missing
  /\ (exists r d,
         run (Aakarsh.generateText E (JStr "hello") (Some "nonexistent/model") noOptions)
         = (Returned r, d)
         /\ localModelCalls d = 1%nat
         /\ model r = Aakarsh.defaultModel)
  /\ (exists c d,
         run (Aakarsh.chat E question (Some "nonexistent/model") noOptions)
         = (Returned c, d)
         /\ c_model c = Some Aakarsh.defaultModel)
  /\ (exists r,
         run (Instruct.generateText E (JStr "hello") (Some "nonexistent/model") noOptions)
         = (Returned r,
            [CallLocalModel (JStr "hello") "local/instruct";
             CallBuiltinGenerator (JStr "hello")])
         /\ model r = Instruct.defaultModel)
  /\ (exists c d,
         run (Instruct.chat E question (Some "nonexistent/model") noOptions)
         = (Returned c, d)
         /\ localCalls d = 1%nat
         /\ c_model c = Some Instruct.defaultModel)
  /\ Aakarsh.generateStream E (InMessages question) (Some "nonexistent/model")
       noOptions []
     = ({| yielded := ["Model not found"]; failure := None |}, []).
Proof.
  cbn zeta.
  destruct (unknown_model_dispatch (H := AsciiStrings) Doubles.offlineEnv
              "nonexistent/model" "hello" [userMessage (JStr "hello")]
              (InMessages [userMessage (JStr "hello")]) noOptions)
    as (Haakarsh & Hinstruct & _ & _ & Hstream & _).
  destruct (Haakarsh eq_refl) as (Htext & Hchat).
  destruct (Hinstruct eq_refl) as (Htext' & Hchat').
  split; [reflexivity|]. split; [reflexivity|]. split; [reflexivity|].
  split; [reflexivity|]. split; [reflexivity|].
  split; [exact Htext|]. split; [exact Hchat|]. split; [exact Htext'|].
  split; [exact (Hchat' "hello" eq_refl eq_refl)|].
  exact (Hstream [] eq_refl).
Defined.

End UnknownIds.

(** ** Failing backends, for text and for chat *)

Module FailureFallback.
Import ChatView LocalModelFacts Trim TrimFacts DispatchFacts LocalChatReply Instruct.

Section Paths.
Context `{L : StringLaws} (E : Env).

(** A fallback call of the built-in chat with a notice, on a conversation
    whose last text message of the user is not blank: one call, on the
    original messages; the reply opens with the notice and is built from
    that message. *)
Lemma instruct_chat_fallback (messages : list Message) (s notice : string)
    (u : Trace) :
  lastUserText messages = Some s ->
  nonEmpty (trim s) = true ->
  graphicEnds notice = true ->
  exists r rest,
    Instruct.generateLocalChatResponse E messages Instruct.defaultModel
      (withNotice notice) u
    = (Returned (Direct r), (u ++ [CallLocalChat "local/instruct"])%list)
    /\ text r = notice ++ nl ++ nl
                ++ localChatReply (trim s) (toLowerCase (trim s)) ++ rest
    /\ model r = "local/instruct"
    /\ loading r = Some false.
Proof.
  intros Hlast Hfull Hg.
  destruct (local_chat_answers (Instruct.catalog E) Instruct.defaultModel
              Instruct.prepareNotices (Instruct.generateWithLocalModel E) true
              messages Instruct.defaultModel (withNotice notice) u Hlast Hfull)
    as (rest & Heq).
  cbn zeta in Heq.
  eexists. exists rest. split; [exact Heq|]. cbn [text model loading].
  split; [|split; reflexivity].
  unfold Instruct.prepareNotices. apply composeContent_single; [exact Hg | reflexivity].
Qed.

(** [chat] reaches the daemon and the on-device models through
    [generateText], on the prompt written from the messages. *)
Lemma chat_through_text (id : string) (messages : list Message) (options : Options) :
  hasType (lookup (Instruct.catalog E) id) "ollama" = true
  \/ hasType (lookup (Instruct.catalog E) id) "xenova" = true ->
  run (Instruct.chat E messages (Some id) options)
  = match run (Instruct.generateText E (JStr (formatMessagesAsPrompt messages id))
                 (Some id) options) with
    | (Returned r, d) => (Returned (chatResultOf r), d)
    | (Raised e, d) => (Raised e, d)
    end.
Proof.
  intros Htype. unfold run, Instruct.chat.
  assert (Hshape : exists m, lookup (Instruct.catalog E) id = Own m
                             /\ (type m = "ollama" \/ type m = "xenova")).
  { destruct Htype as [Ht|Ht]; destruct (typed_lookup _ _ _ Ht) as (m & Hl & Hm);
      exists m; auto. }
  destruct Hshape as (m & Hl & Hm).
  rewrite Hl. cbn [present]. cbv iota. rewrite Hl. cbn [hasType].
  destruct Hm as [-> | ->].
  - change (String.eqb "ollama" "openai") with false.
    change (String.eqb "ollama" "local") with false.
    change (String.eqb "ollama" "huggingface") with false.
    cbn [andb]. cbv iota. unfold bind, ret.
    destruct (Instruct.generateText E _ (Some id) options []) as [[r|e] d]; reflexivity.
  - change (String.eqb "xenova" "openai") with false.
    change (String.eqb "xenova" "local") with false.
    change (String.eqb "xenova" "huggingface") with false.
    cbn [andb]. cbv iota. unfold bind, ret.
    destruct (Instruct.generateText E _ (Some id) options []) as [[r|e] d]; reflexivity.
Qed.

Lemma one_status (error : Exn) (a b : Z) :
  hasStatus error a = true -> a <> b -> hasStatus error b = false.
Proof.
  unfold hasStatus. destruct (response error) as [r|]; [|discriminate].
  intros Ha Hab. apply Z.eqb_eq in Ha. apply Z.eqb_neq. congruence.
Qed.

(** The chat handler on any other failure than 401 and 403: one fallback
    call on the original messages, with a notice. *)
Lemma hf_chat_other (error : Exn) (messages : list Message) (s id : string)
    (u : Trace) :
  hasStatus error 401 = false -> hasStatus error 403 = false ->
  lastUserText messages = Some s ->
  nonEmpty (trim s) = true ->
  exists c notice rest,
    Instruct.handleHuggingFaceChatError E error messages id u
    = (Returned c, (u ++ [CallLocalChat "local/instruct"])%list)
    /\ c_message c
       = Some (notice ++ nl ++ nl
               ++ localChatReply (trim s) (toLowerCase (trim s)) ++ rest)
    /\ c_model c = Some "local/instruct"
    /\ c_loading c = Some (hasStatus error 503)
    /\ (hasStatus error 503 = true ->
        notice
        = "Model is currently loading. This can take 20-30 seconds for the first request. Please try again in a moment..."
          ++ nl ++ nl ++ "Falling back to the built-in assistant for now.")
    /\ (hasStatus error 429 = true ->
        notice
        = "Rate limit reached for the selected Hugging Face model. Using the built-in assistant instead.")
    /\ (hasStatus error 503 = false ->
        exists head, notice = head ++ "Using the built-in assistant instead.")
    /\ (response error = None ->
        notice = "Remote generation failed. Using the built-in assistant instead.").
Proof.
  intros H401 H403 Hlast Hfull.
  assert (Hgo : forall notice (over : option bool),
             graphicEnds notice = true ->
             exists c rest,
               bind (Instruct.generateLocalChatResponse E messages Instruct.defaultModel
                       (withNotice notice))
                    (fun fallback => ret (Instruct.chatReplyOf fallback over)) u
               = (Returned c, (u ++ [CallLocalChat "local/instruct"])%list)
               /\ c_message c
                  = Some (notice ++ nl ++ nl
                          ++ localChatReply (trim s) (toLowerCase (trim s)) ++ rest)
               /\ c_model c = Some "local/instruct"
               /\ c_loading c = match over with Some b => Some b | None => Some false end).
  { intros notice over Hg.
    destruct (instruct_chat_fallback messages notice u Hlast Hfull Hg)
      as (r & rest & Heq & Ht & Hm & Hload).
    unfold bind. rewrite Heq. unfold ret. eexists. exists rest.
    split; [reflexivity|].
    destruct over as [b|]; cbn [Instruct.chatReplyOf chatResultOfHeld chatResultOf
                                c_message c_model c_loading];
      rewrite Ht, Hm, ?Hload; repeat split; reflexivity. }
  unfold Instruct.handleHuggingFaceChatError.
  destruct (hasStatus error 503) eqn:H503.
  { match goal with
    | |- context [withNotice ?n] =>
        destruct (Hgo n (Some true) eq_refl) as (c & rest & Heq & Hmsg & Hmod & Hload);
        exists c, n, rest
    end.
    split; [exact Heq|]. split; [exact Hmsg|]. split; [exact Hmod|].
    split; [exact Hload|]. split; [reflexivity|].
    split; [intros H429; rewrite (one_status error (a := 503) (b := 429) H503) in H429;
            [discriminate | lia]|].
    split; [discriminate|].
    intros Hnone. unfold hasStatus in H503. rewrite Hnone in H503. discriminate. }
  destruct (hasStatus error 429) eqn:H429.
  { match goal with
    | |- context [withNotice ?n] =>
        destruct (Hgo n None eq_refl) as (c & rest & Heq & Hmsg & Hmod & Hload);
        exists c, n, rest
    end.
    split; [exact Heq|]. split; [exact Hmsg|]. split; [exact Hmod|].
    split; [exact Hload|]. split; [discriminate|]. split; [reflexivity|].
    split; [intros _; exists "Rate limit reached for the selected Hugging Face model. ";
            reflexivity|].
    intros Hnone. unfold hasStatus in H429. rewrite Hnone in H429. discriminate. }
  rewrite H401, H403. cbn [orb]. cbv iota.
  destruct (hasStatus error 410) eqn:H410.
  { match goal with
    | |- context [withNotice ?n] =>
        destruct (Hgo n None eq_refl) as (c & rest & Heq & Hmsg & Hmod & Hload);
        exists c, n, rest
    end.
    split; [exact Heq|]. split; [exact Hmsg|]. split; [exact Hmod|].
    split; [exact Hload|]. split; [discriminate|]. split; [discriminate|].
    split; [intros _;
            exists "The selected Hugging Face model endpoint returned 410 (gone). ";
            reflexivity|].
    intros Hnone. unfold hasStatus in H410. rewrite Hnone in H410. discriminate. }
  match goal with
  | |- context [hasStatus error 400 && nonEmpty ?em] =>
      destruct (hasStatus error 400 && nonEmpty em) eqn:H400; [set (errorMessage := em)|]
  end.
  { assert (Hg : graphicEnds ("Hugging Face router rejected the request: " ++ errorMessage
                              ++ ". Using the built-in assistant instead.") = true)
      by graphic_ends.
    destruct (Hgo _ None Hg) as (c & rest & Heq & Hmsg & Hmod & Hload).
    exists c. eexists. exists rest.
    split; [exact Heq|]. split; [exact Hmsg|]. split; [exact Hmod|].
    split; [exact Hload|]. split; [discriminate|]. split; [discriminate|].
    split.
    - intros _. exists ("Hugging Face router rejected the request: " ++ errorMessage ++ ". ").
      rewrite !NoticeFacts.append_assoc. reflexivity.
    - intros Hnone. apply andb_true_iff in H400 as [H400 _].
      unfold hasStatus in H400. rewrite Hnone in H400. discriminate. }
  destruct (response error) as [resp|] eqn:Hresp.
  - destruct (status resp =? 0).
    + destruct (Hgo "Remote generation failed. Using the built-in assistant instead."
                  None eq_refl) as (c & rest & Heq & Hmsg & Hmod & Hload).
      exists c. eexists. exists rest.
      split; [exact Heq|]. split; [exact Hmsg|]. split; [exact Hmod|].
      split; [exact Hload|]. split; [discriminate|]. split; [discriminate|].
      split; [intros _; exists "Remote generation failed. "; reflexivity | discriminate].
    + assert (Hg : graphicEnds ("Remote generation failed (status " ++ showZ (status resp)
                                ++ "). Using the built-in assistant instead.") = true)
        by graphic_ends.
      destruct (Hgo _ None Hg) as (c & rest & Heq & Hmsg & Hmod & Hload).
      exists c. eexists. exists rest.
      split; [exact Heq|]. split; [exact Hmsg|]. split; [exact Hmod|].
      split; [exact Hload|]. split; [discriminate|]. split; [discriminate|].
      split; [|discriminate].
      intros _. exists ("Remote generation failed (status " ++ showZ (status resp) ++ "). ").
      rewrite !NoticeFacts.append_assoc. reflexivity.
  - destruct (Hgo "Remote generation failed. Using the built-in assistant instead."
                None eq_refl) as (c & rest & Heq & Hmsg & Hmod & Hload).
    exists c. eexists. exists rest.
    split; [exact Heq|]. split; [exact Hmsg|]. split; [exact Hmod|].
    split; [exact Hload|]. split; [discriminate|]. split; [discriminate|].
    split; [intros _; exists "Remote generation failed. "; reflexivity | reflexivity].
Qed.

End Paths.

Section TextBusy.
Context `{StringImpl} (E : Env).

(** The text handler on 503 and 429: it returns a fixed text under the
    name of the default model, and the built-in assistant is not entered. *)
Lemma hf_text_busy_not_retried (error : Exn) (resp : Response) (prompt : JsVal)
    (id : string) (u : Trace) :
  response error = Some resp ->
  status resp = 503 \/ status resp = 429 ->
  Instruct.handleHuggingFaceTextError E error prompt id u
  = (Returned
       {| text := if status resp =? 503
                  then "Model is currently loading. This can take 20-30 seconds for the first request. Please try again in a moment..."
                       ++ nl ++ nl ++ "Falling back to the built-in assistant for now."
                  else "Rate limit reached for the selected Hugging Face model. Using the built-in assistant instead.";
          model := Instruct.defaultModel;
          modelInfo := lookup (Instruct.catalog E) Instruct.defaultModel;
          loading := Some (status resp =? 503);
          notices := normalizeNotices (noticeOf (lookup (Instruct.catalog E) id)) |},
     u).
Proof.
  intros Hresp Hstatus. unfold Instruct.handleHuggingFaceTextError. rewrite Hresp.
  destruct Hstatus as [-> | ->]; reflexivity.
Qed.

End TextBusy.

(** A rate-limit or loading failure of the Hugging Face text request is
    answered without a retry: no rule-based entry point is entered and the
    text is the fixed one. *)
Example hf_text_rate_limit_not_retried :
  let out := run (Instruct.generateText (Doubles.cloudFailingEnv 429) (JStr "hello")
                    (Some hfId) noOptions) in
  (exists r,
      fst out = Returned r
      /\ text r
         = "Rate limit reached for the selected Hugging Face model. Using the built-in assistant instead."
      /\ model r = "local/instruct")
  /\ snd out = [CallRemote "huggingface" hfId]
  /\ localCalls (snd out) = 0%nat.
Proof.
  cbn zeta. split; [eexists; split; [vm_compute; reflexivity | split; reflexivity]|].
  split; reflexivity.
Qed.



(** The refused connection of the witness, spelled out. *)
Example connection_refused_notice :
  exists r,
    fst (run (Instruct.generateText Doubles.unreachableEnv (JStr "hello")
                (Some "ollama/mistral:7b") noOptions)) = Returned r
    /\ text r
       = "Could not reach Ollama at http://localhost:11434. Ensure the Ollama service is running and the model is pulled. Using built-in assistant instead."
         ++ nl ++ nl ++ "I'm listening."
    /\ loading r = Some false.
Proof. eexists. split; [vm_compute; reflexivity|]. split; reflexivity. Qed.

End FailureFallback.
